(** * Authentication and session management of the expense tracker

    A shallow embedding of [src/services/authService.ts] and
    [src/services/cookieMiddleware.ts].

    The services sit on top of the Bun runtime: an SQLite handle
    ([bun:sqlite]), the password primitive ([Bun.password]), the UUID
    generator, the wall clock, cookies and the Fetch [Response] and [Headers]
    objects.  The embedding keeps the service code as it is written and makes
    each of those collaborators explicit:

    - the tables are a value of type [Sqlite.Db] behind the shared handle
      [authDb]; a service function is a computation on the handle ([M]), with
      each of its SQL statements written out as a function of the tables;
    - a thrown JavaScript exception is a [Throw] completion, and [try]/[catch]
      is [try_catch];
    - a string is a sequence of characters with codes below 256, and [length]
      counts them;
    - clock readings and fresh randomness are arguments of the call that
      consumes them;
    - the password primitive, the cookie parser and the cookie serializer are
      interfaces (type classes) of which the service code is a client;
    - [Response] objects live in a heap, so that object identity and mutation
      can be told apart. *)

From Stdlib Require Import ZArith String Ascii List Bool Lia.
From Stdlib Require Import DecimalString.
From stdpp Require Import base option list.

Import ListNotations.
Local Open Scope string_scope.
Local Open Scope Z_scope.

(** ** JavaScript values, objects and completions *)

Module Js.

(** The primitive values that occur in the results of the service. *)
Inductive Value : Type :=
| Undefined
| Null
| Bool (b : bool)
| Num (n : Z)
| Str (s : string).

(** An object literal: its own properties, in insertion order. *)
Definition Object : Type := list (string * Value).

(** Own-property lookup; [None] means that the key is absent, which is
    different from a key that is present and holds [Undefined]. *)
Fixpoint get (key : string) (o : Object) : option Value :=
  match o with
  | [] => None
  | (k, v) :: rest => if String.eqb k key then Some v else get key rest
  end.

Definition keys (o : Object) : list string := map fst o.

(** ToBoolean. *)
Definition truthy (v : Value) : bool :=
  match v with
  | Undefined | Null => false
  | Bool b => b
  | Num n => negb (n =? 0)
  | Str s => negb (String.eqb s "")
  end.

(** ToBoolean on a string, as in [!username]. *)
Definition truthy_string (s : string) : bool := negb (String.eqb s "").

(** The result of evaluating an expression or a call: a value, or a thrown
    [Error] with its message. *)
Inductive Completion (A : Type) : Type :=
| Return (a : A)
| Throw (message : string).
Arguments Return {A} a.
Arguments Throw {A} message.

(** A floating-point number handed to a function that expects an id: either
    it is integral, or it is not (a fraction, NaN, an infinity). *)
Inductive Number : Type :=
| Integral (z : Z)
| NonIntegral.

End Js.

(** ** Strings *)

Module Text.

(** Decimal rendering of an integer, as [Number.prototype.toString] gives
    for integral values in the safe range. *)
Definition of_Z (z : Z) : string := NilZero.string_of_int (Z.to_int z).

(** Decimal rendering of a non-negative number, zero-padded on the left to
    at least [width] characters. *)
Definition padStart (width : nat) (z : Z) : string :=
  let s := of_Z z in
  String.concat "" (repeat "0" (width - String.length s)) ++ s.

Definition lower (c : ascii) : ascii :=
  let n := nat_of_ascii c in
  if ((65 <=? n) && (n <=? 90))%nat then ascii_of_nat (n + 32) else c.

Fixpoint toLowerCase (s : string) : string :=
  match s with
  | EmptyString => EmptyString
  | String c rest => String (lower c) (toLowerCase rest)
  end.

(** [s.includes(sub)] *)
Fixpoint includes (sub s : string) : bool :=
  if String.prefix sub s then true
  else match s with
       | EmptyString => false
       | String _ rest => includes sub rest
       end.

(** [s.split(sep).join("")] for a one-character separator: every occurrence
    of the separator is dropped. *)
Fixpoint remove_char (sep : ascii) (s : string) : string :=
  match s with
  | EmptyString => EmptyString
  | String c rest =>
      if Ascii.eqb c sep then remove_char sep rest
      else String c (remove_char sep rest)
  end.

Fixpoint forallb (p : ascii -> bool) (s : string) : bool :=
  match s with
  | EmptyString => true
  | String c rest => p c && forallb p rest
  end.

(** SQLite compares TEXT values under the BINARY collation: byte by byte,
    a proper prefix being smaller. *)
Definition gt (a b : string) : bool := String.ltb b a.

End Text.

(** ** Calendar time

    An instant is a number of milliseconds since the epoch, as returned by
    [Date.now()].  JavaScript and SQLite print it differently. *)

Module Time.

Definition ms_per_day : Z := 86400000.

(** Days since 1970-01-01 to (year, month, day) in the proleptic Gregorian
    calendar. *)
Definition civil_from_days (days : Z) : Z * Z * Z :=
  let z := days + 719468 in
  let era := z / 146097 in
  let doe := z mod 146097 in
  let yoe := (doe - doe / 1460 + doe / 36524 - doe / 146096) / 365 in
  let y := yoe + era * 400 in
  let doy := doe - (365 * yoe + yoe / 4 - yoe / 100) in
  let mp := (5 * doy + 2) / 153 in
  let d := doy - (153 * mp + 2) / 5 + 1 in
  let m := if mp <? 10 then mp + 3 else mp - 9 in
  (if m <=? 2 then y + 1 else y, m, d).

Record Fields : Type := {
  year : Z; month : Z; day : Z;
  hour : Z; minute : Z; second : Z; millisecond : Z
}.

Definition fields (t : Z) : Fields :=
  let '(y, m, d) := civil_from_days (t / ms_per_day) in
  let r := t mod ms_per_day in
  {| year := y; month := m; day := d;
     hour := r / 3600000;
     minute := (r / 60000) mod 60;
     second := (r / 1000) mod 60;
     millisecond := r mod 1000 |}.

(** Largest time value of a valid [Date]. *)
Definition max_time : Z := 8640000000000000.

Definition iso_year (y : Z) : string :=
  if (0 <=? y) && (y <=? 9999) then Text.padStart 4 y
  else (if y <? 0 then "-" else "+") ++ Text.padStart 6 (Z.abs y).

(** [new Date(t).toISOString()]: [YYYY-MM-DDTHH:mm:ss.sssZ]; a [RangeError]
    when [t] is outside the range of valid dates. *)
Definition toISOString (t : Z) : Js.Completion string :=
  if Z.abs t >? max_time then Js.Throw "Invalid Date"
  else
    let f := fields t in
    Js.Return
      (iso_year (year f) ++ "-" ++ Text.padStart 2 (month f) ++ "-"
         ++ Text.padStart 2 (day f) ++ "T" ++ Text.padStart 2 (hour f) ++ ":"
         ++ Text.padStart 2 (minute f) ++ ":" ++ Text.padStart 2 (second f)
         ++ "." ++ Text.padStart 3 (millisecond f) ++ "Z").

(** SQLite's [datetime('now')] and [CURRENT_TIMESTAMP] at instant [t]:
    [YYYY-MM-DD HH:MM:SS], in UTC, whole seconds. *)
Definition sqlite_datetime (t : Z) : string :=
  let f := fields t in
  Text.padStart 4 (year f) ++ "-" ++ Text.padStart 2 (month f) ++ "-"
    ++ Text.padStart 2 (day f) ++ " " ++ Text.padStart 2 (hour f) ++ ":"
    ++ Text.padStart 2 (minute f) ++ ":" ++ Text.padStart 2 (second f).

End Time.

(** ** The SQLite store

    The two tables created by [initializeAuthDatabase], and the statements
    that the service prepares against them.  Each statement is a function of
    the table contents; it returns the rows that [.get()] would return, or the
    error that SQLite raises. *)

Module Sqlite.

(** A row of [users]. *)
Record UserRow : Type := {
  id : Z;
  username : string;
  email : string;
  password_hash : string;
  created_at : string
}.

(** A row of [sessions]. *)
Record SessionRow : Type := {
  session_id : Z;
  user_id : Z;
  session_token : string;
  session_created_at : string;
  expires_at : string
}.

(** Table contents in rowid order, with the AUTOINCREMENT counters kept in
    [sqlite_sequence]. *)
Record Db : Type := {
  users : list UserRow;
  users_seq : Z;
  sessions : list SessionRow;
  sessions_seq : Z
}.

(** The database right after [initializeAuthDatabase] on a new file. *)
Definition empty : Db :=
  {| users := []; users_seq := 0; sessions := []; sessions_seq := 0 |}.

(** The statements of the service, with their bound parameters. *)
Inductive Stmt : Type :=
| SelectUserIdByEmail (email : string)
| InsertUser (username email password_hash : string)
| SelectUserAuthByEmail (email : string)
| InsertSession (user_id : Z) (session_token expires_at : string)
| SelectValidSession (session_token : string)
| SelectUserInfoById (userId : Js.Number)
| DeleteSession (session_token : string).

(** [SELECT id FROM users WHERE email = ?], first row. *)
Definition select_user_id_by_email (db : Db) (e : string) : option Z :=
  id <$> find (fun u => String.eqb (email u) e) (users db).

(** [SELECT id, password_hash FROM users WHERE email = ?], first row. *)
Definition select_user_auth_by_email (db : Db) (e : string) : option (Z * string) :=
  (fun u => (id u, password_hash u)) <$> find (fun u => String.eqb (email u) e) (users db).

(** [INSERT INTO users (username, email, password_hash) VALUES (?, ?, ?)]
    at instant [now]: both [username] and [email] are UNIQUE, the id is
    the next AUTOINCREMENT value and [created_at] takes its default,
    CURRENT_TIMESTAMP. *)
Definition insert_user (db : Db) (now : Z) (name e hash : string)
  : Js.Completion Db :=
  if existsb (fun u => String.eqb (username u) name) (users db) then
    Js.Throw "UNIQUE constraint failed: users.username"
  else if existsb (fun u => String.eqb (email u) e) (users db) then
    Js.Throw "UNIQUE constraint failed: users.email"
  else
    let new_id := users_seq db + 1 in
    Js.Return
      {| users := users db ++
           [{| id := new_id; username := name; email := e;
               password_hash := hash;
               created_at := Time.sqlite_datetime now |}];
         users_seq := new_id;
         sessions := sessions db;
         sessions_seq := sessions_seq db |}.

(** [INSERT INTO sessions (user_id, session_token, expires_at)
    VALUES (?, ?, ?)] at instant [now]: [session_token] is UNIQUE.  The
    foreign key on [user_id] is declared but SQLite does not enforce it
    unless [PRAGMA foreign_keys] is switched on, which the service never
    does. *)
Definition insert_session (db : Db) (now : Z) (uid : Z) (token expires : string)
  : Js.Completion Db :=
  if existsb (fun s => String.eqb (session_token s) token) (sessions db) then
    Js.Throw "UNIQUE constraint failed: sessions.session_token"
  else
    let new_id := sessions_seq db + 1 in
    Js.Return
      {| users := users db;
         users_seq := users_seq db;
         sessions := sessions db ++
           [{| session_id := new_id; user_id := uid; session_token := token;
               session_created_at := Time.sqlite_datetime now;
               expires_at := expires |}];
         sessions_seq := new_id |}.

(** [SELECT user_id, expires_at FROM sessions
     WHERE session_token = ? AND expires_at > datetime('now')], first row.
    Both sides of [>] are TEXT, so the comparison is the textual one. *)
Definition select_valid_session (db : Db) (now : Z) (token : string)
  : option (Z * string) :=
  (fun s => (user_id s, expires_at s)) <$>
    find (fun s => String.eqb (session_token s) token
                   && Text.gt (expires_at s) (Time.sqlite_datetime now))
         (sessions db).

(** [SELECT id, username, email, created_at FROM users WHERE id = ?], first
    row.  A number that is not integral is bound as a REAL and equals no
    rowid. *)
Definition select_user_info_by_id (db : Db) (n : Js.Number) : option UserRow :=
  match n with
  | Js.Integral z => find (fun u => id u =? z) (users db)
  | Js.NonIntegral => None
  end.

(** [DELETE FROM sessions WHERE session_token = ?] *)
Definition delete_session (db : Db) (token : string) : Db :=
  {| users := users db;
     users_seq := users_seq db;
     sessions := List.filter (fun s => negb (String.eqb (session_token s) token)) (sessions db);
     sessions_seq := sessions_seq db |}.

(** The open handle [authDb]: the data, and the statements run so far. *)
Record Handle : Type := {
  data : Db;
  executed : list Stmt
}.

Definition open (db : Db) : Handle := {| data := db; executed := [] |}.

End Sqlite.

(** ** Computations against the handle

    A service function runs statements against the shared handle and may
    throw: a computation maps the handle to a completion and the handle
    afterwards.  What a statement changed before a later one throws stays
    changed, as in the source, which opens no transaction. *)

Definition M (A : Type) : Type := Sqlite.Handle -> Js.Completion A * Sqlite.Handle.

Definition ret {A} (a : A) : M A := fun h => (Js.Return a, h).

Definition bind {A B} (m : M A) (k : A -> M B) : M B :=
  fun h =>
    match m h with
    | (Js.Return a, h') => k a h'
    | (Js.Throw msg, h') => (Js.Throw msg, h')
    end.

(** [try { body } catch (error) { handler(error.message) }] *)
Definition try_catch {A} (body : M A) (handler : string -> M A) : M A :=
  fun h =>
    match body h with
    | (Js.Return a, h') => (Js.Return a, h')
    | (Js.Throw msg, h') => handler msg h'
    end.

(** Lifting of an expression that may throw but does not touch the handle. *)
Definition eval {A} (c : Js.Completion A) : M A := fun h => (c, h).

Notation "'do' x <- c1 ; c2" := (bind c1 (fun x => c2))
  (at level 60, x name, c1 at next level, right associativity).

(** Running a query: the statement is recorded, the data is read. *)
Definition query {A} (s : Sqlite.Stmt) (f : Sqlite.Db -> A) : M A :=
  fun h =>
    (Js.Return (f (Sqlite.data h)),
     {| Sqlite.data := Sqlite.data h;
        Sqlite.executed := Sqlite.executed h ++ [s] |}).

(** Running a statement that writes: on an error the data is left as it was. *)
Definition run (s : Sqlite.Stmt) (f : Sqlite.Db -> Js.Completion Sqlite.Db) : M unit :=
  fun h =>
    match f (Sqlite.data h) with
    | Js.Return db' =>
        (Js.Return tt,
         {| Sqlite.data := db'; Sqlite.executed := Sqlite.executed h ++ [s] |})
    | Js.Throw msg =>
        (Js.Throw msg,
         {| Sqlite.data := Sqlite.data h;
            Sqlite.executed := Sqlite.executed h ++ [s] |})
    end.

(** ** Buffers *)

Module Buffer.

(** UTF-8 encoding of one character of the model (a code point below 256). *)
Definition utf8 (c : ascii) : list Z :=
  let n := Z.of_nat (nat_of_ascii c) in
  if n <? 128 then [n]
  else [Z.lor 192 (Z.shiftr n 6); Z.lor 128 (Z.land n 63)].

(** [Buffer.from(s)]: the bytes of the UTF-8 encoding of [s]. *)
Fixpoint from (s : string) : list Z :=
  match s with
  | EmptyString => []
  | String c rest => utf8 c ++ from rest
  end.

Definition hex_digit (d : Z) : ascii :=
  match String.get (Z.to_nat d) "0123456789abcdef" with
  | Some c => c
  | None => "0"%char
  end.

(** [buf.toString("hex")]: two lower-case hexadecimal digits per byte. *)
Fixpoint toString_hex (bytes : list Z) : string :=
  match bytes with
  | [] => EmptyString
  | b :: rest =>
      String (hex_digit (Z.shiftr b 4))
        (String (hex_digit (Z.land b 15)) (toString_hex rest))
  end.

End Buffer.

(** ** The password primitive of the runtime

    [Bun.password.hashSync(password, { algorithm: "bcrypt", cost: 4 })] and
    [Bun.password.verifySync(password, hash)].  Hashing draws a fresh salt,
    which is made an argument; both may throw. *)

Class BunPassword : Type := {
  hashSync : string -> string -> Js.Completion string;
  verifySync : string -> string -> Js.Completion bool
}.

(** ** authService.ts *)

Section AuthService.

Context {password_api : BunPassword}.

(** Hash password using bcrypt algorithm for secure storage. *)
Definition hashPassword (salt : string) (password : string) : Js.Completion string :=
  hashSync password salt.

(** Verify that a plain text password matches a bcrypt hash. *)
Definition verifyPassword (password hash : string) : bool :=
  match verifySync password hash with
  | Js.Return b => b
  | Js.Throw _ => false
  end.

(** Generate a session token from a fresh UUID and a clock reading:
    [Buffer.from(uuid.split("-").join("") + now.toString()).toString("hex")]. *)
Definition generateSessionToken (uuid : string) (now : Z) : string :=
  Buffer.toString_hex
    (Buffer.from (Text.remove_char "-" uuid ++ Text.of_Z now)).

(** What [registerUser] draws from its environment: the salt of the hash and
    the instant of the insertion. *)
Record RegisterEnv : Type := {
  reg_salt : string;
  reg_now : Z
}.

(** Register a new user with validation and store in database. *)
Definition registerUser (env : RegisterEnv) (username email password : string)
  : M Js.Object :=
  try_catch
    (if negb (Js.truthy_string username) || negb (Js.truthy_string email)
        || negb (Js.truthy_string password)
     then
       ret [("success", Js.Bool false);
            ("message", Js.Str "Username, email, and password are required")]
     else if Z.of_nat (String.length password) <? 6 then
       ret [("success", Js.Bool false);
            ("message", Js.Str "Password must be at least 6 characters long")]
     else
       do existing <- query (Sqlite.SelectUserIdByEmail email)
                        (fun db => Sqlite.select_user_id_by_email db email);
       match existing with
       | Some _ =>
           ret [("success", Js.Bool false);
                ("message", Js.Str "Email already registered")]
       | None =>
           do passwordHash <- eval (hashPassword (reg_salt env) password);
           do _ <- run (Sqlite.InsertUser username email passwordHash)
                     (fun db => Sqlite.insert_user db (reg_now env)
                                  username email passwordHash);
           do user <- query (Sqlite.SelectUserIdByEmail email)
                        (fun db => Sqlite.select_user_id_by_email db email);
           ret [("success", Js.Bool true);
                ("message", Js.Str "User registered successfully");
                ("userId", match user with
                           | Some i => Js.Num i
                           | None => Js.Undefined
                           end)]
       end)
    (fun message =>
       ret [("success", Js.Bool false);
            ("message", Js.Str ("Registration failed: " ++ message))]).

(** What [authenticateUser] draws from its environment: the UUID of the
    token, and the clock readings of the token, of the expiry and of the
    insertion. *)
Record LoginEnv : Type := {
  login_uuid : string;
  login_now_token : Z;
  login_now_expiry : Z;
  login_now_insert : Z
}.

(** Authenticate user with email and password, create session token if
    valid. *)
Definition authenticateUser (env : LoginEnv) (email password : string)
  : M Js.Object :=
  try_catch
    (do user <- query (Sqlite.SelectUserAuthByEmail email)
                  (fun db => Sqlite.select_user_auth_by_email db email);
     match user with
     | None =>
         ret [("success", Js.Bool false);
              ("message", Js.Str "Invalid email or password")]
     | Some (user_id, user_password_hash) =>
         let isValid := verifyPassword password user_password_hash in
         if negb isValid then
           ret [("success", Js.Bool false);
                ("message", Js.Str "Invalid email or password")]
         else
           let sessionToken :=
             generateSessionToken (login_uuid env) (login_now_token env) in
           let expiresAt := login_now_expiry env + 7 * 24 * 60 * 60 * 1000 in
           do expires <- eval (Time.toISOString expiresAt);
           do _ <- run (Sqlite.InsertSession user_id sessionToken expires)
                     (fun db => Sqlite.insert_session db (login_now_insert env)
                                  user_id sessionToken expires);
           ret [("success", Js.Bool true);
                ("message", Js.Str "Authentication successful");
                ("sessionToken", Js.Str sessionToken);
                ("userId", Js.Num user_id)]
     end)
    (fun message =>
       ret [("success", Js.Bool false);
            ("message", Js.Str ("Authentication failed: " ++ message))]).

(** Validate session token and return associated user ID if valid and not
    expired; [now] is the instant at which SQLite evaluates
    [datetime('now')]. *)
Definition verifySession (now : Z) (sessionToken : string) : M Js.Object :=
  try_catch
    (do session <- query (Sqlite.SelectValidSession sessionToken)
                     (fun db => Sqlite.select_valid_session db now sessionToken);
     match session with
     | None => ret [("valid", Js.Bool false)]
     | Some (session_user_id, _) =>
         ret [("valid", Js.Bool true); ("userId", Js.Num session_user_id)]
     end)
    (fun _ => ret [("valid", Js.Bool false)]).

(** The row object that [.get()] builds for the columns
    [id, username, email, created_at]. *)
Definition user_info_row (u : Sqlite.UserRow) : Js.Object :=
  [("id", Js.Num (Sqlite.id u));
   ("username", Js.Str (Sqlite.username u));
   ("email", Js.Str (Sqlite.email u));
   ("created_at", Js.Str (Sqlite.created_at u))].

(** Retrieve user information (id, username, email, created_at) by user ID;
    [None] is [null]. *)
Definition getUserById (userId : Js.Number) : M (option Js.Object) :=
  try_catch
    (do row <- query (Sqlite.SelectUserInfoById userId)
                 (fun db => Sqlite.select_user_info_by_id db userId);
     ret (user_info_row <$> row))
    (fun _ => ret None).

(** Delete session token to logout user and invalidate session. *)
Definition logoutUser (sessionToken : string) : M Js.Object :=
  try_catch
    (do _ <- run (Sqlite.DeleteSession sessionToken)
               (fun db => Js.Return (Sqlite.delete_session db sessionToken));
     ret [("success", Js.Bool true)])
    (fun _ => ret [("success", Js.Bool false)]).

End AuthService.

(** ** Fetch objects: headers, requests, responses *)

Module Headers.

(** A header list.  Names are matched without regard to case. *)
Definition t : Type := list (string * string).

Definition same_name (a b : string) : bool :=
  String.eqb (Text.toLowerCase a) (Text.toLowerCase b).

(** What joins the values of a header that occurs more than once: a
    semicolon and a space for [Cookie], whose pieces are cookie pairs, a
    comma and a space for every other name. *)
Definition joiner (name : string) : string :=
  if same_name name "cookie" then "; " else ", ".

(** [headers.get(name)]: the values of the headers of that name, joined, or
    [null]. *)
Definition get (name : string) (hs : t) : option string :=
  match List.filter (fun h => same_name (fst h) name) hs with
  | [] => None
  | found => Some (String.concat (joiner name) (map snd found))
  end.

Definition remove (name : string) (hs : t) : t :=
  List.filter (fun h => negb (same_name (fst h) name)) hs.

(** [headers.set(name, value)]: the first header of that name takes the
    value and the others of that name are removed; when there is none, the
    header is appended. *)
Fixpoint set (name value : string) (hs : t) : t :=
  match hs with
  | [] => [(name, value)]
  | (n, v) :: rest =>
      if same_name n name then (n, value) :: remove name rest
      else (n, v) :: set name value rest
  end.

End Headers.

Record Request : Type := {
  request_headers : Headers.t
}.

(** The state of a [Response] object, as the [Response] constructor builds
    it; [body] is [None] for a null body. *)
Record Response : Type := {
  status : Z;
  statusText : string;
  headers : Headers.t;
  body : option string
}.

(** The [Response] objects allocated so far.  A reference is the index of the
    object; allocation appends. *)
Definition Heap : Type := list Response.

(** [new Response(body, init)] with a response as [init]: a new object with
    the status and status text of [init] and a copy of its header list. *)
Definition new_Response (body : option string) (init : Response) (heap : Heap)
  : nat * Heap :=
  (List.length heap,
   (heap ++ [{| status := status init; statusText := statusText init;
                headers := headers init; body := body |}])%list).

(** [response.headers.set(name, value)] on the object at [ref]. *)
Definition headers_set (ref : nat) (name value : string) (heap : Heap) : Heap :=
  match heap !! ref with
  | Some r =>
      <[ref := {| status := status r; statusText := statusText r;
                  headers := Headers.set name value (headers r);
                  body := body r |}]> heap
  | None => heap
  end.

(** ** Cookies of the runtime *)

Inductive SameSite : Type := Strict | Lax | NoSameSite.

(** The fields of a [Bun.Cookie]. *)
Record Cookie : Type := {
  cookie_name : string;
  cookie_value : string;
  domain : option string;
  path : option string;
  expires : option Z;
  maxAge : option Z;
  secure : bool;
  httpOnly : bool;
  partitioned : bool;
  sameSite : SameSite
}.

(** [cookie.toString()]: the serialization of a cookie as the value of a
    [Set-Cookie] header. *)
Class BunCookie : Type := {
  Cookie_toString : Cookie -> string
}.

(** [new Bun.CookieMap(header).get(name)]: the value that the [Cookie]
    request header gives to a cookie name, or [null]. *)
Class BunCookieMap : Type := {
  CookieMap_get : string -> string -> option string
}.

(** ** cookieMiddleware.ts *)

Section CookieMiddleware.

Context {cookie_api : BunCookie} {cookie_map : BunCookieMap}.

(** [value || null] on a string or [null]. *)
Definition or_null (value : option string) : option string :=
  match value with
  | Some s => if Js.truthy_string s then Some s else None
  | None => None
  end.

(** Get session token from request cookies. *)
Definition getSessionFromCookies (req : Request) : option string :=
  match Headers.get "cookie" (request_headers req) with
  | None => None
  | Some cookieHeader =>
      if negb (Js.truthy_string cookieHeader) then None
      else or_null (CookieMap_get cookieHeader "sessionToken")
  end.

(** The cookie built by [setSessionCookie]. *)
Definition session_cookie (sessionToken : string) (expiryDays : Z) : Cookie :=
  {| cookie_name := "sessionToken";
     cookie_value := sessionToken;
     domain := None;
     path := Some "/";
     expires := None;
     maxAge := Some (expiryDays * 24 * 60 * 60);
     secure := true;
     httpOnly := true;
     partitioned := false;
     sameSite := Strict |}.

(** Set session cookie in response.  [expiryDays] is [None] when the caller
    leaves the argument out, and then defaults to 7.  The result is the
    reference of the new response; [None] stands for a reference that the
    heap does not hold. *)
Definition setSessionCookie (response : nat) (sessionToken : string)
    (expiryDays : option Z) (heap : Heap) : option (nat * Heap) :=
  let days := default 7 expiryDays in
  let cookie := session_cookie sessionToken days in
  r ← heap !! response;
  let '(newResponse, heap1) := new_Response (body r) r heap in
  Some (newResponse,
        headers_set newResponse "Set-Cookie" (Cookie_toString cookie) heap1).

(** The cookie built by [clearSessionCookie]. *)
Definition expired_cookie : Cookie :=
  {| cookie_name := "sessionToken";
     cookie_value := "";
     domain := None;
     path := Some "/";
     expires := None;
     maxAge := Some 0;
     secure := true;
     httpOnly := true;
     partitioned := false;
     sameSite := Strict |}.

(** Clear session cookie. *)
Definition clearSessionCookie (response : nat) (heap : Heap) : option (nat * Heap) :=
  let cookie := expired_cookie in
  r ← heap !! response;
  let '(newResponse, heap1) := new_Response (body r) r heap in
  Some (newResponse,
        headers_set newResponse "Set-Cookie" (Cookie_toString cookie) heap1).

(** [o.key], which is [undefined] when the key is absent. *)
Definition prop (key : string) (o : Js.Object) : Js.Value :=
  default Js.Undefined (Js.get key o).

(** The number passed on when a property is used as a user id. *)
Definition as_number (v : Js.Value) : Js.Number :=
  match v with
  | Js.Num n => Js.Integral n
  | _ => Js.NonIntegral
  end.

(** Optional middleware - doesn't block but passes user info if
    authenticated.  The handler receives the request, the user id
    ([undefined] or a number) and the user info ([None] for [undefined],
    [Some None] for [null]). *)
Definition withOptionalAuthentication {R : Type}
    (handler : Request -> Js.Value -> option (option Js.Object) -> R)
    (now : Z) (req : Request) : M R :=
  let sessionToken := getSessionFromCookies req in
  match sessionToken with
  | None => ret (handler req Js.Undefined None)
  | Some token =>
      if negb (Js.truthy_string token) then ret (handler req Js.Undefined None)
      else
        do sessionResult <- verifySession now token;
        if negb (Js.truthy (prop "valid" sessionResult))
           || negb (Js.truthy (prop "userId" sessionResult))
        then ret (handler req Js.Undefined None)
        else
          do userInfo <- getUserById (as_number (prop "userId" sessionResult));
          ret (handler req (prop "userId" sessionResult) (Some userInfo))
  end.

End CookieMiddleware.

(** ** Shapes of runtime values *)

Definition is_dash (c : ascii) : bool := Ascii.eqb c "-".

Definition between (lo hi : nat) (c : ascii) : bool :=
  ((lo <=? nat_of_ascii c) && (nat_of_ascii c <=? hi))%nat.

(** A character of the charset [[0-9a-f]]. *)
Definition is_lower_hex (c : ascii) : bool := between 48 57 c || between 97 102 c.

(** A hexadecimal digit of either case. *)
Definition is_hex_digit (c : ascii) : bool := is_lower_hex c || between 65 70 c.

Fixpoint dashes (s : string) : list bool :=
  match s with
  | EmptyString => []
  | String c rest => is_dash c :: dashes rest
  end.

(** Where the dashes of the textual form of a UUID are: 8-4-4-4-12. *)
Definition uuid_layout : list bool :=
  (repeat false 8 ++ [true] ++ repeat false 4 ++ [true] ++ repeat false 4
     ++ [true] ++ repeat false 4 ++ [true] ++ repeat false 12)%list.

(** The textual form of a UUID, as [Bun.randomUUIDv7()] returns it: 36
    characters, dashes at the four positions of the layout and hexadecimal
    digits everywhere else. *)
Definition is_uuid (u : string) : bool :=
  bool_decide (dashes u = uuid_layout)
  && Text.forallb is_hex_digit (Text.remove_char "-" u).

(** ** Consistency of the store

    What the constraints of the schema keep true of the tables: ids are
    positive and below the AUTOINCREMENT counter, and the UNIQUE columns hold
    no duplicate. *)

Record consistent (db : Sqlite.Db) : Prop := {
  users_seq_nonneg : 0 <= Sqlite.users_seq db;
  user_ids_positive :
    Forall (fun u => 0 < Sqlite.id u <= Sqlite.users_seq db) (Sqlite.users db);
  user_ids_unique : List.NoDup (map Sqlite.id (Sqlite.users db));
  emails_unique : List.NoDup (map Sqlite.email (Sqlite.users db));
  usernames_unique : List.NoDup (map Sqlite.username (Sqlite.users db));
  tokens_unique : List.NoDup (map Sqlite.session_token (Sqlite.sessions db))
}.

(** The calls that change or read the store, and the stores they lead to
    from a new database. *)
Inductive reachable {password_api : BunPassword} : Sqlite.Handle -> Prop :=
| reach_init : reachable (Sqlite.open Sqlite.empty)
| reach_register h env username email password :
    reachable h ->
    reachable (snd (registerUser env username email password h))
| reach_authenticate h env email password :
    reachable h ->
    reachable (snd (authenticateUser env email password h))
| reach_verify h now token :
    reachable h ->
    reachable (snd (verifySession now token h))
| reach_get h n :
    reachable h ->
    reachable (snd (getUserById n h))
| reach_logout h token :
    reachable h ->
    reachable (snd (logoutUser token h)).

(** The stores that the same calls lead to from a given store [h0], in any
    number and any order; [h0] itself is one of them. *)
Inductive reachable_from {password_api : BunPassword} (h0 : Sqlite.Handle)
  : Sqlite.Handle -> Prop :=
| from_here : reachable_from h0 h0
| from_register h env username email password :
    reachable_from h0 h ->
    reachable_from h0 (snd (registerUser env username email password h))
| from_authenticate h env email password :
    reachable_from h0 h ->
    reachable_from h0 (snd (authenticateUser env email password h))
| from_verify h now token :
    reachable_from h0 h ->
    reachable_from h0 (snd (verifySession now token h))
| from_get h n :
    reachable_from h0 h ->
    reachable_from h0 (snd (getUserById n h))
| from_logout h token :
    reachable_from h0 h ->
    reachable_from h0 (snd (logoutUser token h)).

(** ** Stand-ins for the runtime

    Executable instances of the runtime interfaces, with which the service
    can be run on concrete inputs.  The theorems below hold for every
    instance; these are used in examples only. *)

Module Standin.

(** A password primitive that keeps the bcrypt envelope ([$2b$04$], then 22
    characters of salt) and stores the password itself in place of the digest;
    it throws on an empty password and on a hash without the envelope. *)
Definition salt22 (salt : string) : string :=
  String.substring 0 22 (salt ++ "......................").

Definition envelope_hashSync (password salt : string) : Js.Completion string :=
  if String.eqb password "" then Js.Throw "password must not be empty"
  else Js.Return ("$2b$04$" ++ salt22 salt ++ password).

Definition envelope_verifySync (password hash : string) : Js.Completion bool :=
  if String.prefix "$2b$04$" hash && (29 <=? String.length hash)%nat then
    Js.Return (String.eqb (String.substring 29 (String.length hash - 29) hash) password)
  else Js.Throw "UnsupportedAlgorithm".

Definition envelope : BunPassword := {|
  hashSync := envelope_hashSync;
  verifySync := envelope_verifySync
|}.

(** Serialization of a cookie in the order name, Domain, Path, Max-Age,
    Secure, HttpOnly, Partitioned, SameSite, the value written as it is
    (Expires is left out: the service never sets it). *)
Definition serialize (c : Cookie) : string :=
  cookie_name c ++ "=" ++ cookie_value c
    ++ match domain c with Some d => "; Domain=" ++ d | None => "" end
    ++ match path c with Some p => "; Path=" ++ p | None => "" end
    ++ match maxAge c with Some a => "; Max-Age=" ++ Text.of_Z a | None => "" end
    ++ (if secure c then "; Secure" else "")
    ++ (if httpOnly c then "; HttpOnly" else "")
    ++ (if partitioned c then "; Partitioned" else "")
    ++ match sameSite c with
       | Strict => "; SameSite=Strict"
       | Lax => "; SameSite=Lax"
       | NoSameSite => "; SameSite=None"
       end.

Definition serializer : BunCookie := {|
  Cookie_toString := serialize
|}.

(** Splitting at every occurrence of a separator. *)
Fixpoint split (sep : ascii) (s : string) : list string :=
  match s with
  | EmptyString => [EmptyString]
  | String c rest =>
      if Ascii.eqb c sep then EmptyString :: split sep rest
      else match split sep rest with
           | first :: others => String c first :: others
           | [] => [String c EmptyString]
           end
  end.

(** Cutting at the first occurrence of a separator. *)
Fixpoint cut (sep : ascii) (s : string) : option (string * string) :=
  match s with
  | EmptyString => None
  | String c rest =>
      if Ascii.eqb c sep then Some (EmptyString, rest)
      else match cut sep rest with
           | Some (before, after) => Some (String c before, after)
           | None => None
           end
  end.

Fixpoint trimStart (s : string) : string :=
  match s with
  | String " " rest => trimStart rest
  | _ => s
  end.

Fixpoint reverse (s acc : string) : string :=
  match s with
  | EmptyString => acc
  | String c rest => reverse rest (String c acc)
  end.

Definition trim (s : string) : string :=
  reverse (trimStart (reverse (trimStart s) "")) "".

(** The [name=value] pairs of a [Cookie] header: pieces between semicolons,
    trimmed; a piece without [=] is dropped. *)
Definition pairs (header : string) : list (string * string) :=
  omap (fun piece =>
          match cut "=" (trim piece) with
          | Some (name, value) => Some (trim name, trim value)
          | None => None
          end)
       (split ";" header).

Definition lookup_cookie (header name : string) : option string :=
  snd <$> find (fun kv => String.eqb (fst kv) name) (pairs header).

Definition parser : BunCookieMap := {|
  CookieMap_get := lookup_cookie
|}.

End Standin.

(** ** A scenario

    The end-to-end scenario of the specification: alice registers on the
    second of November 2025 and logs in one second after midnight. *)

Module Scenario.

Definition register_env : RegisterEnv :=
  {| reg_salt := "abcdefghijklmnopqrstuv"; reg_now := 1762041600000 |}.

Definition login_env : LoginEnv :=
  {| login_uuid := "019a4b2c-7d3e-7f00-8a1b-0123456789ab";
     login_now_token := 1762041601000;
     login_now_expiry := 1762041601000;
     login_now_insert := 1762041601000 |}.

(** The handle after alice has registered. *)
Definition registered : Sqlite.Handle :=
  snd (registerUser (password_api := Standin.envelope) register_env
         "alice" "alice@example.com" "secret1" (Sqlite.open Sqlite.empty)).

(** The handle after alice has logged in. *)
Definition logged_in : Sqlite.Handle :=
  snd (authenticateUser (password_api := Standin.envelope) login_env
         "alice@example.com" "secret1" registered).

(** The token that the login returned. *)
Definition token : string :=
  generateSessionToken (login_uuid login_env) (login_now_token login_env).

End Scenario.

(** ** The calendar between 1970 and 2100

    Both date formats start with the same ten characters, year, month and
    day.  That these texts increase with the day is checked day by day over
    the days of 1970 to 2099. *)

Module Calendar.

(** The first ten characters of [toISOString] and of [datetime], for a day
    number with a year of four digits. *)
Definition date_text (day : Z) : string :=
  let '(y, m, d) := Time.civil_from_days day in
  Text.padStart 4 y ++ "-" ++ Text.padStart 2 m ++ "-" ++ Text.padStart 2 d.

Definition four_digit_year (day : Z) : bool :=
  let '(y, _, _) := Time.civil_from_days day in (0 <=? y) && (y <=? 9999).

(** From [day], whose date text is [today], for [n] days: the year has four
    digits, the text has ten characters and is smaller than the text of the
    next day. *)
Fixpoint dates_increase (n : nat) (day : Z) (today : string) : bool :=
  match n with
  | O => true
  | S n' =>
      let tomorrow := date_text (day + 1) in
      four_digit_year day && (String.length today =? 10)%nat
      && String.ltb today tomorrow && dates_increase n' (day + 1) tomorrow
  end.

(** The number of days from 1970-01-01 to 2100-01-01. *)
Definition days : Z := 47482.

(** 2100-01-01T00:00:00.000Z. *)
Definition clock_end : Z := days * Time.ms_per_day.

(** A clock reading of the years 1970 to 2099. *)
Definition in_range (t : Z) : Prop := 0 <= t < clock_end.

End Calendar.

(** ** JSON payloads and [Response.json] *)

Set Warnings "-register-all".

Inductive Json : Type :=
| JsonNull
| JsonBool (b : bool)
| JsonNum (n : Z)
| JsonStr (s : string)
| JsonObj (fields : list (string * Json)).

(** [JSON.stringify] of the runtime, and the content type that
    [Response.json] announces. *)
Class BunJson : Type := {
  JSON_stringify : Json -> string;
  json_content_type : string
}.

(** The JSON value of a property; [None] for [undefined], whose key
    [JSON.stringify] leaves out. *)
Definition json_of_value (v : Js.Value) : option Json :=
  match v with
  | Js.Undefined => None
  | Js.Null => Some JsonNull
  | Js.Bool b => Some (JsonBool b)
  | Js.Num n => Some (JsonNum n)
  | Js.Str s => Some (JsonStr s)
  end.

(** An object literal as a payload: the keys in order, those holding
    [undefined] left out. *)
Definition json_object (fields : list (string * option Json)) : Json :=
  JsonObj (omap (fun kv => match snd kv with
                           | Some j => Some (fst kv, j)
                           | None => None
                           end) fields).

Definition json_of_object (o : Js.Object) : Json :=
  json_object (map (fun kv => (fst kv, json_of_value (snd kv))) o).

(** ToString of a value used where a string is expected. *)
Definition to_string (v : Js.Value) : string :=
  match v with
  | Js.Undefined => "undefined"
  | Js.Null => "null"
  | Js.Bool true => "true"
  | Js.Bool false => "false"
  | Js.Num n => Text.of_Z n
  | Js.Str s => s
  end.

(** A serializer with which payloads can be written out in examples: the
    compact form of [JSON.stringify], for strings that need no escape. *)
Module JsonStandin.

Definition quoted (s : string) : string :=
  String (ascii_of_nat 34) (s ++ String (ascii_of_nat 34) EmptyString).

Fixpoint stringify (j : Json) : string :=
  match j with
  | JsonNull => "null"
  | JsonBool true => "true"
  | JsonBool false => "false"
  | JsonNum n => Text.of_Z n
  | JsonStr s => quoted s
  | JsonObj fields =>
      "{" ++ (fix members (fs : list (string * Json)) : string :=
                match fs with
                | [] => ""
                | (k, v) :: rest =>
                    quoted k ++ ":" ++ stringify v
                    ++ match rest with
                       | [] => ""
                       | _ :: _ => "," ++ members rest
                       end
                end) fields ++ "}"
  end.

Definition serializer : BunJson := {|
  JSON_stringify := stringify;
  json_content_type := "application/json;charset=utf-8"
|}.

End JsonStandin.

(** ** index.ts: the authentication routes *)

Section Routes.

Context {password_api : BunPassword} {cookie_api : BunCookie}
        {cookie_map : BunCookieMap} {json_api : BunJson}.

(** [Response.json(payload, { status })]: a new response with the payload as
    its body. *)
Definition Response_json (payload : Json) (code : Z) (heap : Heap) : nat * Heap :=
  (List.length heap,
   (heap ++ [{| status := code; statusText := "";
                headers := [("content-type", json_content_type)];
                body := Some (JSON_stringify payload) |}])%list).

(** The check that opens every protected route:
    [!sessionToken || !verifySession(sessionToken).valid]. *)
Definition unauthorized (now : Z) (req : Request) : M bool :=
  let sessionToken := getSessionFromCookies req in
  match sessionToken with
  | None => ret true
  | Some token =>
      if negb (Js.truthy_string token) then ret true
      else
        do sessionResult <- verifySession now token;
        ret (negb (Js.truthy (prop "valid" sessionResult)))
  end.

(** [POST /api/auth/logout] *)
Definition logout_route (req : Request) (heap : Heap) : M (option (nat * Heap)) :=
  try_catch
    (let sessionToken := getSessionFromCookies req in
     do _ <- match sessionToken with
             | None => ret tt
             | Some token =>
                 if Js.truthy_string token then
                   do _ <- logoutUser token; ret tt
                 else ret tt
             end;
     let '(response, heap1) :=
       Response_json
         (json_object [("success", Some (JsonBool true));
                       ("message", Some (JsonStr "Logged out successfully"))])
         200 heap in
     ret (clearSessionCookie response heap1))
    (fun _ =>
       ret (Some (Response_json (json_object [("error", Some (JsonStr "Logout failed"))])
                    500 heap))).

(** The body of a login request as the route declares it:
    [{ email?: string; password?: string }]. *)
Record LoginBody : Type := {
  body_email : option string;
  body_password : option string
}.

(** [POST /api/auth/login]; [parsed] is the completion of [await req.json()]. *)
Definition login_route (env : LoginEnv) (parsed : Js.Completion LoginBody)
    (heap : Heap) : M (option (nat * Heap)) :=
  try_catch
    (do requestBody <- eval parsed;
     let email := default "" (body_email requestBody) in
     let password := default "" (body_password requestBody) in
     do result <- authenticateUser env email password;
     if negb (Js.truthy (prop "success" result)) then
       ret (Some (Response_json
                    (json_object [("error", json_of_value (prop "message" result))])
                    401 heap))
     else
       do userInfo <- getUserById (as_number (prop "userId" result));
       let '(response, heap1) :=
         Response_json
           (json_object
              [("success", Some (JsonBool true));
               ("message", json_of_value (prop "message" result));
               ("user", Some match userInfo with
                             | Some info => json_of_object info
                             | None => JsonNull
                             end);
               ("sessionToken", json_of_value (prop "sessionToken" result))])
           200 heap in
       ret (setSessionCookie response (to_string (prop "sessionToken" result))
              (Some 7) heap1))
    (fun _ =>
       ret (Some (Response_json (json_object [("error", Some (JsonStr "Login failed"))])
                    500 heap))).

(** [GET /api/auth/me] *)
Definition me_route (now : Z) (req : Request) (heap : Heap) : M (nat * Heap) :=
  try_catch
    (let sessionToken := getSessionFromCookies req in
     match sessionToken with
     | None =>
         ret (Response_json (json_object [("error", Some (JsonStr "Unauthorized"))])
                401 heap)
     | Some token =>
         if negb (Js.truthy_string token) then
           ret (Response_json (json_object [("error", Some (JsonStr "Unauthorized"))])
                  401 heap)
         else
           do sessionResult <- verifySession now token;
           if negb (Js.truthy (prop "valid" sessionResult))
              || negb (Js.truthy (prop "userId" sessionResult))
           then
             ret (Response_json
                    (json_object [("error", Some (JsonStr "Session expired"))])
                    401 heap)
           else
             do userInfo <- getUserById (as_number (prop "userId" sessionResult));
             match userInfo with
             | None =>
                 ret (Response_json
                        (json_object [("error", Some (JsonStr "User not found"))])
                        404 heap)
             | Some info =>
                 ret (Response_json
                        (json_object [("success", Some (JsonBool true));
                                      ("user", Some (json_of_object info))])
                        200 heap)
             end
     end)
    (fun _ =>
       ret (Response_json
              (json_object [("error", Some (JsonStr "Failed to get user info"))])
              500 heap)).

End Routes.

(** * Properties *)

(** ** Calendar examples *)

Example toISOString_2025 :
  Time.toISOString 1762646401000 = Js.Return "2025-11-09T00:00:01.000Z".
Proof. reflexivity. Qed.

Example toISOString_leap_day :
  Time.toISOString 1709210096000 = Js.Return "2024-02-29T12:34:56.000Z".
Proof. reflexivity. Qed.

Example toISOString_before_epoch :
  Time.toISOString (-1000) = Js.Return "1969-12-31T23:59:59.000Z".
Proof. reflexivity. Qed.

Example sqlite_datetime_2025 :
  Time.sqlite_datetime 1762732799000 = "2025-11-09 23:59:59".
Proof. reflexivity. Qed.

(** ** Lists and strings *)

Lemma filter_idempotent {A} (f : A -> bool) (l : list A) :
  List.filter f (List.filter f l) = List.filter f l.
Proof.
  induction l as [|a l IH]; simpl; [reflexivity|].
  destruct (f a) eqn:E; simpl; [rewrite E|]; congruence.
Qed.

Lemma find_some_in {A} (f : A -> bool) (l : list A) (a : A) :
  find f l = Some a -> In a l /\ f a = true.
Proof. apply find_some. Qed.

Lemma find_none_iff {A} (f : A -> bool) (l : list A) :
  find f l = None <-> forall a, In a l -> f a = false.
Proof.
  split; [apply find_none|].
  induction l as [|a l IH]; simpl; intros Hall; [reflexivity|].
  rewrite (Hall a (or_introl eq_refl)). apply IH. intros b Hb. apply Hall. now right.
Qed.

Lemma existsb_false_iff {A} (f : A -> bool) (l : list A) :
  existsb f l = false <-> forall a, In a l -> f a = false.
Proof.
  induction l as [|a l IH]; simpl.
  - split; [intros _ b []|reflexivity].
  - rewrite orb_false_iff, IH. split.
    + intros [Ha Hl] b [<-|Hb]; auto.
    + intros Hall. split; [apply Hall; now left|]. intros b Hb. apply Hall. now right.
Qed.

Lemma find_app_none {A} (f : A -> bool) (l : list A) (a : A) :
  find f l = None -> find f (l ++ [a]) = if f a then Some a else None.
Proof.
  induction l as [|b l IH]; simpl; [reflexivity|].
  destruct (f b); [discriminate|]. exact IH.
Qed.

(** ** Logout *)

Lemma logoutUser_unfold (token : string) (h : Sqlite.Handle) :
  logoutUser token h =
    (Js.Return [("success", Js.Bool true)],
     {| Sqlite.data := Sqlite.delete_session (Sqlite.data h) token;
        Sqlite.executed := (Sqlite.executed h ++ [Sqlite.DeleteSession token])%list |}).
Proof. reflexivity. Qed.

(** C9.  For every token, the unknown and the empty one included, and in
    every state of the store, [logoutUser] returns [{success: true}]; the
    users table and both counters are left as they were, the sessions table
    loses exactly the rows with that token, and a second call with the same
    token returns the same result and changes nothing more. *)
Theorem C9_logout_idempotent_and_sessions_only (token : string) (h : Sqlite.Handle) :
  let after := snd (logoutUser token h) in
  fst (logoutUser token h) = Js.Return [("success", Js.Bool true)]
  /\ Sqlite.users (Sqlite.data after) = Sqlite.users (Sqlite.data h)
  /\ Sqlite.users_seq (Sqlite.data after) = Sqlite.users_seq (Sqlite.data h)
  /\ Sqlite.sessions_seq (Sqlite.data after) = Sqlite.sessions_seq (Sqlite.data h)
  /\ Sqlite.sessions (Sqlite.data after)
     = List.filter (fun s => negb (String.eqb (Sqlite.session_token s) token))
         (Sqlite.sessions (Sqlite.data h))
  /\ (forall s, In s (Sqlite.sessions (Sqlite.data after)) <->
                In s (Sqlite.sessions (Sqlite.data h)) /\ Sqlite.session_token s <> token)
  /\ fst (logoutUser token after) = fst (logoutUser token h)
  /\ Sqlite.data (snd (logoutUser token after)) = Sqlite.data after.
Proof.
  intros after. subst after. rewrite !logoutUser_unfold. simpl.
  do 5 (split; [reflexivity|]).
  split; [|split; [reflexivity|]].
  - intros s. rewrite filter_In, negb_true_iff, String.eqb_neq. tauto.
  - unfold Sqlite.delete_session. simpl. now rewrite filter_idempotent.
Qed.

Example logout_unknown_and_empty_token :
  fst (logoutUser "nonexistent_token_123" (Sqlite.open Sqlite.empty))
    = Js.Return [("success", Js.Bool true)]
  /\ fst (logoutUser "" (Sqlite.open Sqlite.empty))
    = Js.Return [("success", Js.Bool true)].
Proof. split; reflexivity. Qed.

(** ** The store stays consistent *)

Ltac run_service :=
  unfold registerUser, authenticateUser, verifySession, getUserById, logoutUser,
    try_catch, bind, query, run, eval, ret; simpl.

Lemma NoDup_map_filter {A B} (g : A -> B) (f : A -> bool) (l : list A) :
  List.NoDup (map g l) -> List.NoDup (map g (List.filter f l)).
Proof.
  induction l as [|a l IH]; simpl; intros Hnd; [constructor|].
  apply List.NoDup_cons_iff in Hnd as [Hnotin Hrest].
  destruct (f a); simpl; [|now apply IH].
  apply List.NoDup_cons_iff. split; [|now apply IH].
  intros Hin. apply Hnotin.
  apply in_map_iff in Hin as (x & Hx & Hxin).
  apply in_map_iff. exists x. split; [exact Hx|].
  apply filter_In in Hxin. tauto.
Qed.

Lemma NoDup_map_snoc {A B} (g : A -> B) (l : list A) (a : A) :
  List.NoDup (map g l) -> (forall x, In x l -> g x <> g a) -> List.NoDup (map g (l ++ [a])).
Proof.
  induction l as [|b l IH]; simpl; intros Hnd Hfresh.
  - apply List.NoDup_cons_iff. split; [intros []|constructor].
  - apply List.NoDup_cons_iff in Hnd as [Hnotin Hrest].
    apply List.NoDup_cons_iff. split.
    + rewrite map_app, in_app_iff. simpl. intros [Hin|[Heq|[]]]; [tauto|].
      apply (Hfresh b); [now left|now symmetry].
    + apply IH; [exact Hrest|]. intros x Hx. apply Hfresh. now right.
Qed.

Lemma insert_user_consistent (db db' : Sqlite.Db) (now : Z) (name e hash : string) :
  consistent db ->
  Sqlite.insert_user db now name e hash = Js.Return db' ->
  consistent db'.
Proof.
  intros [Hseq Hids Hnd Hemails Hnames Htokens]. unfold Sqlite.insert_user.
  destruct (existsb _ _) eqn:Hname; [discriminate|].
  destruct (existsb _ (Sqlite.users db)) eqn:Hemail in |- *; [discriminate|].
  intros [= <-]. rewrite existsb_false_iff in Hname, Hemail.
  rewrite List.Forall_forall in Hids.
  constructor; simpl.
  - lia.
  - apply List.Forall_forall. intros u Hu.
    apply in_app_iff in Hu as [Hu|[<-|[]]]; simpl.
    + specialize (Hids u Hu). lia.
    + lia.
  - apply NoDup_map_snoc; [exact Hnd|]. simpl. intros x Hx.
    specialize (Hids x Hx). lia.
  - apply NoDup_map_snoc; [exact Hemails|]. simpl. intros x Hx.
    apply String.eqb_neq. now apply Hemail.
  - apply NoDup_map_snoc; [exact Hnames|]. simpl. intros x Hx.
    apply String.eqb_neq. now apply Hname.
  - exact Htokens.
Qed.

Lemma insert_session_consistent (db db' : Sqlite.Db) (now uid : Z) (token expires : string) :
  consistent db ->
  Sqlite.insert_session db now uid token expires = Js.Return db' ->
  consistent db'.
Proof.
  intros [Hseq Hids Hnd Hemails Hnames Htokens]. unfold Sqlite.insert_session.
  destruct (existsb _ _) eqn:Htoken; [discriminate|].
  intros [= <-]. rewrite existsb_false_iff in Htoken.
  constructor; simpl; try assumption.
  apply NoDup_map_snoc; [exact Htokens|]. simpl. intros x Hx.
  apply String.eqb_neq. now apply Htoken.
Qed.

Lemma delete_session_consistent (db : Sqlite.Db) (token : string) :
  consistent db -> consistent (Sqlite.delete_session db token).
Proof.
  intros [Hseq Hids Hnd Hemails Hnames Htokens].
  constructor; simpl; try assumption.
  now apply NoDup_map_filter.
Qed.

Section Consistency.

Context {password_api : BunPassword}.

(** Registration leaves the data alone or is one successful insertion. *)
Lemma registerUser_data env username email password h :
  let h' := snd (registerUser env username email password h) in
  Sqlite.data h' = Sqlite.data h
  \/ exists hash,
       hashPassword (reg_salt env) password = Js.Return hash
       /\ Sqlite.insert_user (Sqlite.data h) (reg_now env) username email hash
          = Js.Return (Sqlite.data h').
Proof.
  run_service.
  destruct (negb (Js.truthy_string username) || negb (Js.truthy_string email)
            || negb (Js.truthy_string password)); simpl; [now left|].
  destruct (Z.of_nat (String.length password) <? 6); simpl; [now left|].
  destruct (Sqlite.select_user_id_by_email (Sqlite.data h) email); simpl; [now left|].
  destruct (hashPassword (reg_salt env) password) as [hash|msg] eqn:Hhash; simpl; [|now left].
  destruct (Sqlite.insert_user (Sqlite.data h) (reg_now env) username email hash)
    as [db'|msg] eqn:Hins; simpl; [|now left].
  right. now exists hash.
Qed.

(** Login leaves the data alone or is one successful insertion. *)
Lemma authenticateUser_data env email password h :
  let h' := snd (authenticateUser env email password h) in
  Sqlite.data h' = Sqlite.data h
  \/ exists uid token expires,
       Sqlite.insert_session (Sqlite.data h) (login_now_insert env) uid token expires
       = Js.Return (Sqlite.data h').
Proof.
  run_service.
  destruct (Sqlite.select_user_auth_by_email (Sqlite.data h) email) as [[uid hash]|];
    simpl; [|now left].
  destruct (verifyPassword password hash); simpl; [|now left].
  destruct (Time.toISOString _) as [expires|msg]; simpl; [|now left].
  destruct (Sqlite.insert_session _ _ _ _ _) as [db'|msg] eqn:Hins; simpl; [|now left].
  right. eexists uid, _, expires. exact Hins.
Qed.

Lemma verifySession_data now token h :
  Sqlite.data (snd (verifySession now token h)) = Sqlite.data h.
Proof.
  run_service.
  now destruct (Sqlite.select_valid_session (Sqlite.data h) now token) as [[uid e]|].
Qed.

Lemma getUserById_data n h :
  Sqlite.data (snd (getUserById n h)) = Sqlite.data h.
Proof. reflexivity. Qed.

Lemma consistent_empty : consistent Sqlite.empty.
Proof. constructor; simpl; try constructor. lia. Qed.

(** Every store that the service can build from a new database is
    consistent. *)
Lemma reachable_consistent (h : Sqlite.Handle) :
  reachable h -> consistent (Sqlite.data h).
Proof.
  induction 1 as [|h env username email password _ IH|h env email password _ IH
                  |h now token _ IH|h n _ IH|h token _ IH].
  - apply consistent_empty.
  - destruct (registerUser_data env username email password h) as [->|(hash & _ & Hins)];
      [exact IH|]. eapply insert_user_consistent; eassumption.
  - destruct (authenticateUser_data env email password h)
      as [->|(uid & token & expires & Hins)]; [exact IH|].
    eapply insert_session_consistent; eassumption.
  - now rewrite verifySession_data.
  - now rewrite getUserById_data.
  - rewrite logoutUser_unfold. simpl. now apply delete_session_consistent.
Qed.

End Consistency.

(** ** Looking a user up *)

Lemma user_info_row_keys (u : Sqlite.UserRow) :
  Js.keys (user_info_row u) = ["id"; "username"; "email"; "created_at"].
Proof. reflexivity. Qed.

(** C7.  [getUserById] never throws and never writes.  When it finds a user
    the object has exactly the keys [id], [username], [email] and
    [created_at], filled from a row with that id, and so no key for the
    password hash; an id that some row carries is found; a number that no row
    carries gives [null]; and on a consistent store zero and the negative
    numbers are such numbers. *)
Theorem C7_getUserById_shape (n : Js.Number) (h : Sqlite.Handle) :
  exists r : option Js.Object,
    fst (getUserById n h) = Js.Return r
    /\ Sqlite.data (snd (getUserById n h)) = Sqlite.data h
    /\ (forall o, r = Some o ->
          Js.keys o = ["id"; "username"; "email"; "created_at"]
          /\ Js.get "password_hash" o = None
          /\ Js.get "passwordHash" o = None
          /\ Js.get "password" o = None
          /\ exists u, In u (Sqlite.users (Sqlite.data h))
                       /\ n = Js.Integral (Sqlite.id u)
                       /\ o = [("id", Js.Num (Sqlite.id u));
                               ("username", Js.Str (Sqlite.username u));
                               ("email", Js.Str (Sqlite.email u));
                               ("created_at", Js.Str (Sqlite.created_at u))])
    /\ (forall u, In u (Sqlite.users (Sqlite.data h)) ->
          n = Js.Integral (Sqlite.id u) -> exists o, r = Some o)
    /\ ((forall u, In u (Sqlite.users (Sqlite.data h)) ->
           n <> Js.Integral (Sqlite.id u)) -> r = None)
    /\ (consistent (Sqlite.data h) ->
        forall z, z <= 0 -> n = Js.Integral z -> r = None).
Proof.
  exists (user_info_row <$> Sqlite.select_user_info_by_id (Sqlite.data h) n).
  split; [reflexivity|]. split; [reflexivity|].
  unfold Sqlite.select_user_info_by_id.
  split; [|split; [|split]].
  - intros o Ho. destruct n as [z|]; [|discriminate].
    destruct (find _ _) as [u|] eqn:Hfind; [|discriminate].
    injection Ho as <-. apply find_some_in in Hfind as [Hin Hid].
    apply Z.eqb_eq in Hid. subst z.
    repeat (split; [reflexivity|]). now exists u.
  - intros u Hin ->. destruct (find _ _) as [u'|] eqn:Hfind; [now eexists|].
    rewrite find_none_iff in Hfind. specialize (Hfind u Hin). simpl in Hfind.
    rewrite Z.eqb_refl in Hfind. discriminate.
  - intros Hnone. destruct n as [z|]; [|reflexivity].
    destruct (find _ _) as [u|] eqn:Hfind; [|reflexivity].
    apply find_some_in in Hfind as [Hin Hid]. apply Z.eqb_eq in Hid. subst z.
    now destruct (Hnone u Hin).
  - intros Hcons z Hz ->.
    destruct (find _ _) as [u|] eqn:Hfind; [|reflexivity].
    apply find_some_in in Hfind as [Hin Hid]. apply Z.eqb_eq in Hid.
    pose proof (user_ids_positive _ Hcons) as Hpos.
    rewrite List.Forall_forall in Hpos. specialize (Hpos u Hin). lia.
Qed.

Lemma scenario_reachable :
  reachable (password_api := Standin.envelope) Scenario.logged_in.
Proof. apply reach_authenticate, reach_register, reach_init. Qed.

Lemma scenario_consistent : consistent (Sqlite.data Scenario.logged_in).
Proof. exact (reachable_consistent _ scenario_reachable). Qed.

Lemma C7_getUserById_shape_witness :
  fst (getUserById (Js.Integral 0) Scenario.logged_in) = Js.Return None
  /\ fst (getUserById (Js.Integral (-1)) Scenario.logged_in) = Js.Return None.
Proof.
  split.
  - destruct (C7_getUserById_shape (Js.Integral 0) Scenario.logged_in)
      as (r & Hr & _ & _ & _ & _ & Hz).
    rewrite Hr. f_equal. apply (Hz scenario_consistent 0); [lia|reflexivity].
  - destruct (C7_getUserById_shape (Js.Integral (-1)) Scenario.logged_in)
      as (r & Hr & _ & _ & _ & _ & Hz).
    rewrite Hr. f_equal. apply (Hz scenario_consistent (-1)); [lia|reflexivity].
Defined.

Example getUserById_alice :
  fst (getUserById (Js.Integral 1) Scenario.logged_in)
  = Js.Return (Some [("id", Js.Num 1); ("username", Js.Str "alice");
                     ("email", Js.Str "alice@example.com");
                     ("created_at", Js.Str "2025-11-02 00:00:00")]).
Proof. reflexivity. Qed.

Example getUserById_fraction :
  fst (getUserById Js.NonIntegral Scenario.logged_in) = Js.Return None.
Proof. reflexivity. Qed.

(** ** Login *)

Section Login.

Context {password_api : BunPassword}.

(** The wrapper answers [true] exactly when the primitive does, and turns a
    throw of the primitive into [false]. *)
Lemma verifyPassword_true_iff (password hash : string) :
  verifyPassword password hash = true <-> verifySync password hash = Js.Return true.
Proof.
  unfold verifyPassword. destruct (verifySync password hash) as [[]|msg]; split;
    congruence.
Qed.

Lemma verifyPassword_of_throw (password hash msg : string) :
  verifySync password hash = Js.Throw msg -> verifyPassword password hash = false.
Proof. unfold verifyPassword. now intros ->. Qed.

(** Hashing is the primitive itself, so a hash verifies through the wrappers
    whenever it verifies through the primitive. *)
Lemma verifyPassword_of_hashPassword (salt password hash : string) :
  hashPassword salt password = Js.Return hash ->
  verifySync password hash = Js.Return true ->
  verifyPassword password hash = true.
Proof. intros _. apply verifyPassword_true_iff. Qed.

(** C1.  [authenticateUser] always returns an object.  When no user has the
    email, and when a user has it but the password does not verify against the
    stored hash, the object is the same one: [success: false] with the
    message "Invalid email or password", and the store is not written.  On
    every path on which [success] is not [true] (the two above and the caught
    exception) the object has neither a [sessionToken] key nor a [userId]
    key. *)
Theorem C1_authenticate_failure_uniform
    (env : LoginEnv) (email password : string) (h : Sqlite.Handle) :
  exists (o : Js.Object) (h' : Sqlite.Handle),
    authenticateUser env email password h = (Js.Return o, h')
    /\ (Sqlite.select_user_auth_by_email (Sqlite.data h) email = None ->
        o = [("success", Js.Bool false);
             ("message", Js.Str "Invalid email or password")]
        /\ Sqlite.data h' = Sqlite.data h)
    /\ (forall uid hash,
          Sqlite.select_user_auth_by_email (Sqlite.data h) email = Some (uid, hash) ->
          verifyPassword password hash = false ->
          o = [("success", Js.Bool false);
               ("message", Js.Str "Invalid email or password")]
          /\ Sqlite.data h' = Sqlite.data h)
    /\ (Js.get "success" o = Some (Js.Bool true)
        \/ Js.get "success" o = Some (Js.Bool false)
           /\ Js.keys o = ["success"; "message"]
           /\ Js.get "sessionToken" o = None
           /\ Js.get "userId" o = None).
Proof.
  run_service.
  destruct (Sqlite.select_user_auth_by_email (Sqlite.data h) email) as [[uid hash]|];
    simpl.
  - destruct (verifyPassword password hash) eqn:Hverify; simpl.
    + destruct (Time.toISOString _) as [expires|msg]; simpl.
      * destruct (Sqlite.insert_session _ _ _ _ _) as [db'|msg]; simpl.
        -- eexists _, _. split; [reflexivity|]. split; [discriminate|].
           split; [|now left]. intros ? ? [= <- <-]. congruence.
        -- eexists _, _. split; [reflexivity|]. split; [discriminate|].
           split; [|right; now repeat split]. intros ? ? [= <- <-]. congruence.
      * eexists _, _. split; [reflexivity|]. split; [discriminate|].
        split; [|right; now repeat split]. intros ? ? [= <- <-]. congruence.
    + eexists _, _. split; [reflexivity|]. split; [discriminate|].
      split; [|right; now repeat split]. intros ? ? _ _. now split.
  - eexists _, _. split; [reflexivity|]. split; [now split|].
    split; [discriminate|right; now repeat split].
Qed.

End Login.

Lemma C1_authenticate_failure_uniform_witness :
  fst (authenticateUser (password_api := Standin.envelope) Scenario.login_env
         "nobody@example.com" "secret1" Scenario.registered)
  = fst (authenticateUser (password_api := Standin.envelope) Scenario.login_env
         "alice@example.com" "wrongPassword" Scenario.registered)
  /\ fst (authenticateUser (password_api := Standin.envelope) Scenario.login_env
         "alice@example.com" "wrongPassword" Scenario.registered)
     = Js.Return [("success", Js.Bool false);
                  ("message", Js.Str "Invalid email or password")].
Proof.
  destruct (C1_authenticate_failure_uniform (password_api := Standin.envelope)
              Scenario.login_env "nobody@example.com" "secret1" Scenario.registered)
    as (o1 & h1 & E1 & Hunknown & _ & _).
  destruct (C1_authenticate_failure_uniform (password_api := Standin.envelope)
              Scenario.login_env "alice@example.com" "wrongPassword" Scenario.registered)
    as (o2 & h2 & E2 & _ & Hwrong & _).
  destruct (Hunknown ltac:(vm_compute; reflexivity)) as [-> _].
  destruct (Hwrong 1 "$2b$04$abcdefghijklmnopqrstuvsecret1"
              ltac:(vm_compute; reflexivity) ltac:(vm_compute; reflexivity)) as [-> _].
  rewrite E1, E2. split; reflexivity.
Defined.

Example authenticate_success_has_both_keys :
  fst (authenticateUser (password_api := Standin.envelope) Scenario.login_env
         "alice@example.com" "secret1" Scenario.registered)
  = Js.Return [("success", Js.Bool true);
               ("message", Js.Str "Authentication successful");
               ("sessionToken", Js.Str Scenario.token);
               ("userId", Js.Num 1)].
Proof. vm_compute. reflexivity. Qed.

(** The caught exception: a login that draws a token already in the table
    fails on the UNIQUE constraint, with a message of its own and without the
    two keys. *)
Example authenticate_token_collision :
  fst (authenticateUser (password_api := Standin.envelope) Scenario.login_env
         "alice@example.com" "secret1" Scenario.logged_in)
  = Js.Return
      [("success", Js.Bool false);
       ("message",
        Js.Str "Authentication failed: UNIQUE constraint failed: sessions.session_token")].
Proof. vm_compute. reflexivity. Qed.

(** ** Registration *)

Lemma falsy_string_iff (s : string) : negb (Js.truthy_string s) = true <-> s = "".
Proof.
  unfold Js.truthy_string. rewrite negb_involutive. apply String.eqb_eq.
Qed.

Lemma falsy_string_false_iff (s : string) : negb (Js.truthy_string s) = false <-> s <> "".
Proof.
  unfold Js.truthy_string. rewrite negb_involutive. apply String.eqb_neq.
Qed.

Lemma select_user_id_by_email_none (db : Sqlite.Db) (e : string) :
  Sqlite.select_user_id_by_email db e = None <->
  forall u, In u (Sqlite.users db) -> Sqlite.email u <> e.
Proof.
  unfold Sqlite.select_user_id_by_email.
  destruct (find _ _) as [u|] eqn:Hfind; simpl.
  - split; [discriminate|]. intros Hall. apply find_some_in in Hfind as [Hin He].
    apply String.eqb_eq in He. now destruct (Hall u Hin).
  - split; [|reflexivity]. intros _ u Hin. rewrite find_none_iff in Hfind.
    apply String.eqb_neq. now apply Hfind.
Qed.

Lemma select_after_insert_user (db db' : Sqlite.Db) (now : Z) (name e hash : string) :
  Sqlite.select_user_id_by_email db e = None ->
  Sqlite.insert_user db now name e hash = Js.Return db' ->
  Sqlite.select_user_id_by_email db' e = Some (Sqlite.users_seq db + 1)
  /\ Sqlite.users db' =
     (Sqlite.users db ++
        [{| Sqlite.id := Sqlite.users_seq db + 1; Sqlite.username := name;
            Sqlite.email := e; Sqlite.password_hash := hash;
            Sqlite.created_at := Time.sqlite_datetime now |}])%list.
Proof.
  intros Hnone. unfold Sqlite.insert_user.
  destruct (existsb _ _); [discriminate|].
  destruct (existsb _ _); [discriminate|].
  intros [= <-]. split; [|reflexivity].
  unfold Sqlite.select_user_id_by_email in *. simpl.
  destruct (find _ (Sqlite.users db)) eqn:Hfind; [discriminate|].
  rewrite (find_app_none _ _ _ Hfind). simpl. now rewrite String.eqb_refl.
Qed.

Lemma select_user_id_by_email_some (db : Sqlite.Db) (e : string) (i : Z) :
  Sqlite.select_user_id_by_email db e = Some i ->
  exists u, In u (Sqlite.users db) /\ Sqlite.email u = e.
Proof.
  unfold Sqlite.select_user_id_by_email.
  destruct (find _ _) as [u|] eqn:Hfind; [|discriminate]. intros _.
  apply find_some_in in Hfind as [Hin He]. apply String.eqb_eq in He. now exists u.
Qed.

(** The insertion goes through when neither UNIQUE column is taken. *)
Lemma insert_user_free (db : Sqlite.Db) (now : Z) (name e hash : string) :
  (forall u, In u (Sqlite.users db) -> Sqlite.username u <> name) ->
  (forall u, In u (Sqlite.users db) -> Sqlite.email u <> e) ->
  exists db', Sqlite.insert_user db now name e hash = Js.Return db'.
Proof.
  intros Hname He. unfold Sqlite.insert_user.
  destruct (existsb (fun u => String.eqb (Sqlite.username u) name) _) eqn:H1.
  { apply existsb_exists in H1 as (u & Hin & Heq). apply String.eqb_eq in Heq.
    now destruct (Hname u Hin). }
  destruct (existsb (fun u => String.eqb (Sqlite.email u) e) _) eqn:H2.
  { apply existsb_exists in H2 as (u & Hin & Heq). apply String.eqb_eq in Heq.
    now destruct (He u Hin). }
  now eexists.
Qed.

Lemma insert_user_return (db db' : Sqlite.Db) (now : Z) (name e hash : string) :
  Sqlite.insert_user db now name e hash = Js.Return db' ->
  Sqlite.users_seq db' = Sqlite.users_seq db + 1
  /\ Sqlite.sessions db' = Sqlite.sessions db
  /\ Sqlite.sessions_seq db' = Sqlite.sessions_seq db.
Proof.
  unfold Sqlite.insert_user.
  destruct (existsb _ _); [discriminate|].
  destruct (existsb _ _); [discriminate|].
  intros [= <-]. now repeat split.
Qed.

Section Registration.

Context {password_api : BunPassword}.

(** C3.  [registerUser] always returns an object, and its checks run in this
    order.  (1) An empty username, email or password: [success: false], and
    nothing is run against the store.  (2) Otherwise a password shorter than
    six characters: [success: false] with the message "Password must be at
    least 6 characters long", which contains the word "password" once put in
    lower case (the way the callers test it); nothing is run against the
    store.  A password of six characters or more never gets that message.
    (3) Otherwise an email that a user already has: [success: false] with
    "Email already registered", and the data is unchanged; that message is
    given for no other reason.  (4) [success: true] is returned only when
    the three checks passed; then the password was hashed by the primitive,
    the users table has one more row, with the hash and the next id, and
    [userId] is that id.  (5) And when the three checks pass, the primitive
    returns a hash and the username is free, the registration does take
    place: the email is looked up, the row with that hash is inserted under
    the next id, the id is read back, and the result is [success: true] with
    "User registered successfully" and that [userId]; the sessions are left
    alone. *)
Theorem C3_register_validation_pipeline
    (env : RegisterEnv) (username email password : string) (h : Sqlite.Handle) :
  exists (o : Js.Object) (h' : Sqlite.Handle),
    registerUser env username email password h = (Js.Return o, h')
    /\ (username = "" \/ email = "" \/ password = "" ->
        o = [("success", Js.Bool false);
             ("message", Js.Str "Username, email, and password are required")]
        /\ h' = h)
    /\ (username <> "" -> email <> "" -> password <> "" ->
        (String.length password < 6)%nat ->
        o = [("success", Js.Bool false);
             ("message", Js.Str "Password must be at least 6 characters long")]
        /\ Text.includes "password"
             (Text.toLowerCase "Password must be at least 6 characters long") = true
        /\ h' = h)
    /\ ((6 <= String.length password)%nat ->
        Js.get "message" o
        <> Some (Js.Str "Password must be at least 6 characters long"))
    /\ (username <> "" -> email <> "" -> password <> "" ->
        (6 <= String.length password)%nat ->
        (exists u, In u (Sqlite.users (Sqlite.data h)) /\ Sqlite.email u = email) ->
        o = [("success", Js.Bool false);
             ("message", Js.Str "Email already registered")]
        /\ Sqlite.data h' = Sqlite.data h)
    /\ (Js.get "success" o = Some (Js.Bool true) ->
        username <> "" /\ email <> "" /\ password <> ""
        /\ (6 <= String.length password)%nat
        /\ (forall u, In u (Sqlite.users (Sqlite.data h)) -> Sqlite.email u <> email)
        /\ exists hash,
             hashPassword (reg_salt env) password = Js.Return hash
             /\ hashSync password (reg_salt env) = Js.Return hash
             /\ Sqlite.users (Sqlite.data h') =
                (Sqlite.users (Sqlite.data h) ++
                   [{| Sqlite.id := Sqlite.users_seq (Sqlite.data h) + 1;
                       Sqlite.username := username;
                       Sqlite.email := email;
                       Sqlite.password_hash := hash;
                       Sqlite.created_at := Time.sqlite_datetime (reg_now env) |}])%list
             /\ o = [("success", Js.Bool true);
                     ("message", Js.Str "User registered successfully");
                     ("userId", Js.Num (Sqlite.users_seq (Sqlite.data h) + 1))])
    /\ (Js.get "message" o = Some (Js.Str "Email already registered") ->
        username <> "" /\ email <> "" /\ password <> ""
        /\ (6 <= String.length password)%nat
        /\ exists u, In u (Sqlite.users (Sqlite.data h)) /\ Sqlite.email u = email)
    /\ (username <> "" -> email <> "" -> password <> "" ->
        (6 <= String.length password)%nat ->
        (forall u, In u (Sqlite.users (Sqlite.data h)) -> Sqlite.email u <> email) ->
        (forall u, In u (Sqlite.users (Sqlite.data h)) ->
           Sqlite.username u <> username) ->
        forall hash,
          hashSync password (reg_salt env) = Js.Return hash ->
          o = [("success", Js.Bool true);
               ("message", Js.Str "User registered successfully");
               ("userId", Js.Num (Sqlite.users_seq (Sqlite.data h) + 1))]
          /\ Sqlite.users (Sqlite.data h') =
             (Sqlite.users (Sqlite.data h) ++
                [{| Sqlite.id := Sqlite.users_seq (Sqlite.data h) + 1;
                    Sqlite.username := username;
                    Sqlite.email := email;
                    Sqlite.password_hash := hash;
                    Sqlite.created_at := Time.sqlite_datetime (reg_now env) |}])%list
          /\ Sqlite.users_seq (Sqlite.data h') = Sqlite.users_seq (Sqlite.data h) + 1
          /\ Sqlite.sessions (Sqlite.data h') = Sqlite.sessions (Sqlite.data h)
          /\ Sqlite.sessions_seq (Sqlite.data h') = Sqlite.sessions_seq (Sqlite.data h)
          /\ Sqlite.executed h' =
             (Sqlite.executed h ++
                [Sqlite.SelectUserIdByEmail email;
                 Sqlite.InsertUser username email hash;
                 Sqlite.SelectUserIdByEmail email])%list).
Proof.
  run_service.
  destruct (negb (Js.truthy_string username) || negb (Js.truthy_string email)
            || negb (Js.truthy_string password)) eqn:Hempty; simpl.
  { eexists _, _. split; [reflexivity|].
    rewrite !orb_true_iff, !falsy_string_iff in Hempty.
    split; [now split|]. split; [tauto|]. split; [discriminate|].
    split; [tauto|]. split; [discriminate|]. split; [discriminate|].
    intros Hu He Hp. tauto. }
  rewrite !orb_false_iff, !falsy_string_false_iff in Hempty.
  destruct Hempty as [[Husername Hemail] Hpassword].
  destruct (Z.of_nat (String.length password) <? 6) eqn:Hshort; simpl.
  { apply Z.ltb_lt in Hshort. eexists _, _. split; [reflexivity|].
    split; [tauto|]. split; [now repeat split|]. split; [lia|].
    split; [lia|]. split; [discriminate|]. split; [discriminate|].
    intros _ _ _ Hlen. lia. }
  apply Z.ltb_ge in Hshort.
  destruct (Sqlite.select_user_id_by_email (Sqlite.data h) email) as [i|] eqn:Hsel; simpl.
  { eexists _, _. split; [reflexivity|].
    split; [tauto|]. split; [lia|]. split; [discriminate|].
    split; [now split|]. split; [discriminate|]. split.
    - intros _. repeat (split; [assumption || lia|]).
      exact (select_user_id_by_email_some _ _ _ Hsel).
    - intros _ _ _ _ Hfree. apply select_user_id_by_email_none in Hfree.
      congruence. }
  pose proof (proj1 (select_user_id_by_email_none _ _) Hsel) as Hfresh.
  assert (Hnotin : ~ exists u, In u (Sqlite.users (Sqlite.data h)) /\ Sqlite.email u = email).
  { intros (u & Hin & He). now apply (Hfresh u Hin). }
  destruct (hashPassword (reg_salt env) password) as [hash|msg] eqn:Hhash; simpl.
  2:{ eexists _, _. split; [reflexivity|].
      split; [tauto|]. split; [lia|]. split; [discriminate|].
      split; [tauto|]. split; [discriminate|]. split; [discriminate|].
      intros _ _ _ _ _ _ hash Hsync. unfold hashPassword in Hhash. congruence. }
  destruct (Sqlite.insert_user (Sqlite.data h) (reg_now env) username email hash)
    as [db'|msg] eqn:Hins; simpl.
  2:{ eexists _, _. split; [reflexivity|].
      split; [tauto|]. split; [lia|]. split; [discriminate|].
      split; [tauto|]. split; [discriminate|]. split; [discriminate|].
      intros _ _ _ _ _ Hname hash' Hsync. unfold hashPassword in Hhash.
      assert (hash' = hash) as -> by congruence.
      destruct (insert_user_free (Sqlite.data h) (reg_now env) username email hash
                  Hname Hfresh) as [db' Hok].
      congruence. }
  destruct (select_after_insert_user _ _ _ _ _ _ Hsel Hins) as [Hid Husers].
  destruct (insert_user_return _ _ _ _ _ _ Hins) as (Hseq & Hsessions & Hsseq).
  rewrite Hid. eexists _, _. split; [reflexivity|].
  split; [tauto|]. split; [lia|]. split; [discriminate|]. split; [tauto|].
  split; [|split; [discriminate|]].
  - intros _. repeat (split; [assumption || lia|]).
    exists hash. now repeat split.
  - intros _ _ _ _ _ _ hash' Hsync. unfold hashPassword in Hhash.
    assert (hash' = hash) as -> by congruence.
    cbn [Sqlite.data Sqlite.executed]. rewrite <- !app_assoc.
    now repeat split.
Qed.

End Registration.

Lemma C3_register_validation_pipeline_witness :
  fst (registerUser (password_api := Standin.envelope) Scenario.register_env
         "bob" "bob@example.com" "12345" Scenario.registered)
  = Js.Return [("success", Js.Bool false);
               ("message", Js.Str "Password must be at least 6 characters long")]
  /\ fst (registerUser (password_api := Standin.envelope) Scenario.register_env
         "bob" "alice@example.com" "123456" Scenario.registered)
  = Js.Return [("success", Js.Bool false);
               ("message", Js.Str "Email already registered")]
  /\ fst (registerUser (password_api := Standin.envelope) Scenario.register_env
         "bob" "bob@example.com" "123456" Scenario.registered)
  = Js.Return [("success", Js.Bool true);
               ("message", Js.Str "User registered successfully");
               ("userId", Js.Num 2)].
Proof.
  destruct (C3_register_validation_pipeline (password_api := Standin.envelope)
              Scenario.register_env "bob" "bob@example.com" "12345" Scenario.registered)
    as (o1 & h1 & E1 & _ & Hshort & _).
  destruct (C3_register_validation_pipeline (password_api := Standin.envelope)
              Scenario.register_env "bob" "alice@example.com" "123456" Scenario.registered)
    as (o2 & h2 & E2 & _ & _ & _ & Hdup & _).
  destruct (C3_register_validation_pipeline (password_api := Standin.envelope)
              Scenario.register_env "bob" "bob@example.com" "123456" Scenario.registered)
    as (o3 & h3 & E3 & _ & _ & _ & _ & _ & _ & Hdone).
  destruct (Hshort ltac:(discriminate) ltac:(discriminate) ltac:(discriminate)
              ltac:(simpl; lia)) as [-> _].
  destruct (Hdup ltac:(discriminate) ltac:(discriminate) ltac:(discriminate)
              ltac:(simpl; lia)
              ltac:(eexists; split; [left; reflexivity|reflexivity])) as [-> _].
  destruct (Hdone ltac:(discriminate) ltac:(discriminate) ltac:(discriminate)
              ltac:(simpl; lia)
              ltac:(vm_compute; intros u [<-|[]]; discriminate)
              ltac:(vm_compute; intros u [<-|[]]; discriminate)
              "$2b$04$abcdefghijklmnopqrstuv123456"
              ltac:(vm_compute; reflexivity)) as [-> _].
  rewrite E1, E2, E3. repeat split.
Defined.

Example register_six_characters :
  fst (registerUser (password_api := Standin.envelope) Scenario.register_env
         "bob" "bob@example.com" "123456" Scenario.registered)
  = Js.Return [("success", Js.Bool true);
               ("message", Js.Str "User registered successfully");
               ("userId", Js.Num 2)].
Proof. vm_compute. reflexivity. Qed.

Example register_empty_before_short :
  fst (registerUser (password_api := Standin.envelope) Scenario.register_env
         "" "" "short" (Sqlite.open Sqlite.empty))
  = Js.Return [("success", Js.Bool false);
               ("message", Js.Str "Username, email, and password are required")].
Proof. vm_compute. reflexivity. Qed.

(** After the three checks the insertion can still fail, on the UNIQUE
    constraint of the username; the exception is caught. *)
Example register_duplicate_username :
  fst (registerUser (password_api := Standin.envelope) Scenario.register_env
         "alice" "other@example.com" "123456" Scenario.registered)
  = Js.Return
      [("success", Js.Bool false);
       ("message",
        Js.Str "Registration failed: UNIQUE constraint failed: users.username")].
Proof. vm_compute. reflexivity. Qed.

(** ** Session verification *)

Lemma verifySession_unfold (now : Z) (token : string) (h : Sqlite.Handle) :
  verifySession now token h =
    (Js.Return
       match Sqlite.select_valid_session (Sqlite.data h) now token with
       | Some (uid, _) => [("valid", Js.Bool true); ("userId", Js.Num uid)]
       | None => [("valid", Js.Bool false)]
       end,
     {| Sqlite.data := Sqlite.data h;
        Sqlite.executed :=
          (Sqlite.executed h ++ [Sqlite.SelectValidSession token])%list |}).
Proof.
  run_service.
  now destruct (Sqlite.select_valid_session (Sqlite.data h) now token) as [[uid e]|].
Qed.

(** What the query decides: a session is accepted exactly when a row has the
    token and an [expires_at] text that is greater than the text of
    [datetime('now')]; the user id is that of the row. *)
Lemma verifySession_valid_iff (now : Z) (token : string) (h : Sqlite.Handle) (uid : Z) :
  consistent (Sqlite.data h) ->
  fst (verifySession now token h)
    = Js.Return [("valid", Js.Bool true); ("userId", Js.Num uid)]
  <-> exists s, In s (Sqlite.sessions (Sqlite.data h))
                /\ Sqlite.session_token s = token
                /\ Sqlite.user_id s = uid
                /\ Text.gt (Sqlite.expires_at s) (Time.sqlite_datetime now) = true.
Proof.
  intros Hcons. rewrite verifySession_unfold. simpl.
  unfold Sqlite.select_valid_session.
  destruct (find _ _) as [s|] eqn:Hfind; simpl.
  - apply find_some_in in Hfind as [Hin Hs].
    apply andb_true_iff in Hs as [Htok Hgt]. apply String.eqb_eq in Htok.
    split.
    + intros [= <-]. now exists s.
    + intros (s' & Hin' & Htok' & <- & _). do 3 f_equal.
      pose proof (tokens_unique _ Hcons) as Hnd.
      assert (Hinj : forall l, List.NoDup (map Sqlite.session_token l) ->
                In s l -> In s' l ->
                Sqlite.session_token s = Sqlite.session_token s' -> s = s').
      { induction l as [|x l IH]; simpl; [tauto|]. intros Hl.
        apply List.NoDup_cons_iff in Hl as [Hx Hl].
        intros [->|Hs1] [->|Hs2] Heq; auto.
        - destruct Hx. rewrite Heq. now apply in_map.
        - destruct Hx. rewrite <- Heq. now apply in_map. }
      rewrite (Hinj _ Hnd Hin Hin'); congruence.
  - split; [discriminate|]. intros (s & Hin & Htok & _ & Hgt).
    rewrite find_none_iff in Hfind. specialize (Hfind s Hin). simpl in Hfind.
    apply String.eqb_eq in Htok. now rewrite Htok, Hgt in Hfind.
Qed.

(** A rejected session: the object is [{valid: false}], with no [userId]
    key.  That is the answer for a token that no row has, the empty token
    among them. *)
Lemma verifySession_invalid_shape (now : Z) (token : string) (h : Sqlite.Handle) :
  fst (verifySession now token h) <> Js.Return [("valid", Js.Bool false)] ->
  exists uid, fst (verifySession now token h)
              = Js.Return [("valid", Js.Bool true); ("userId", Js.Num uid)].
Proof.
  rewrite verifySession_unfold. simpl.
  destruct (Sqlite.select_valid_session _ _ _) as [[uid e]|]; [now exists uid|tauto].
Qed.

Lemma verifySession_unknown_token (now : Z) (token : string) (h : Sqlite.Handle) :
  (forall s, In s (Sqlite.sessions (Sqlite.data h)) -> Sqlite.session_token s <> token) ->
  fst (verifySession now token h) = Js.Return [("valid", Js.Bool false)].
Proof.
  intros Hunknown. rewrite verifySession_unfold. simpl.
  unfold Sqlite.select_valid_session.
  destruct (find _ _) as [s|] eqn:Hfind; [|reflexivity].
  apply find_some_in in Hfind as [Hin Hs]. apply andb_true_iff in Hs as [Htok _].
  apply String.eqb_eq in Htok. now destruct (Hunknown s Hin).
Qed.

(** *** The comparison of the two date formats *)

Lemma ascii_compare_refl (c : ascii) : Ascii.compare c c = Eq.
Proof. unfold Ascii.compare. apply N.compare_refl. Qed.

Lemma ltb_common_prefix (p a b : string) :
  String.ltb (p ++ a) (p ++ b) = String.ltb a b.
Proof.
  unfold String.ltb. induction p as [|c p IH]; simpl; [reflexivity|].
  now rewrite ascii_compare_refl.
Qed.

(** An [expires_at] written by [toISOString] has a [T] where
    [datetime('now')] has a space, so on the day of the expiry the stored text
    is the greater one at every time of that day, before and after the
    instant of the expiry. *)
Lemma expiry_day_text_gt (expiry now : Z) (iso : string) :
  Time.toISOString expiry = Js.Return iso ->
  expiry / Time.ms_per_day = now / Time.ms_per_day ->
  0 <= Time.year (Time.fields expiry) <= 9999 ->
  Text.gt iso (Time.sqlite_datetime now) = true.
Proof.
  unfold Time.toISOString, Time.sqlite_datetime, Time.fields, Text.gt.
  intros Hiso <- Hyear.
  destruct (Z.abs expiry >? Time.max_time); [discriminate|].
  destruct (Time.civil_from_days (expiry / Time.ms_per_day)) as [[y m] d].
  simpl in *. injection Hiso as <-.
  unfold Time.iso_year.
  replace ((0 <=? y) && (y <=? 9999)) with true
    by (symmetry; apply andb_true_iff; split; apply Z.leb_le; lia).
  rewrite ltb_common_prefix. change ("-" ++ ?s) with (String "-" s).
  unfold String.ltb at 1. simpl. fold (String.ltb).
  change (match (?a ?= ?b)%string with Lt => true | _ => false end)
    with (String.ltb a b).
  rewrite ltb_common_prefix.
  unfold String.ltb at 1. simpl.
  change (match (?a ?= ?b)%string with Lt => true | _ => false end)
    with (String.ltb a b).
  rewrite ltb_common_prefix. reflexivity.
Qed.

Example expiry_day_text_gt_scenario :
  Text.gt "2025-11-09T00:00:01.000Z" (Time.sqlite_datetime 1762732799000) = true.
Proof.
  apply (expiry_day_text_gt 1762646401000); [reflexivity|reflexivity|].
  vm_compute. split; discriminate.
Qed.

(** C2.  What [verifySession] does on the day on which a session expires.
    In the scenario alice logs in at 2025-11-02T00:00:01.000Z, so the session
    row carries the expiry "2025-11-09T00:00:01.000Z".  Asked at 23:59:59 of
    the ninth of November, almost a day after that instant, [verifySession]
    still answers [{valid: true, userId: 1}]: the stored text is compared
    with "2025-11-09 23:59:59" character by character and wins at the [T]. *)
Theorem C2_verifySession_accepts_expired_session :
  let expiry := login_now_expiry Scenario.login_env + 7 * 24 * 60 * 60 * 1000 in
  let now := 1762732799000 in
  map (fun s => (Sqlite.session_token s, Sqlite.user_id s, Sqlite.expires_at s))
      (Sqlite.sessions (Sqlite.data Scenario.logged_in))
    = [(Scenario.token, 1, "2025-11-09T00:00:01.000Z")]
  /\ Time.toISOString expiry = Js.Return "2025-11-09T00:00:01.000Z"
  /\ Time.sqlite_datetime now = "2025-11-09 23:59:59"
  /\ expiry < now
  /\ fst (verifySession now Scenario.token Scenario.logged_in)
     = Js.Return [("valid", Js.Bool true); ("userId", Js.Num 1)].
Proof. vm_compute. repeat split; reflexivity. Qed.

(** The session is rejected from the next midnight on. *)
Example verifySession_next_day :
  Time.sqlite_datetime 1762732800000 = "2025-11-10 00:00:00"
  /\ fst (verifySession 1762732800000 Scenario.token Scenario.logged_in)
     = Js.Return [("valid", Js.Bool false)].
Proof. vm_compute. split; reflexivity. Qed.

Example verifySession_empty_token :
  fst (verifySession 1762041602000 "" Scenario.logged_in)
  = Js.Return [("valid", Js.Bool false)].
Proof. vm_compute. reflexivity. Qed.

Example verifySession_after_login :
  fst (verifySession 1762041602000 Scenario.token Scenario.logged_in)
  = Js.Return [("valid", Js.Bool true); ("userId", Js.Num 1)].
Proof. vm_compute. reflexivity. Qed.

Example verifySession_after_logout :
  fst (verifySession 1762041602000 Scenario.token
         (snd (logoutUser Scenario.token Scenario.logged_in)))
  = Js.Return [("valid", Js.Bool false)].
Proof. vm_compute. reflexivity. Qed.

(** ** Headers *)

Lemma same_name_iff (a b : string) :
  Headers.same_name a b = true <-> Text.toLowerCase a = Text.toLowerCase b.
Proof. apply String.eqb_eq. Qed.

Lemma same_name_refl (a : string) : Headers.same_name a a = true.
Proof. now apply same_name_iff. Qed.

Lemma same_name_other (n name m : string) :
  Headers.same_name n name = true ->
  Headers.same_name m name = false ->
  Headers.same_name n m = false.
Proof.
  intros Hn Hm. apply same_name_iff in Hn.
  apply not_true_iff_false. intros Hnm. apply same_name_iff in Hnm.
  apply not_true_iff_false in Hm. apply Hm. apply same_name_iff. congruence.
Qed.

Lemma filter_remove_same (name : string) (hs : Headers.t) :
  List.filter (fun h => Headers.same_name (fst h) name) (Headers.remove name hs) = [].
Proof.
  unfold Headers.remove. induction hs as [|[n v] hs IH]; simpl; [reflexivity|].
  destruct (Headers.same_name n name) eqn:E; simpl; [exact IH|].
  now rewrite E.
Qed.

Lemma filter_remove_other (name m : string) (hs : Headers.t) :
  Headers.same_name m name = false ->
  List.filter (fun h => Headers.same_name (fst h) m) (Headers.remove name hs)
  = List.filter (fun h => Headers.same_name (fst h) m) hs.
Proof.
  intros Hm. unfold Headers.remove.
  induction hs as [|[n v] hs IH]; simpl; [reflexivity|].
  destruct (Headers.same_name n name) eqn:E; simpl.
  - now rewrite (same_name_other _ _ _ E Hm).
  - now rewrite IH.
Qed.

Lemma remove_remove (name : string) (hs : Headers.t) :
  Headers.remove name (Headers.remove name hs) = Headers.remove name hs.
Proof. apply filter_idempotent. Qed.

(** After [set], [get] of that name gives the value that was set. *)
Lemma get_set (name value : string) (hs : Headers.t) :
  Headers.get name (Headers.set name value hs) = Some value.
Proof.
  unfold Headers.get.
  induction hs as [|[n v] hs IH]; simpl.
  - now rewrite same_name_refl.
  - destruct (Headers.same_name n name) eqn:E; simpl; rewrite E.
    + now rewrite filter_remove_same.
    + exact IH.
Qed.

(** [set] leaves the headers of every other name as they were. *)
Lemma get_set_other (name value m : string) (hs : Headers.t) :
  Headers.same_name m name = false ->
  Headers.get m (Headers.set name value hs) = Headers.get m hs.
Proof.
  intros Hm. unfold Headers.get.
  assert (H : List.filter (fun h => Headers.same_name (fst h) m) (Headers.set name value hs)
              = List.filter (fun h => Headers.same_name (fst h) m) hs);
    [|now rewrite H].
  induction hs as [|[n v] hs IH]; simpl.
  - assert (Headers.same_name name m = false) as ->; [|reflexivity].
    apply (same_name_other name name m); [apply same_name_refl|exact Hm].
  - destruct (Headers.same_name n name) eqn:E; simpl.
    + rewrite (same_name_other _ _ _ E Hm). now apply filter_remove_other.
    + now rewrite IH.
Qed.

Lemma remove_set (name value : string) (hs : Headers.t) :
  Headers.remove name (Headers.set name value hs) = Headers.remove name hs.
Proof.
  induction hs as [|[n v] hs IH]; simpl.
  - unfold Headers.remove. simpl. now rewrite same_name_refl.
  - destruct (Headers.same_name n name) eqn:E.
    + unfold Headers.remove at 1 3. simpl. rewrite E. simpl.
      apply remove_remove.
    + unfold Headers.remove in *. simpl. rewrite E. simpl. now rewrite IH.
Qed.

(** ** The session cookie on a response *)

Section SessionCookie.

Context {cookie_api : BunCookie}.

(** The copy that both functions make: a new object at the end of the heap,
    with the fields of the original and the cookie set on its own header
    list. *)
Lemma with_cookie_unfold (heap : Heap) (r : Response) (value : string) :
  headers_set (List.length heap) "Set-Cookie" value
    (snd (new_Response (body r) r heap))
  = (heap ++ [{| status := status r; statusText := statusText r;
                 headers := Headers.set "Set-Cookie" value (headers r);
                 body := body r |}])%list.
Proof.
  unfold new_Response, headers_set. simpl.
  rewrite (list_lookup_middle heap [] _ (List.length heap) eq_refl). simpl.
  replace (List.length heap) with (List.length heap + 0)%nat at 1 by lia.
  exact (insert_app_r heap [_] 0%nat _).
Qed.

Lemma setSessionCookie_unfold (heap : Heap) (response : nat) (r : Response)
    (token : string) (expiryDays : option Z) :
  heap !! response = Some r ->
  setSessionCookie response token expiryDays heap
  = Some (List.length heap,
          (heap ++ [{| status := status r; statusText := statusText r;
                       headers := Headers.set "Set-Cookie"
                                    (Cookie_toString
                                       (session_cookie token (default 7 expiryDays)))
                                    (headers r);
                       body := body r |}])%list).
Proof.
  intros Hr. unfold setSessionCookie. rewrite Hr. simpl.
  now rewrite <- with_cookie_unfold.
Qed.

Lemma clearSessionCookie_unfold (heap : Heap) (response : nat) (r : Response) :
  heap !! response = Some r ->
  clearSessionCookie response heap
  = Some (List.length heap,
          (heap ++ [{| status := status r; statusText := statusText r;
                       headers := Headers.set "Set-Cookie"
                                    (Cookie_toString expired_cookie) (headers r);
                       body := body r |}])%list).
Proof.
  intros Hr. unfold clearSessionCookie. rewrite Hr. simpl.
  now rewrite <- with_cookie_unfold.
Qed.

(** C8.  On a response [r] of the heap, [setSessionCookie] returns a
    reference that was not in use, so a new object, and every object that was
    in the heap, [r] among them, is as before.  The new response has one
    [Set-Cookie] header, the serialization of the cookie named [sessionToken]
    with the token as its value, path [/], [HttpOnly], [Secure],
    [SameSite=Strict] and a max-age of 86400 seconds per day of expiry (seven
    days when the argument is left out).  Its status, status text and body
    are those of [r], and so are its headers of any other name.
    [clearSessionCookie] does the same with the empty value and a max-age of
    zero. *)
Theorem C8_session_cookie_on_new_response
    (heap : Heap) (response : nat) (r : Response)
    (token : string) (expiryDays : option Z) :
  heap !! response = Some r ->
  (exists (newResponse : nat) (heap' : Heap) (r' : Response),
     setSessionCookie response token expiryDays heap = Some (newResponse, heap')
     /\ newResponse <> response
     /\ heap !! newResponse = None
     /\ (forall i x, heap !! i = Some x -> heap' !! i = Some x)
     /\ heap' !! newResponse = Some r'
     /\ Headers.get "Set-Cookie" (headers r')
        = Some (Cookie_toString
                  {| cookie_name := "sessionToken";
                     cookie_value := token;
                     domain := None;
                     path := Some "/";
                     expires := None;
                     maxAge := Some (default 7 expiryDays * 86400);
                     secure := true;
                     httpOnly := true;
                     partitioned := false;
                     sameSite := Strict |})
     /\ status r' = status r
     /\ statusText r' = statusText r
     /\ body r' = body r
     /\ (forall name, Headers.same_name name "Set-Cookie" = false ->
           Headers.get name (headers r') = Headers.get name (headers r))
     /\ Headers.remove "Set-Cookie" (headers r')
        = Headers.remove "Set-Cookie" (headers r))
  /\ (exists (newResponse : nat) (heap' : Heap) (r' : Response),
     clearSessionCookie response heap = Some (newResponse, heap')
     /\ newResponse <> response
     /\ heap !! newResponse = None
     /\ (forall i x, heap !! i = Some x -> heap' !! i = Some x)
     /\ heap' !! newResponse = Some r'
     /\ Headers.get "Set-Cookie" (headers r')
        = Some (Cookie_toString
                  {| cookie_name := "sessionToken";
                     cookie_value := "";
                     domain := None;
                     path := Some "/";
                     expires := None;
                     maxAge := Some 0;
                     secure := true;
                     httpOnly := true;
                     partitioned := false;
                     sameSite := Strict |})
     /\ status r' = status r
     /\ statusText r' = statusText r
     /\ body r' = body r
     /\ (forall name, Headers.same_name name "Set-Cookie" = false ->
           Headers.get name (headers r') = Headers.get name (headers r))
     /\ Headers.remove "Set-Cookie" (headers r')
        = Headers.remove "Set-Cookie" (headers r)).
Proof.
  intros Hr. pose proof (lookup_lt_Some _ _ _ Hr) as Hlt.
  split.
  - rewrite (setSessionCookie_unfold _ _ _ _ _ Hr).
    eexists _, _, _. split; [reflexivity|].
    split; [lia|]. split; [now apply lookup_ge_None_2|].
    split; [intros i x Hx; now apply lookup_app_l_Some|].
    split; [now apply list_lookup_middle|]. simpl.
    split.
    { rewrite get_set. unfold session_cookie.
      now replace (default 7 expiryDays * 24 * 60 * 60)
        with (default 7 expiryDays * 86400) by lia. }
    do 3 (split; [reflexivity|]).
    split; [intros name Hname; now apply get_set_other|apply remove_set].
  - rewrite (clearSessionCookie_unfold _ _ _ Hr).
    eexists _, _, _. split; [reflexivity|].
    split; [lia|]. split; [now apply lookup_ge_None_2|].
    split; [intros i x Hx; now apply lookup_app_l_Some|].
    split; [now apply list_lookup_middle|]. simpl.
    split; [now rewrite get_set|].
    do 3 (split; [reflexivity|]).
    split; [intros name Hname; now apply get_set_other|apply remove_set].
Qed.

End SessionCookie.

Lemma C8_session_cookie_on_new_response_witness :
  let r := {| status := 201; statusText := "Created";
              headers := [("content-type", "application/json");
                          ("x-custom", "header-value")];
              body := Some "{}" |} in
  exists newResponse heap' r',
    setSessionCookie (cookie_api := Standin.serializer) 0%nat "tok123" None [r]
      = Some (newResponse, heap')
    /\ heap' !! 0%nat = Some r
    /\ heap' !! newResponse = Some r'
    /\ Headers.get "set-cookie" (headers r')
       = Some "sessionToken=tok123; Path=/; Max-Age=604800; Secure; HttpOnly; SameSite=Strict"
    /\ Headers.get "content-type" (headers r') = Some "application/json"
    /\ status r' = 201.
Proof.
  intros r.
  destruct (C8_session_cookie_on_new_response (cookie_api := Standin.serializer)
              [r] 0%nat r "tok123" None eq_refl)
    as [(n & heap' & r' & E & _ & _ & Hold & Hnew & Hcookie & Hstatus & _ & _ & Hget & _) _].
  exists n, heap', r'. split; [exact E|].
  split; [now apply Hold|]. split; [exact Hnew|].
  split; [exact Hcookie|].
  split; [now rewrite Hget|exact Hstatus].
Defined.

(** The cookie round trip of the specification. *)
Example cookie_round_trip :
  let r := {| status := 200; statusText := "OK"; headers := []; body := Some "OK" |} in
  match setSessionCookie (cookie_api := Standin.serializer) 0%nat "tok123" (Some 7) [r] with
  | Some (attached, heap1) =>
      (headers <$> heap1 !! attached)
      = Some [("Set-Cookie",
               "sessionToken=tok123; Path=/; Max-Age=604800; Secure; HttpOnly; SameSite=Strict")]
      /\ match clearSessionCookie (cookie_api := Standin.serializer) attached heap1 with
         | Some (cleared, heap2) =>
             (headers <$> heap2 !! cleared)
             = Some [("Set-Cookie",
                      "sessionToken=; Path=/; Max-Age=0; Secure; HttpOnly; SameSite=Strict")]
             /\ (headers <$> heap2 !! 0%nat) = Some []
         | None => False
         end
  | None => False
  end.
Proof. vm_compute. repeat split; reflexivity. Qed.

(** ** The token of a request *)

Section Middleware.

Context {cookie_map : BunCookieMap}.

(** Whatever the cookie parser answers, [getSessionFromCookies] never returns
    the empty string. *)
Lemma getSessionFromCookies_never_empty (req : Request) :
  getSessionFromCookies req <> Some "".
Proof.
  unfold getSessionFromCookies, or_null.
  destruct (Headers.get "cookie" (request_headers req)) as [cookieHeader|];
    [|discriminate].
  destruct (negb (Js.truthy_string cookieHeader)); [discriminate|].
  destruct (CookieMap_get cookieHeader "sessionToken") as [s|]; [|discriminate].
  destruct (Js.truthy_string s) eqn:E; [|discriminate].
  intros [= ->]. discriminate.
Qed.

(** A request without a token goes to the handler as anonymous, and the
    handle is not touched: no statement is run. *)
Lemma withOptionalAuthentication_anonymous {R : Type}
    (handler : Request -> Js.Value -> option (option Js.Object) -> R)
    (now : Z) (req : Request) (h : Sqlite.Handle) :
  getSessionFromCookies req = None ->
  withOptionalAuthentication handler now req h
  = (Js.Return (handler req Js.Undefined None), h).
Proof. unfold withOptionalAuthentication. now intros ->. Qed.

(** C10.  When the [Cookie] header of a request gives the cookie
    [sessionToken] the empty value, [getSessionFromCookies] returns [null],
    not the empty string; the wrapped handler is then called as for an
    anonymous request, with [undefined] for the user id and for the user
    info, and the handle is left as it was, its record of executed statements
    included: no session is looked up. *)
Theorem C10_empty_session_cookie_is_anonymous
    (req : Request) (cookieHeader : string) :
  Headers.get "cookie" (request_headers req) = Some cookieHeader ->
  CookieMap_get cookieHeader "sessionToken" = Some "" ->
  getSessionFromCookies req = None
  /\ getSessionFromCookies req <> Some ""
  /\ forall (R : Type)
            (handler : Request -> Js.Value -> option (option Js.Object) -> R)
            (now : Z) (h : Sqlite.Handle),
       withOptionalAuthentication handler now req h
       = (Js.Return (handler req Js.Undefined None), h).
Proof.
  intros Hheader Hcookie.
  assert (Hnone : getSessionFromCookies req = None).
  { unfold getSessionFromCookies. rewrite Hheader.
    destruct (negb (Js.truthy_string cookieHeader)); [reflexivity|].
    now rewrite Hcookie. }
  split; [exact Hnone|]. split; [apply getSessionFromCookies_never_empty|].
  intros R handler now h. now apply withOptionalAuthentication_anonymous.
Qed.

End Middleware.

Lemma C10_empty_session_cookie_is_anonymous_witness :
  let req := {| request_headers := [("cookie", "sessionToken=; other=value")] |} in
  getSessionFromCookies (cookie_map := Standin.parser) req = None
  /\ withOptionalAuthentication (cookie_map := Standin.parser)
       (fun _ userId _ => userId) 1762041602000 req Scenario.logged_in
     = (Js.Return Js.Undefined, Scenario.logged_in).
Proof.
  intros req.
  destruct (C10_empty_session_cookie_is_anonymous (cookie_map := Standin.parser)
              req "sessionToken=; other=value" eq_refl eq_refl)
    as (Hnone & _ & Hanonymous).
  split; [exact Hnone|]. apply Hanonymous.
Defined.

(** Extraction of the token among other cookies, and resolution of the
    caller of the scenario. *)
Example getSessionFromCookies_positions :
  getSessionFromCookies (cookie_map := Standin.parser)
    {| request_headers := [("cookie", "userId=1; sessionToken=abc; theme=dark")] |}
  = Some "abc"
  /\ getSessionFromCookies (cookie_map := Standin.parser)
       {| request_headers := [("cookie", ";;; sessionToken=token; ;;;")] |}
     = Some "token"
  /\ getSessionFromCookies (cookie_map := Standin.parser)
       {| request_headers := [("cookie", "userId=123; theme=dark")] |}
     = None
  /\ getSessionFromCookies (cookie_map := Standin.parser)
       {| request_headers := [] |}
     = None.
Proof. vm_compute. repeat split; reflexivity. Qed.

(** A request that carries its cookies on two [Cookie] lines: the lines are
    joined as cookie pairs, and the token is found on the second. *)
Example getSessionFromCookies_two_cookie_lines :
  let lines := [("Cookie", "theme=dark"); ("accept", "text/html");
                ("cookie", "sessionToken=abc"); ("Accept", "image/png")] in
  Headers.get "cookie" lines = Some "theme=dark; sessionToken=abc"
  /\ Headers.get "accept" lines = Some "text/html, image/png"
  /\ getSessionFromCookies (cookie_map := Standin.parser)
       {| request_headers := lines |}
     = Some "abc".
Proof. vm_compute. repeat split; reflexivity. Qed.

Example resolve_caller_of_scenario :
  fst (withOptionalAuthentication (cookie_map := Standin.parser)
         (fun _ userId userInfo => (userId, userInfo)) 1762041602000
         {| request_headers :=
              [("cookie", "theme=dark; sessionToken=" ++ Scenario.token)] |}
         Scenario.logged_in)
  = Js.Return
      (Js.Num 1,
       Some (Some [("id", Js.Num 1); ("username", Js.Str "alice");
                   ("email", Js.Str "alice@example.com");
                   ("created_at", Js.Str "2025-11-02 00:00:00")])).
Proof. vm_compute. reflexivity. Qed.

(** ** Session tokens *)

Lemma hex_digit_charset (d : Z) : is_lower_hex (Buffer.hex_digit d) = true.
Proof.
  unfold Buffer.hex_digit. generalize (Z.to_nat d). intros n.
  do 16 (destruct n as [|n]; [reflexivity|]). reflexivity.
Qed.

Lemma toString_hex_charset (bytes : list Z) :
  Text.forallb is_lower_hex (Buffer.toString_hex bytes) = true.
Proof.
  induction bytes as [|b bytes IH]; simpl; [reflexivity|].
  now rewrite !hex_digit_charset, IH.
Qed.

Lemma toString_hex_length (bytes : list Z) :
  String.length (Buffer.toString_hex bytes) = (2 * List.length bytes)%nat.
Proof. induction bytes as [|b bytes IH]; simpl; [reflexivity|]. rewrite IH. lia. Qed.

Lemma from_app (a b : string) :
  Buffer.from (a ++ b) = (Buffer.from a ++ Buffer.from b)%list.
Proof.
  induction a as [|c a IH]; simpl; [reflexivity|].
  now rewrite IH, app_assoc.
Qed.

Lemma from_length_ge (s : string) :
  (String.length s <= List.length (Buffer.from s))%nat.
Proof.
  induction s as [|c s IH]; simpl; [lia|].
  rewrite length_app. unfold Buffer.utf8.
  destruct (Z.of_nat (nat_of_ascii c) <? 128); simpl; lia.
Qed.

Lemma remove_dash_length (u : string) :
  String.length (Text.remove_char "-" u)
  = List.length (List.filter negb (dashes u)).
Proof.
  induction u as [|c u IH]; simpl; [reflexivity|].
  unfold is_dash. destruct (Ascii.eqb c "-"); simpl; [exact IH|now rewrite IH].
Qed.

Lemma is_uuid_layout (u : string) : is_uuid u = true -> dashes u = uuid_layout.
Proof.
  unfold is_uuid. intros H. apply andb_true_iff in H as [H _].
  now apply bool_decide_eq_true in H.
Qed.

Lemma is_uuid_digits (u : string) :
  is_uuid u = true -> Text.forallb is_hex_digit (Text.remove_char "-" u) = true.
Proof. unfold is_uuid. intros H. now apply andb_true_iff in H as [_ H]. Qed.

Lemma is_uuid_digits_length (u : string) :
  is_uuid u = true -> String.length (Text.remove_char "-" u) = 32%nat.
Proof.
  intros H. rewrite remove_dash_length, (is_uuid_layout u H). reflexivity.
Qed.

(** With the dashes at the same places, two strings that agree once the
    dashes are removed are the same string. *)
Lemma remove_dash_injective (u1 u2 : string) :
  dashes u1 = dashes u2 ->
  Text.remove_char "-" u1 = Text.remove_char "-" u2 ->
  u1 = u2.
Proof.
  revert u2. induction u1 as [|c1 u1 IH]; intros [|c2 u2]; simpl;
    try discriminate; [reflexivity|].
  unfold is_dash. intros [= Hc Hrest].
  destruct (Ascii.eqb c1 "-") eqn:E1; destruct (Ascii.eqb c2 "-") eqn:E2;
    try discriminate.
  - apply Ascii.eqb_eq in E1, E2. subst. intros Hs. f_equal. now apply IH.
  - intros [= -> Hs]. f_equal. now apply IH.
Qed.

Lemma hex_digit_injective (d1 d2 : Z) :
  0 <= d1 < 16 -> 0 <= d2 < 16 ->
  Buffer.hex_digit d1 = Buffer.hex_digit d2 -> d1 = d2.
Proof.
  intros H1 H2.
  assert (E1 : d1 = 0 \/ d1 = 1 \/ d1 = 2 \/ d1 = 3 \/ d1 = 4 \/ d1 = 5 \/ d1 = 6
               \/ d1 = 7 \/ d1 = 8 \/ d1 = 9 \/ d1 = 10 \/ d1 = 11 \/ d1 = 12
               \/ d1 = 13 \/ d1 = 14 \/ d1 = 15) by lia.
  assert (E2 : d2 = 0 \/ d2 = 1 \/ d2 = 2 \/ d2 = 3 \/ d2 = 4 \/ d2 = 5 \/ d2 = 6
               \/ d2 = 7 \/ d2 = 8 \/ d2 = 9 \/ d2 = 10 \/ d2 = 11 \/ d2 = 12
               \/ d2 = 13 \/ d2 = 14 \/ d2 = 15) by lia.
  repeat (destruct E1 as [->|E1]); try subst d1;
    repeat (destruct E2 as [->|E2]); try subst d2;
    (reflexivity || (intros Hd; vm_compute in Hd; discriminate)).
Qed.

Lemma hex_digit_is_ascii (c : ascii) :
  is_hex_digit c = true -> (nat_of_ascii c < 128)%nat.
Proof.
  unfold is_hex_digit, is_lower_hex, between.
  rewrite !orb_true_iff, !andb_true_iff, !Nat.leb_le. lia.
Qed.

(** The two hexadecimal digits of an ASCII character determine it. *)
Lemma hex_pair_injective (c1 c2 : ascii) :
  (nat_of_ascii c1 < 128)%nat -> (nat_of_ascii c2 < 128)%nat ->
  Buffer.toString_hex (Buffer.utf8 c1) = Buffer.toString_hex (Buffer.utf8 c2) ->
  c1 = c2.
Proof.
  intros H1 H2. unfold Buffer.utf8.
  replace (Z.of_nat (nat_of_ascii c1) <? 128) with true by (symmetry; apply Z.ltb_lt; lia).
  replace (Z.of_nat (nat_of_ascii c2) <? 128) with true by (symmetry; apply Z.ltb_lt; lia).
  simpl. intros [= Hhi Hlo].
  set (n1 := Z.of_nat (nat_of_ascii c1)) in *.
  set (n2 := Z.of_nat (nat_of_ascii c2)) in *.
  assert (Hn1 : 0 <= n1 < 128) by (unfold n1; lia).
  assert (Hn2 : 0 <= n2 < 128) by (unfold n2; lia).
  rewrite !Z.shiftr_div_pow2 in Hhi by lia.
  change 15 with (Z.ones 4) in Hlo. rewrite !Z.land_ones in Hlo by lia.
  change (2 ^ 4) with 16 in *.
  apply hex_digit_injective in Hhi;
    [|split; [apply Z.div_pos; lia|apply Z.div_lt_upper_bound; lia]..].
  apply hex_digit_injective in Hlo; [|apply Z.mod_pos_bound; lia..].
  assert (Hn : n1 = n2).
  { rewrite (Z.div_mod n1 16), (Z.div_mod n2 16) by lia. congruence. }
  unfold n1, n2 in Hn. apply Nat2Z.inj in Hn.
  rewrite <- (ascii_nat_embedding c1), <- (ascii_nat_embedding c2). congruence.
Qed.

(** Two strings of hexadecimal digits of the same length whose encodings
    start two texts that are equal are the same string. *)
Lemma hex_of_digits_injective (s1 s2 x y : string) :
  Text.forallb is_hex_digit s1 = true ->
  Text.forallb is_hex_digit s2 = true ->
  String.length s1 = String.length s2 ->
  Buffer.toString_hex (Buffer.from s1 ++ Buffer.from x)
  = Buffer.toString_hex (Buffer.from s2 ++ Buffer.from y) ->
  s1 = s2.
Proof.
  revert s2. induction s1 as [|c1 s1 IH]; intros [|c2 s2]; simpl;
    try discriminate; [reflexivity|].
  intros Hs1 Hs2 [= Hlen].
  apply andb_true_iff in Hs1 as [Hc1 Hs1]. apply andb_true_iff in Hs2 as [Hc2 Hs2].
  apply hex_digit_is_ascii in Hc1 as Ha1. apply hex_digit_is_ascii in Hc2 as Ha2.
  pose proof (hex_pair_injective c1 c2 Ha1 Ha2) as Hpair.
  unfold Buffer.utf8 in *.
  replace (Z.of_nat (nat_of_ascii c1) <? 128) with true in *
    by (symmetry; apply Z.ltb_lt; lia).
  replace (Z.of_nat (nat_of_ascii c2) <? 128) with true in *
    by (symmetry; apply Z.ltb_lt; lia).
  simpl in *. intros [= Hhi Hlo Hrest].
  f_equal; [apply Hpair; congruence|now apply IH].
Qed.

(** The token determines the UUID it was made from. *)
Lemma generateSessionToken_injective (u1 u2 : string) (now1 now2 : Z) :
  is_uuid u1 = true -> is_uuid u2 = true ->
  generateSessionToken u1 now1 = generateSessionToken u2 now2 ->
  u1 = u2.
Proof.
  intros H1 H2. unfold generateSessionToken. rewrite !from_app. intros Htoken.
  apply remove_dash_injective.
  - now rewrite (is_uuid_layout u1 H1), (is_uuid_layout u2 H2).
  - eapply hex_of_digits_injective; [now apply is_uuid_digits..| |exact Htoken].
    now rewrite !is_uuid_digits_length.
Qed.

(** C6.  A token has only characters of [[0-9a-f]], whatever the UUID and
    the clock reading; made from a UUID in its textual form it has at least
    32 characters; and calls that draw pairwise
    distinct UUIDs, at whatever clock readings, return pairwise distinct
    tokens, however many calls there are. *)
Theorem C6_session_tokens :
  (forall uuid now,
     Text.forallb is_lower_hex (generateSessionToken uuid now) = true)
  /\ (forall uuid now,
        is_uuid uuid = true ->
        (32 <= String.length (generateSessionToken uuid now))%nat)
  /\ (forall calls : list (string * Z),
        List.Forall (fun call => is_uuid (fst call) = true) calls ->
        List.NoDup (map fst calls) ->
        List.NoDup (map (fun call => generateSessionToken (fst call) (snd call)) calls)
        /\ List.length (map (fun call => generateSessionToken (fst call) (snd call)) calls)
           = List.length calls).
Proof.
  split; [|split].
  - intros uuid now. apply toString_hex_charset.
  - intros uuid now Huuid. unfold generateSessionToken.
    rewrite toString_hex_length, from_app, length_app.
    pose proof (from_length_ge (Text.remove_char "-" uuid)) as Hge.
    rewrite (is_uuid_digits_length uuid Huuid) in Hge. lia.
  - intros calls Hcalls Hdistinct. split; [|apply length_map].
    induction calls as [|[u now] calls IH]; simpl; [constructor|].
    apply List.Forall_cons_iff in Hcalls as [Hu Hcalls]. simpl in *.
    apply List.NoDup_cons_iff in Hdistinct as [Hnotin Hdistinct].
    apply List.NoDup_cons_iff. split; [|now apply IH].
    intros Hin. apply in_map_iff in Hin as ([u' now'] & Htoken & Hin').
    simpl in Htoken. apply Hnotin.
    rewrite List.Forall_forall in Hcalls. specialize (Hcalls _ Hin').
    apply generateSessionToken_injective in Htoken; [|assumption..].
    subst u'. apply in_map_iff. now exists (u, now').
Qed.

Lemma C6_session_tokens_witness :
  let calls := [("019a4b2c-7d3e-7f00-8a1b-0123456789ab", 1762041601000);
                ("019a4b2c-7d3e-7f01-8a1b-0123456789ab", 1762041601000);
                ("019a4b2c-7d3f-7f00-9c1b-0123456789ab", 1762041601001)] in
  (32 <= String.length (generateSessionToken "019a4b2c-7d3e-7f00-8a1b-0123456789ab"
                          1762041601000))%nat
  /\ List.NoDup (map (fun call => generateSessionToken (fst call) (snd call)) calls).
Proof.
  intros calls. destruct C6_session_tokens as (_ & Hlength & Hdistinct).
  split.
  - apply Hlength. vm_compute. reflexivity.
  - apply (Hdistinct calls).
    + repeat constructor.
    + repeat (constructor; [simpl; intuition discriminate|]). constructor.
Defined.

Example token_of_scenario :
  Scenario.token
  = "303139613462326337643365376630303861316230313233343536373839616231373632303431363031303030"
  /\ String.length Scenario.token = 90%nat.
Proof. vm_compute. split; reflexivity. Qed.

(** * Further properties of the service *)

(** ** The paths of login and registration *)

Lemma find_filter_implied {A} (p q : A -> bool) (l : list A) :
  (forall x, p x = true -> q x = true) ->
  find p (List.filter q l) = find p l.
Proof.
  intros Himp. induction l as [|a l IH]; simpl; [reflexivity|].
  destruct (q a) eqn:Hq; simpl.
  - destruct (p a); [reflexivity|exact IH].
  - destruct (p a) eqn:Hp; [|exact IH]. rewrite (Himp a Hp) in Hq. discriminate.
Qed.

Lemma find_app_some {A} (f : A -> bool) (l k : list A) (a : A) :
  find f l = Some a -> find f (l ++ k) = Some a.
Proof.
  induction l as [|b l IH]; simpl; [discriminate|].
  destruct (f b); [tauto|exact IH].
Qed.

Section Paths.

Context {password_api : BunPassword}.

(** The five ways through [authenticateUser]. *)
Lemma authenticateUser_paths (env : LoginEnv) (email password : string)
    (h : Sqlite.Handle) :
  let token := generateSessionToken (login_uuid env) (login_now_token env) in
  let looked_up :=
    {| Sqlite.data := Sqlite.data h;
       Sqlite.executed :=
         (Sqlite.executed h ++ [Sqlite.SelectUserAuthByEmail email])%list |} in
  authenticateUser env email password h =
  match Sqlite.select_user_auth_by_email (Sqlite.data h) email with
  | None =>
      (Js.Return [("success", Js.Bool false);
                  ("message", Js.Str "Invalid email or password")], looked_up)
  | Some (uid, hash) =>
      if verifyPassword password hash then
        match Time.toISOString (login_now_expiry env + 604800000) with
        | Js.Throw msg =>
            (Js.Return [("success", Js.Bool false);
                        ("message", Js.Str ("Authentication failed: " ++ msg))],
             looked_up)
        | Js.Return expires =>
            match Sqlite.insert_session (Sqlite.data h) (login_now_insert env)
                    uid token expires with
            | Js.Throw msg =>
                (Js.Return [("success", Js.Bool false);
                            ("message", Js.Str ("Authentication failed: " ++ msg))],
                 {| Sqlite.data := Sqlite.data h;
                    Sqlite.executed :=
                      (Sqlite.executed looked_up
                         ++ [Sqlite.InsertSession uid token expires])%list |})
            | Js.Return db' =>
                (Js.Return [("success", Js.Bool true);
                            ("message", Js.Str "Authentication successful");
                            ("sessionToken", Js.Str token);
                            ("userId", Js.Num uid)],
                 {| Sqlite.data := db';
                    Sqlite.executed :=
                      (Sqlite.executed looked_up
                         ++ [Sqlite.InsertSession uid token expires])%list |})
            end
        end
      else
        (Js.Return [("success", Js.Bool false);
                    ("message", Js.Str "Invalid email or password")], looked_up)
  end.
Proof.
  intros token looked_up. subst token looked_up. run_service.
  change (login_now_expiry env + 7 * 24 * 60 * 60 * 1000)
    with (login_now_expiry env + 604800000).
  destruct (Sqlite.select_user_auth_by_email (Sqlite.data h) email) as [[uid hash]|];
    simpl; [|reflexivity].
  destruct (verifyPassword password hash); simpl; [|reflexivity].
  destruct (Time.toISOString _) as [expires|msg]; simpl; [|reflexivity].
  now destruct (Sqlite.insert_session _ _ _ _ _) as [db'|msg].
Qed.

(** The six ways through [registerUser]. *)
Lemma registerUser_paths (env : RegisterEnv) (username email password : string)
    (h : Sqlite.Handle) :
  let looked_up :=
    {| Sqlite.data := Sqlite.data h;
       Sqlite.executed :=
         (Sqlite.executed h ++ [Sqlite.SelectUserIdByEmail email])%list |} in
  registerUser env username email password h =
  if negb (Js.truthy_string username) || negb (Js.truthy_string email)
     || negb (Js.truthy_string password) then
    (Js.Return [("success", Js.Bool false);
                ("message", Js.Str "Username, email, and password are required")], h)
  else if Z.of_nat (String.length password) <? 6 then
    (Js.Return [("success", Js.Bool false);
                ("message", Js.Str "Password must be at least 6 characters long")], h)
  else
    match Sqlite.select_user_id_by_email (Sqlite.data h) email with
    | Some _ =>
        (Js.Return [("success", Js.Bool false);
                    ("message", Js.Str "Email already registered")], looked_up)
    | None =>
        match hashPassword (reg_salt env) password with
        | Js.Throw msg =>
            (Js.Return [("success", Js.Bool false);
                        ("message", Js.Str ("Registration failed: " ++ msg))],
             looked_up)
        | Js.Return hash =>
            match Sqlite.insert_user (Sqlite.data h) (reg_now env)
                    username email hash with
            | Js.Throw msg =>
                (Js.Return [("success", Js.Bool false);
                            ("message", Js.Str ("Registration failed: " ++ msg))],
                 {| Sqlite.data := Sqlite.data h;
                    Sqlite.executed :=
                      (Sqlite.executed looked_up
                         ++ [Sqlite.InsertUser username email hash])%list |})
            | Js.Return db' =>
                (Js.Return [("success", Js.Bool true);
                            ("message", Js.Str "User registered successfully");
                            ("userId",
                             match Sqlite.select_user_id_by_email db' email with
                             | Some i => Js.Num i
                             | None => Js.Undefined
                             end)],
                 {| Sqlite.data := db';
                    Sqlite.executed :=
                      ((Sqlite.executed looked_up
                          ++ [Sqlite.InsertUser username email hash])
                         ++ [Sqlite.SelectUserIdByEmail email])%list |})
            end
        end
    end.
Proof.
  intros looked_up. subst looked_up. run_service.
  destruct (negb (Js.truthy_string username) || negb (Js.truthy_string email)
            || negb (Js.truthy_string password)); simpl; [reflexivity|].
  destruct (Z.of_nat (String.length password) <? 6); simpl; [reflexivity|].
  destruct (Sqlite.select_user_id_by_email (Sqlite.data h) email); simpl;
    [reflexivity|].
  destruct (hashPassword (reg_salt env) password) as [hash|msg]; simpl;
    [|reflexivity].
  now destruct (Sqlite.insert_user _ _ _ _ _) as [db'|msg].
Qed.

End Paths.

Lemma select_user_auth_some (db : Sqlite.Db) (e : string) (uid : Z) (hash : string) :
  Sqlite.select_user_auth_by_email db e = Some (uid, hash) ->
  exists u, In u (Sqlite.users db) /\ Sqlite.email u = e
            /\ Sqlite.id u = uid /\ Sqlite.password_hash u = hash.
Proof.
  unfold Sqlite.select_user_auth_by_email.
  destruct (find _ _) as [u|] eqn:Hfind; [|discriminate].
  intros [= <- <-]. apply find_some_in in Hfind as [Hin He].
  apply String.eqb_eq in He. now exists u.
Qed.

Lemma insert_session_return (db db' : Sqlite.Db) (now uid : Z) (token expires : string) :
  Sqlite.insert_session db now uid token expires = Js.Return db' ->
  (forall s, In s (Sqlite.sessions db) -> Sqlite.session_token s <> token)
  /\ Sqlite.users db' = Sqlite.users db
  /\ Sqlite.users_seq db' = Sqlite.users_seq db
  /\ Sqlite.sessions db' =
     (Sqlite.sessions db ++
        [{| Sqlite.session_id := Sqlite.sessions_seq db + 1;
            Sqlite.user_id := uid;
            Sqlite.session_token := token;
            Sqlite.session_created_at := Time.sqlite_datetime now;
            Sqlite.expires_at := expires |}])%list.
Proof.
  unfold Sqlite.insert_session.
  destruct (existsb _ _) eqn:Hex; [discriminate|]. intros [= <-].
  split; [|now repeat split].
  intros s Hin. rewrite existsb_false_iff in Hex. apply String.eqb_neq. now apply Hex.
Qed.

Lemma insert_session_fresh (db : Sqlite.Db) (now uid : Z) (token expires : string) :
  (forall s, In s (Sqlite.sessions db) -> Sqlite.session_token s <> token) ->
  exists db', Sqlite.insert_session db now uid token expires = Js.Return db'.
Proof.
  intros Hfresh. unfold Sqlite.insert_session.
  destruct (existsb _ _) eqn:Hex; [|now eexists].
  apply existsb_exists in Hex as (s & Hin & Heq).
  apply String.eqb_eq in Heq. now destruct (Hfresh s Hin).
Qed.

Lemma insert_session_taken (db : Sqlite.Db) (now uid : Z) (token expires : string) :
  (exists s, In s (Sqlite.sessions db) /\ Sqlite.session_token s = token) ->
  Sqlite.insert_session db now uid token expires
  = Js.Throw "UNIQUE constraint failed: sessions.session_token".
Proof.
  intros (s & Hin & Heq). unfold Sqlite.insert_session.
  destruct (existsb _ _) eqn:Hex; [reflexivity|].
  rewrite existsb_false_iff in Hex. specialize (Hex s Hin). simpl in Hex.
  apply String.eqb_neq in Hex. contradiction.
Qed.

Lemma toISOString_in_range (t : Z) :
  Z.abs t <= Time.max_time -> exists iso, Time.toISOString t = Js.Return iso.
Proof.
  intros Ht. unfold Time.toISOString.
  destruct (Z.abs t >? Time.max_time) eqn:E; [|now eexists].
  apply Z.gtb_lt in E. lia.
Qed.

Section LoginPaths.

Context {password_api : BunPassword}.

(** A login that returns [success: true] found a user with the email whose
    stored hash the primitive verified, and wrote exactly one row: the users
    table is as before and the sessions table has one more row, owned by that
    user, with the returned token (which no row had) and the expiry seven days
    after the clock reading, in ISO form.  The [userId] of the result is the
    id of that user. *)
Theorem login_success_writes_one_session
    (env : LoginEnv) (email password : string) (h h' : Sqlite.Handle) (o : Js.Object) :
  authenticateUser env email password h = (Js.Return o, h') ->
  Js.get "success" o = Some (Js.Bool true) ->
  let token := generateSessionToken (login_uuid env) (login_now_token env) in
  exists (u : Sqlite.UserRow) (expires : string),
    In u (Sqlite.users (Sqlite.data h))
    /\ Sqlite.email u = email
    /\ verifySync password (Sqlite.password_hash u) = Js.Return true
    /\ Time.toISOString (login_now_expiry env + 604800000) = Js.Return expires
    /\ (forall s, In s (Sqlite.sessions (Sqlite.data h)) ->
          Sqlite.session_token s <> token)
    /\ o = [("success", Js.Bool true);
            ("message", Js.Str "Authentication successful");
            ("sessionToken", Js.Str token);
            ("userId", Js.Num (Sqlite.id u))]
    /\ Sqlite.users (Sqlite.data h') = Sqlite.users (Sqlite.data h)
    /\ Sqlite.sessions (Sqlite.data h') =
       (Sqlite.sessions (Sqlite.data h) ++
          [{| Sqlite.session_id := Sqlite.sessions_seq (Sqlite.data h) + 1;
              Sqlite.user_id := Sqlite.id u;
              Sqlite.session_token := token;
              Sqlite.session_created_at :=
                Time.sqlite_datetime (login_now_insert env);
              Sqlite.expires_at := expires |}])%list.
Proof.
  intros Hcall Hsuccess token. rewrite authenticateUser_paths in Hcall.
  destruct (Sqlite.select_user_auth_by_email (Sqlite.data h) email)
    as [[uid hash]|] eqn:Hsel.
  2:{ injection Hcall as <- <-. discriminate. }
  destruct (verifyPassword password hash) eqn:Hverify.
  2:{ injection Hcall as <- <-. discriminate. }
  destruct (Time.toISOString _) as [expires|msg] eqn:Hiso.
  2:{ injection Hcall as <- <-. discriminate. }
  destruct (Sqlite.insert_session _ _ _ _ _) as [db'|msg] eqn:Hins.
  2:{ injection Hcall as <- <-. discriminate. }
  injection Hcall as <- <-. simpl.
  apply select_user_auth_some in Hsel as (u & Hin & He & <- & <-).
  apply verifyPassword_true_iff in Hverify.
  apply insert_session_return in Hins as (Hfresh & Husers & _ & Hsessions).
  exists u, expires. now repeat split.
Qed.

(** When the token drawn for a login is already the token of a session, the
    login fails although the credentials are right: the UNIQUE constraint
    raises, the exception is caught, and the result is [success: false] with
    the message of the constraint; no row is written. *)
Theorem login_token_collision_is_caught
    (env : LoginEnv) (email password : string) (h : Sqlite.Handle)
    (uid : Z) (hash : string) :
  Sqlite.select_user_auth_by_email (Sqlite.data h) email = Some (uid, hash) ->
  verifySync password hash = Js.Return true ->
  Z.abs (login_now_expiry env + 604800000) <= Time.max_time ->
  (exists s, In s (Sqlite.sessions (Sqlite.data h))
             /\ Sqlite.session_token s
                = generateSessionToken (login_uuid env) (login_now_token env)) ->
  fst (authenticateUser env email password h)
  = Js.Return
      [("success", Js.Bool false);
       ("message",
        Js.Str "Authentication failed: UNIQUE constraint failed: sessions.session_token")]
  /\ Sqlite.data (snd (authenticateUser env email password h)) = Sqlite.data h.
Proof.
  intros Hsel Hverify Hrange Htaken. rewrite authenticateUser_paths, Hsel.
  apply verifyPassword_true_iff in Hverify. rewrite Hverify.
  destruct (toISOString_in_range _ Hrange) as [expires ->].
  rewrite (insert_session_taken _ _ _ _ _ Htaken). now split.
Qed.

End LoginPaths.

Lemma login_success_writes_one_session_witness :
  exists u expires,
    In u (Sqlite.users (Sqlite.data Scenario.registered))
    /\ Sqlite.email u = "alice@example.com"
    /\ expires = "2025-11-09T00:00:01.000Z"
    /\ map Sqlite.session_token (Sqlite.sessions (Sqlite.data Scenario.logged_in))
       = [Scenario.token].
Proof.
  destruct (login_success_writes_one_session (password_api := Standin.envelope)
              Scenario.login_env "alice@example.com" "secret1"
              Scenario.registered Scenario.logged_in
              [("success", Js.Bool true);
               ("message", Js.Str "Authentication successful");
               ("sessionToken", Js.Str Scenario.token);
               ("userId", Js.Num 1)]
              ltac:(vm_compute; reflexivity) ltac:(reflexivity))
    as (u & expires & Hin & He & _ & Hiso & _ & _ & _ & Hsessions).
  exists u, expires. split; [exact Hin|]. split; [exact He|].
  split; [vm_compute in Hiso; congruence|].
  rewrite Hsessions. vm_compute. reflexivity.
Defined.

Lemma login_token_collision_is_caught_witness :
  fst (authenticateUser (password_api := Standin.envelope) Scenario.login_env
         "alice@example.com" "secret1" Scenario.logged_in)
  = Js.Return
      [("success", Js.Bool false);
       ("message",
        Js.Str "Authentication failed: UNIQUE constraint failed: sessions.session_token")].
Proof.
  apply (login_token_collision_is_caught (password_api := Standin.envelope)
           Scenario.login_env "alice@example.com" "secret1" Scenario.logged_in
           1 "$2b$04$abcdefghijklmnopqrstuvsecret1").
  - vm_compute. reflexivity.
  - vm_compute. reflexivity.
  - vm_compute. discriminate.
  - eexists. split; [left; reflexivity|]. vm_compute. reflexivity.
Defined.

(** ** Registration: caught exceptions and round trips *)

Lemma insert_user_username_taken (db : Sqlite.Db) (now : Z) (name e hash : string) :
  (exists u, In u (Sqlite.users db) /\ Sqlite.username u = name) ->
  Sqlite.insert_user db now name e hash
  = Js.Throw "UNIQUE constraint failed: users.username".
Proof.
  intros (u & Hin & Hname). unfold Sqlite.insert_user.
  destruct (existsb _ _) eqn:Hex; [reflexivity|].
  rewrite existsb_false_iff in Hex. specialize (Hex u Hin). simpl in Hex.
  apply String.eqb_neq in Hex. contradiction.
Qed.

Lemma valid_inputs_pass (username email password : string) :
  username <> "" -> email <> "" -> password <> "" ->
  (6 <= String.length password)%nat ->
  negb (Js.truthy_string username) || negb (Js.truthy_string email)
    || negb (Js.truthy_string password) = false
  /\ (Z.of_nat (String.length password) <? 6) = false.
Proof.
  intros Hu He Hp Hlen. split.
  - rewrite !orb_false_iff, !falsy_string_false_iff. tauto.
  - apply Z.ltb_ge. lia.
Qed.

Lemma select_user_info_after_insert (db db' : Sqlite.Db) (now : Z)
    (name e hash : string) :
  consistent db ->
  Sqlite.insert_user db now name e hash = Js.Return db' ->
  Sqlite.select_user_info_by_id db' (Js.Integral (Sqlite.users_seq db + 1))
  = Some {| Sqlite.id := Sqlite.users_seq db + 1; Sqlite.username := name;
            Sqlite.email := e; Sqlite.password_hash := hash;
            Sqlite.created_at := Time.sqlite_datetime now |}
  /\ forall n, n <> Js.Integral (Sqlite.users_seq db + 1) ->
       Sqlite.select_user_info_by_id db' n = Sqlite.select_user_info_by_id db n.
Proof.
  intros Hcons. unfold Sqlite.insert_user.
  destruct (existsb _ _); [discriminate|].
  destruct (existsb _ _); [discriminate|].
  intros [= <-]. unfold Sqlite.select_user_info_by_id. simpl. split.
  - assert (Hnone : find (fun u => Sqlite.id u =? Sqlite.users_seq db + 1)
                      (Sqlite.users db) = None).
    { apply find_none_iff. intros u Hin. apply Z.eqb_neq.
      pose proof (user_ids_positive _ Hcons) as Hids.
      rewrite List.Forall_forall in Hids. specialize (Hids u Hin). lia. }
    rewrite (find_app_none _ _ _ Hnone). simpl. now rewrite Z.eqb_refl.
  - intros [z|] Hn; [|reflexivity].
    destruct (find (fun u => Sqlite.id u =? z) (Sqlite.users db)) as [u|] eqn:Hfind.
    + now apply find_app_some.
    + rewrite (find_app_none _ _ _ Hfind). simpl.
      destruct (Z.eqb_spec (Sqlite.users_seq db + 1) z) as [Heq|_]; [|reflexivity].
      destruct Hn. now rewrite Heq.
Qed.

Lemma getUserById_unfold (n : Js.Number) (h : Sqlite.Handle) :
  fst (getUserById n h)
  = Js.Return (user_info_row <$> Sqlite.select_user_info_by_id (Sqlite.data h) n).
Proof. reflexivity. Qed.

Section RegistrationPaths.

Context {password_api : BunPassword}.

(** After the three checks of [registerUser] have passed, two things can
    still go wrong, and both are caught: hashing throws, or the username is
    the username of another user, which violates the UNIQUE constraint of the
    insertion.  The result is [success: false] with "Registration failed: "
    followed by the message of the exception, and no row is written. *)
Theorem register_exceptions_are_caught
    (env : RegisterEnv) (username email password : string) (h : Sqlite.Handle) :
  username <> "" -> email <> "" -> password <> "" ->
  (6 <= String.length password)%nat ->
  (forall u, In u (Sqlite.users (Sqlite.data h)) -> Sqlite.email u <> email) ->
  (forall msg,
     hashSync password (reg_salt env) = Js.Throw msg ->
     fst (registerUser env username email password h)
     = Js.Return [("success", Js.Bool false);
                  ("message", Js.Str ("Registration failed: " ++ msg))]
     /\ Sqlite.data (snd (registerUser env username email password h))
        = Sqlite.data h)
  /\ (forall hash,
        hashSync password (reg_salt env) = Js.Return hash ->
        (exists u, In u (Sqlite.users (Sqlite.data h))
                   /\ Sqlite.username u = username) ->
        fst (registerUser env username email password h)
        = Js.Return
            [("success", Js.Bool false);
             ("message",
              Js.Str "Registration failed: UNIQUE constraint failed: users.username")]
        /\ Sqlite.data (snd (registerUser env username email password h))
           = Sqlite.data h).
Proof.
  intros Hu He Hp Hlen Hfresh.
  destruct (valid_inputs_pass _ _ _ Hu He Hp Hlen) as [Hempty Hshort].
  apply select_user_id_by_email_none in Hfresh.
  split.
  - intros msg Hhash. rewrite registerUser_paths, Hempty, Hshort, Hfresh.
    unfold hashPassword. rewrite Hhash. now split.
  - intros hash Hhash Htaken.
    rewrite registerUser_paths, Hempty, Hshort, Hfresh.
    unfold hashPassword. rewrite Hhash.
    rewrite (insert_user_username_taken _ _ _ _ _ Htaken). now split.
Qed.

(** A successful registration can be read back: on a consistent store,
    [getUserById] of the returned [userId] gives the username and the email
    that were registered, with the timestamp of the insertion, and the answer
    for every other number is what it was before. *)
Theorem register_then_getUserById
    (env : RegisterEnv) (username email password : string)
    (h h' : Sqlite.Handle) (o : Js.Object) :
  consistent (Sqlite.data h) ->
  registerUser env username email password h = (Js.Return o, h') ->
  Js.get "success" o = Some (Js.Bool true) ->
  exists i : Z,
    Js.get "userId" o = Some (Js.Num i)
    /\ (forall u, In u (Sqlite.users (Sqlite.data h)) -> Sqlite.id u < i)
    /\ fst (getUserById (Js.Integral i) h')
       = Js.Return (Some [("id", Js.Num i);
                          ("username", Js.Str username);
                          ("email", Js.Str email);
                          ("created_at",
                           Js.Str (Time.sqlite_datetime (reg_now env)))])
    /\ forall n, n <> Js.Integral i ->
         fst (getUserById n h') = fst (getUserById n h).
Proof.
  intros Hcons Hcall Hsuccess. rewrite registerUser_paths in Hcall.
  destruct (negb (Js.truthy_string username) || negb (Js.truthy_string email)
            || negb (Js.truthy_string password)).
  { injection Hcall as <- <-. discriminate. }
  destruct (Z.of_nat (String.length password) <? 6).
  { injection Hcall as <- <-. discriminate. }
  destruct (Sqlite.select_user_id_by_email (Sqlite.data h) email) eqn:Hsel.
  { injection Hcall as <- <-. discriminate. }
  destruct (hashPassword (reg_salt env) password) as [hash|msg].
  2:{ injection Hcall as <- <-. discriminate. }
  destruct (Sqlite.insert_user _ _ _ _ _) as [db'|msg] eqn:Hins.
  2:{ injection Hcall as <- <-. discriminate. }
  injection Hcall as <- <-.
  destruct (select_after_insert_user _ _ _ _ _ _ Hsel Hins) as [Hid _].
  destruct (select_user_info_after_insert _ _ _ _ _ _ Hcons Hins) as [Hnew Hothers].
  exists (Sqlite.users_seq (Sqlite.data h) + 1). rewrite Hid.
  split; [reflexivity|]. split.
  - intros u Hin. pose proof (user_ids_positive _ Hcons) as Hids.
    rewrite List.Forall_forall in Hids. specialize (Hids u Hin). lia.
  - rewrite getUserById_unfold. cbn [Sqlite.data]. rewrite Hnew.
    split; [reflexivity|].
    intros n Hn. rewrite !getUserById_unfold. cbn [Sqlite.data].
    now rewrite (Hothers n Hn).
Qed.

(** No call of the service removes or changes a user: the rows of the users
    table are still there, as they were, in every later store. *)
Lemma users_are_kept (h0 h : Sqlite.Handle) :
  reachable_from h0 h ->
  forall u, In u (Sqlite.users (Sqlite.data h0)) -> In u (Sqlite.users (Sqlite.data h)).
Proof.
  induction 1 as [|h env username email password _ IH|h env email password _ IH
                  |h now token _ IH|h n _ IH|h token _ IH]; intros u Hu.
  - exact Hu.
  - destruct (registerUser_data env username email password h)
      as [->|(hash & _ & Hins)]; [now apply IH|].
    unfold Sqlite.insert_user in Hins.
    destruct (existsb _ _); [discriminate|].
    destruct (existsb _ _); [discriminate|].
    injection Hins as Hdata. rewrite <- Hdata. simpl.
    apply in_app_iff. left. now apply IH.
  - destruct (authenticateUser_data env email password h)
      as [->|(uid & token & expires & Hins)]; [now apply IH|].
    apply insert_session_return in Hins as (_ & -> & _). now apply IH.
  - rewrite verifySession_data. now apply IH.
  - rewrite getUserById_data. now apply IH.
  - rewrite logoutUser_unfold. simpl. now apply IH.
Qed.

(** Registering an email a second time: once a registration has succeeded,
    every later registration with the same email is refused with "Email
    already registered", whatever the username and password (valid ones)
    and whatever calls of the service have been made in between, in any
    number and any order; it writes nothing. *)
Theorem register_same_email_twice
    (env env2 : RegisterEnv) (username email password username2 password2 : string)
    (h h' later : Sqlite.Handle) (o : Js.Object) :
  registerUser env username email password h = (Js.Return o, h') ->
  Js.get "success" o = Some (Js.Bool true) ->
  reachable_from h' later ->
  username2 <> "" -> (6 <= String.length password2)%nat ->
  fst (registerUser env2 username2 email password2 later)
  = Js.Return [("success", Js.Bool false);
               ("message", Js.Str "Email already registered")]
  /\ Sqlite.data (snd (registerUser env2 username2 email password2 later))
     = Sqlite.data later.
Proof.
  intros Hcall Hsuccess Hlater Hu2 Hlen2. rewrite registerUser_paths in Hcall.
  destruct (negb (Js.truthy_string username) || negb (Js.truthy_string email)
            || negb (Js.truthy_string password)) eqn:Hempty.
  { injection Hcall as <- <-. discriminate. }
  destruct (Z.of_nat (String.length password) <? 6).
  { injection Hcall as <- <-. discriminate. }
  destruct (Sqlite.select_user_id_by_email (Sqlite.data h) email) eqn:Hsel.
  { injection Hcall as <- <-. discriminate. }
  destruct (hashPassword (reg_salt env) password) as [hash|msg].
  2:{ injection Hcall as <- <-. discriminate. }
  destruct (Sqlite.insert_user _ _ _ _ _) as [db'|msg] eqn:Hins.
  2:{ injection Hcall as <- <-. discriminate. }
  injection Hcall as <- <-.
  destruct (select_after_insert_user _ _ _ _ _ _ Hsel Hins) as [_ Husers].
  rewrite !orb_false_iff, !falsy_string_false_iff in Hempty.
  destruct Hempty as [[_ He] _].
  assert (Hp2 : password2 <> "") by (intros ->; simpl in Hlen2; lia).
  destruct (valid_inputs_pass _ _ _ Hu2 He Hp2 Hlen2) as [Hempty2 Hshort2].
  rewrite registerUser_paths, Hempty2, Hshort2.
  destruct (Sqlite.select_user_id_by_email (Sqlite.data later) email) eqn:Hlookup;
    [now split|].
  rewrite select_user_id_by_email_none in Hlookup.
  destruct (Hlookup
              {| Sqlite.id := Sqlite.users_seq (Sqlite.data h) + 1;
                 Sqlite.username := username;
                 Sqlite.email := email;
                 Sqlite.password_hash := hash;
                 Sqlite.created_at := Time.sqlite_datetime (reg_now env) |});
    [|reflexivity].
  apply (users_are_kept _ _ Hlater). cbn [Sqlite.data]. rewrite Husers.
  apply in_app_iff. right. now left.
Qed.

(** Registration followed by login: a user who has just registered can log
    in with the same email and password, provided that the primitive verifies
    the hash it produced, that the token drawn is new and that the expiry is a
    valid date; the login returns the [userId] of the registration. *)
Theorem login_after_register
    (renv : RegisterEnv) (lenv : LoginEnv) (username email password : string)
    (h h' : Sqlite.Handle) (o : Js.Object) :
  registerUser renv username email password h = (Js.Return o, h') ->
  Js.get "success" o = Some (Js.Bool true) ->
  (forall hash, hashSync password (reg_salt renv) = Js.Return hash ->
                verifySync password hash = Js.Return true) ->
  Z.abs (login_now_expiry lenv + 604800000) <= Time.max_time ->
  (forall s, In s (Sqlite.sessions (Sqlite.data h')) ->
     Sqlite.session_token s
     <> generateSessionToken (login_uuid lenv) (login_now_token lenv)) ->
  exists i : Z,
    Js.get "userId" o = Some (Js.Num i)
    /\ fst (authenticateUser lenv email password h')
       = Js.Return
           [("success", Js.Bool true);
            ("message", Js.Str "Authentication successful");
            ("sessionToken",
             Js.Str (generateSessionToken (login_uuid lenv) (login_now_token lenv)));
            ("userId", Js.Num i)].
Proof.
  intros Hcall Hsuccess Hround Hrange Hfresh. rewrite registerUser_paths in Hcall.
  destruct (negb (Js.truthy_string username) || negb (Js.truthy_string email)
            || negb (Js.truthy_string password)).
  { injection Hcall as <- <-. discriminate. }
  destruct (Z.of_nat (String.length password) <? 6).
  { injection Hcall as <- <-. discriminate. }
  destruct (Sqlite.select_user_id_by_email (Sqlite.data h) email) eqn:Hsel.
  { injection Hcall as <- <-. discriminate. }
  destruct (hashPassword (reg_salt renv) password) as [hash|msg] eqn:Hhash.
  2:{ injection Hcall as <- <-. discriminate. }
  destruct (Sqlite.insert_user _ _ _ _ _) as [db'|msg] eqn:Hins.
  2:{ injection Hcall as <- <-. discriminate. }
  injection Hcall as <- <-. simpl in Hfresh.
  destruct (select_after_insert_user _ _ _ _ _ _ Hsel Hins) as [Hid Husers].
  exists (Sqlite.users_seq (Sqlite.data h) + 1). rewrite Hid.
  split; [reflexivity|].
  rewrite authenticateUser_paths. simpl.
  assert (Hauth : Sqlite.select_user_auth_by_email db' email
                  = Some (Sqlite.users_seq (Sqlite.data h) + 1, hash)).
  { unfold Sqlite.select_user_auth_by_email, Sqlite.select_user_id_by_email in *.
    rewrite Husers.
    destruct (find _ (Sqlite.users (Sqlite.data h))) eqn:Hfind; [discriminate|].
    rewrite (find_app_none _ _ _ Hfind). simpl. now rewrite String.eqb_refl. }
  rewrite Hauth.
  assert (Hverify : verifyPassword password hash = true)
    by (apply verifyPassword_true_iff, Hround, Hhash).
  rewrite Hverify.
  destruct (toISOString_in_range _ Hrange) as [expires ->].
  destruct (insert_session_fresh db' (login_now_insert lenv)
              (Sqlite.users_seq (Sqlite.data h) + 1)
              (generateSessionToken (login_uuid lenv) (login_now_token lenv))
              expires Hfresh) as [db'' ->].
  reflexivity.
Qed.

End RegistrationPaths.

Lemma register_exceptions_are_caught_witness :
  fst (registerUser (password_api := Standin.envelope) Scenario.register_env
         "alice" "other@example.com" "123456" Scenario.registered)
  = Js.Return
      [("success", Js.Bool false);
       ("message",
        Js.Str "Registration failed: UNIQUE constraint failed: users.username")]
  /\ fst (registerUser
            (password_api := {| hashSync := fun _ _ => Js.Throw "out of memory";
                                verifySync := fun _ _ => Js.Return false |})
            Scenario.register_env "bob" "bob@example.com" "123456"
            Scenario.registered)
     = Js.Return [("success", Js.Bool false);
                  ("message", Js.Str "Registration failed: out of memory")].
Proof.
  split.
  - apply (proj2 (register_exceptions_are_caught (password_api := Standin.envelope)
             Scenario.register_env "alice" "other@example.com" "123456"
             Scenario.registered
             ltac:(discriminate) ltac:(discriminate) ltac:(discriminate)
             ltac:(simpl; lia)
             ltac:(vm_compute; intros u [<-|[]]; discriminate))
             "$2b$04$abcdefghijklmnopqrstuv123456").
    + vm_compute. reflexivity.
    + eexists. vm_compute. split; [left; reflexivity|reflexivity].
  - apply (proj1 (register_exceptions_are_caught
             (password_api := {| hashSync := fun _ _ => Js.Throw "out of memory";
                                 verifySync := fun _ _ => Js.Return false |})
             Scenario.register_env "bob" "bob@example.com" "123456"
             Scenario.registered
             ltac:(discriminate) ltac:(discriminate) ltac:(discriminate)
             ltac:(simpl; lia)
             ltac:(vm_compute; intros u [<-|[]]; discriminate))
             "out of memory").
    reflexivity.
Defined.

Lemma register_then_getUserById_witness :
  exists i,
    fst (getUserById (Js.Integral i) Scenario.registered)
    = Js.Return (Some [("id", Js.Num i);
                       ("username", Js.Str "alice");
                       ("email", Js.Str "alice@example.com");
                       ("created_at", Js.Str "2025-11-02 00:00:00")]).
Proof.
  destruct (register_then_getUserById (password_api := Standin.envelope)
              Scenario.register_env "alice" "alice@example.com" "secret1"
              (Sqlite.open Sqlite.empty) Scenario.registered
              [("success", Js.Bool true);
               ("message", Js.Str "User registered successfully");
               ("userId", Js.Num 1)]
              consistent_empty ltac:(vm_compute; reflexivity) ltac:(reflexivity))
    as (i & _ & _ & Hget & _).
  exists i. exact Hget.
Defined.

Lemma register_same_email_twice_witness :
  fst (registerUser (password_api := Standin.envelope) Scenario.register_env
         "alice2" "alice@example.com" "another-password" Scenario.registered)
  = Js.Return [("success", Js.Bool false);
               ("message", Js.Str "Email already registered")]
  /\ fst (registerUser (password_api := Standin.envelope) Scenario.register_env
            "alice2" "alice@example.com" "another-password"
            (snd (logoutUser "unknown" Scenario.logged_in)))
     = Js.Return [("success", Js.Bool false);
                  ("message", Js.Str "Email already registered")].
Proof.
  split.
  - apply (register_same_email_twice (password_api := Standin.envelope)
             Scenario.register_env Scenario.register_env
             "alice" "alice@example.com" "secret1" "alice2" "another-password"
             (Sqlite.open Sqlite.empty) Scenario.registered Scenario.registered
             [("success", Js.Bool true);
              ("message", Js.Str "User registered successfully");
              ("userId", Js.Num 1)]
             ltac:(vm_compute; reflexivity) ltac:(reflexivity)
             (from_here _)
             ltac:(discriminate) ltac:(simpl; lia)).
  - apply (register_same_email_twice (password_api := Standin.envelope)
             Scenario.register_env Scenario.register_env
             "alice" "alice@example.com" "secret1" "alice2" "another-password"
             (Sqlite.open Sqlite.empty) Scenario.registered
             (snd (logoutUser "unknown" Scenario.logged_in))
             [("success", Js.Bool true);
              ("message", Js.Str "User registered successfully");
              ("userId", Js.Num 1)]
             ltac:(vm_compute; reflexivity) ltac:(reflexivity)
             (from_logout _ _ "unknown"
                (from_authenticate _ _ Scenario.login_env
                   "alice@example.com" "secret1" (from_here _)))
             ltac:(discriminate) ltac:(simpl; lia)).
Defined.

Lemma login_after_register_witness :
  exists i,
    fst (authenticateUser (password_api := Standin.envelope) Scenario.login_env
           "alice@example.com" "secret1" Scenario.registered)
    = Js.Return [("success", Js.Bool true);
                 ("message", Js.Str "Authentication successful");
                 ("sessionToken",
                  Js.Str (generateSessionToken
                            (login_uuid Scenario.login_env)
                            (login_now_token Scenario.login_env)));
                 ("userId", Js.Num i)].
Proof.
  destruct (login_after_register (password_api := Standin.envelope)
              Scenario.register_env Scenario.login_env
              "alice" "alice@example.com" "secret1"
              (Sqlite.open Sqlite.empty) Scenario.registered
              [("success", Js.Bool true);
               ("message", Js.Str "User registered successfully");
               ("userId", Js.Num 1)]
              ltac:(vm_compute; reflexivity) ltac:(reflexivity)
              ltac:(intros hash Hhash; vm_compute in Hhash;
                    injection Hhash as <-; vm_compute; reflexivity)
              ltac:(vm_compute; discriminate)
              ltac:(vm_compute; intros s []))
    as (i & _ & Hlogin).
  exists i. exact Hlogin.
Defined.

(** ** Sessions: revocation and independence *)

Lemma select_valid_session_delete_same (db : Sqlite.Db) (now : Z) (token : string) :
  Sqlite.select_valid_session (Sqlite.delete_session db token) now token = None.
Proof.
  unfold Sqlite.select_valid_session, Sqlite.delete_session. simpl.
  destruct (find _ _) as [s|] eqn:Hfind; [|reflexivity].
  apply find_some_in in Hfind as [Hin Hs].
  apply filter_In in Hin as [_ Hkept].
  apply andb_true_iff in Hs as [Htok _]. rewrite Htok in Hkept. discriminate.
Qed.

Lemma select_valid_session_delete_other (db : Sqlite.Db) (now : Z) (token other : string) :
  other <> token ->
  Sqlite.select_valid_session (Sqlite.delete_session db token) now other
  = Sqlite.select_valid_session db now other.
Proof.
  intros Hne. unfold Sqlite.select_valid_session, Sqlite.delete_session. simpl.
  rewrite find_filter_implied; [reflexivity|].
  intros s Hs. apply andb_true_iff in Hs as [Htok _].
  apply String.eqb_eq in Htok. apply negb_true_iff, String.eqb_neq. congruence.
Qed.

Lemma select_valid_session_insert_other (db db' : Sqlite.Db) (now at_ uid : Z)
    (token expires other : string) :
  Sqlite.insert_session db at_ uid token expires = Js.Return db' ->
  other <> token ->
  Sqlite.select_valid_session db' now other
  = Sqlite.select_valid_session db now other.
Proof.
  intros Hins Hne. apply insert_session_return in Hins as (_ & _ & _ & Hsessions).
  unfold Sqlite.select_valid_session. rewrite Hsessions.
  destruct (find _ (Sqlite.sessions db)) as [s|] eqn:Hfind.
  - now rewrite (find_app_some _ _ _ _ Hfind).
  - rewrite (find_app_none _ _ _ Hfind). simpl.
    destruct (String.eqb_spec token other) as [Heq|_]; [|reflexivity].
    now destruct Hne.
Qed.

Lemma verifySession_fst (now : Z) (token : string) (h : Sqlite.Handle) :
  fst (verifySession now token h)
  = Js.Return
      match Sqlite.select_valid_session (Sqlite.data h) now token with
      | Some (uid, _) => [("valid", Js.Bool true); ("userId", Js.Num uid)]
      | None => [("valid", Js.Bool false)]
      end.
Proof. now rewrite verifySession_unfold. Qed.

(** Logout revokes the token and nothing else: after [logoutUser token],
    [verifySession] rejects that token at every instant, answers for every
    other token what it answered before, and [getUserById] answers what it
    answered before. *)
Theorem logout_revokes_exactly_one_token (token : string) (h : Sqlite.Handle) :
  let after := snd (logoutUser token h) in
  (forall now,
     fst (verifySession now token after) = Js.Return [("valid", Js.Bool false)])
  /\ (forall now other,
        other <> token ->
        fst (verifySession now other after) = fst (verifySession now other h))
  /\ (forall n, fst (getUserById n after) = fst (getUserById n h)).
Proof.
  intros after. subst after. rewrite logoutUser_unfold. cbn [snd].
  split; [|split].
  - intros now. rewrite verifySession_fst. cbn [Sqlite.data].
    now rewrite select_valid_session_delete_same.
  - intros now other Hne. rewrite !verifySession_fst. cbn [Sqlite.data].
    now rewrite select_valid_session_delete_other.
  - intros n. reflexivity.
Qed.

Section Independence.

Context {password_api : BunPassword}.

(** Sessions are independent of each other: neither a registration nor a
    login, successful or not, changes what [verifySession] answers for a
    token other than the one the login draws.  So a second login of a user
    leaves the first session as it is. *)
Theorem other_sessions_survive_register_and_login
    (now : Z) (other : string) (h : Sqlite.Handle) :
  (forall env username email password,
     fst (verifySession now other
            (snd (registerUser env username email password h)))
     = fst (verifySession now other h))
  /\ (forall env email password,
        other <> generateSessionToken (login_uuid env) (login_now_token env) ->
        fst (verifySession now other
               (snd (authenticateUser env email password h)))
        = fst (verifySession now other h)).
Proof.
  split.
  - intros env username email password. rewrite !verifySession_fst.
    destruct (registerUser_data env username email password h)
      as [->|(hash & _ & Hins)]; [reflexivity|].
    unfold Sqlite.insert_user in Hins.
    destruct (existsb _ _); [discriminate|].
    destruct (existsb _ _); [discriminate|].
    injection Hins as Hdata. now rewrite <- Hdata.
  - intros env email password Hne. rewrite !verifySession_fst.
    rewrite authenticateUser_paths.
    destruct (Sqlite.select_user_auth_by_email _ _) as [[uid hash]|]; [|reflexivity].
    destruct (verifyPassword password hash); [|reflexivity].
    destruct (Time.toISOString _) as [expires|msg]; [|reflexivity].
    destruct (Sqlite.insert_session _ _ _ _ _) as [db'|msg] eqn:Hins; [|reflexivity].
    cbn [snd Sqlite.data].
    now rewrite (select_valid_session_insert_other _ _ _ _ _ _ _ _ Hins Hne).
Qed.

End Independence.

(** ** What every reachable store satisfies *)

Lemma of_Z_not_empty (z : Z) : Text.of_Z z <> "".
Proof.
  unfold Text.of_Z, NilZero.string_of_int.
  destruct (Z.to_int z) as [d|d]; [|discriminate].
  unfold NilZero.string_of_uint. destruct d; discriminate.
Qed.

Lemma generateSessionToken_not_empty (uuid : string) (now : Z) :
  generateSessionToken uuid now <> "".
Proof.
  assert (Hlen : (2 <= String.length (generateSessionToken uuid now))%nat).
  { unfold generateSessionToken.
    rewrite toString_hex_length, from_app, length_app.
    pose proof (from_length_ge (Text.of_Z now)) as Hge.
    pose proof (of_Z_not_empty now) as Hne.
    destruct (Text.of_Z now); [contradiction|].
    cbn [String.length] in Hge. lia. }
  intros Hempty. rewrite Hempty in Hlen. simpl in Hlen. lia.
Qed.

Section Reachable.

Context {password_api : BunPassword}.

(** The constraints of the schema hold in every store that the service
    builds from a new database: user ids are positive, at most the
    AUTOINCREMENT counter and pairwise distinct, and no two users share an
    email or a username, no two sessions a token. *)
Theorem reachable_store_keeps_constraints (h : Sqlite.Handle) :
  reachable h ->
  0 <= Sqlite.users_seq (Sqlite.data h)
  /\ List.Forall (fun u => 0 < Sqlite.id u <= Sqlite.users_seq (Sqlite.data h))
       (Sqlite.users (Sqlite.data h))
  /\ List.NoDup (map Sqlite.id (Sqlite.users (Sqlite.data h)))
  /\ List.NoDup (map Sqlite.email (Sqlite.users (Sqlite.data h)))
  /\ List.NoDup (map Sqlite.username (Sqlite.users (Sqlite.data h)))
  /\ List.NoDup (map Sqlite.session_token (Sqlite.sessions (Sqlite.data h))).
Proof.
  intros Hreach. destruct (reachable_consistent h Hreach). now repeat split.
Qed.

Lemma session_rows_invariant (h : Sqlite.Handle) :
  reachable h ->
  forall s, In s (Sqlite.sessions (Sqlite.data h)) ->
    (exists u, In u (Sqlite.users (Sqlite.data h))
               /\ Sqlite.id u = Sqlite.user_id s)
    /\ Sqlite.session_token s <> ""
    /\ Text.forallb is_lower_hex (Sqlite.session_token s) = true.
Proof.
  induction 1 as [|h env username email password _ IH|h env email password _ IH
                  |h now token _ IH|h n _ IH|h token _ IH].
  - intros s [].
  - destruct (registerUser_data env username email password h)
      as [->|(hash & _ & Hins)]; [exact IH|].
    unfold Sqlite.insert_user in Hins.
    destruct (existsb _ _); [discriminate|].
    destruct (existsb _ _); [discriminate|].
    injection Hins as Hdata. rewrite <- Hdata. simpl.
    intros s Hin. destruct (IH s Hin) as ((u & Hu & Hid) & Hrest).
    split; [|exact Hrest]. exists u. split; [|exact Hid].
    apply in_app_iff. now left.
  - rewrite authenticateUser_paths.
    destruct (Sqlite.select_user_auth_by_email _ _) as [[uid hash]|] eqn:Hsel;
      [|exact IH].
    destruct (verifyPassword password hash); [|exact IH].
    destruct (Time.toISOString _) as [expires|msg]; [|exact IH].
    destruct (Sqlite.insert_session _ _ _ _ _) as [db'|msg] eqn:Hins; [|exact IH].
    cbn [snd Sqlite.data].
    apply insert_session_return in Hins as (_ & Husers & _ & Hsessions).
    rewrite Husers, Hsessions. intros s Hin.
    apply in_app_iff in Hin as [Hin|[<-|[]]]; [now apply IH|]. simpl.
    apply select_user_auth_some in Hsel as (u & Hu & _ & Hid & _).
    split; [now exists u|].
    split; [apply generateSessionToken_not_empty|apply toString_hex_charset].
  - now rewrite verifySession_data.
  - exact IH.
  - rewrite logoutUser_unfold. simpl. intros s Hin.
    apply filter_In in Hin as [Hin _]. now apply IH.
Qed.

(** SQLite does not enforce the foreign key of [sessions], but the service
    does: in every reachable store each session belongs to a user of the
    users table, and its token is a non-empty string over [[0-9a-f]]. *)
Theorem reachable_sessions_have_owner_and_hex_token (h : Sqlite.Handle) :
  reachable h ->
  forall s, In s (Sqlite.sessions (Sqlite.data h)) ->
    (exists u, In u (Sqlite.users (Sqlite.data h))
               /\ Sqlite.id u = Sqlite.user_id s)
    /\ Sqlite.session_token s <> ""
    /\ Text.forallb is_lower_hex (Sqlite.session_token s) = true.
Proof. exact (session_rows_invariant h). Qed.

(** The user of an accepted session, in a reachable store: the id is
    positive and the lookup by id finds a user with it. *)
Lemma accepted_session_user (h : Sqlite.Handle) (now : Z) (token : string)
    (uid : Z) (e : string) :
  reachable h ->
  Sqlite.select_valid_session (Sqlite.data h) now token = Some (uid, e) ->
  0 < uid
  /\ exists u, In u (Sqlite.users (Sqlite.data h)) /\ Sqlite.id u = uid
               /\ Sqlite.select_user_info_by_id (Sqlite.data h) (Js.Integral uid)
                  = Some u.
Proof.
  intros Hreach Hsel.
  pose proof (session_rows_invariant h Hreach) as Hinv.
  pose proof (reachable_consistent h Hreach) as Hcons.
  unfold Sqlite.select_valid_session in Hsel.
  destruct (find _ _) as [s|] eqn:Hfind; [|discriminate].
  injection Hsel as <- <-. apply find_some_in in Hfind as [Hin _].
  destruct (Hinv s Hin) as ((u & Hu & Hid) & _).
  pose proof (user_ids_positive _ Hcons) as Hids.
  rewrite List.Forall_forall in Hids. specialize (Hids u Hu).
  split; [lia|]. unfold Sqlite.select_user_info_by_id.
  destruct (find (fun u0 => Sqlite.id u0 =? Sqlite.user_id s) _) as [u'|] eqn:Hfind'.
  - apply find_some_in in Hfind' as [Hu' Hid']. apply Z.eqb_eq in Hid'.
    now exists u'.
  - rewrite find_none_iff in Hfind'. specialize (Hfind' u Hu). simpl in Hfind'.
    rewrite Hid, Z.eqb_refl in Hfind'. discriminate.
Qed.

Lemma accepted_session_record (h : Sqlite.Handle) (now : Z) (token : string)
    (uid : Z) :
  reachable h ->
  fst (verifySession now token h)
  = Js.Return [("valid", Js.Bool true); ("userId", Js.Num uid)] ->
  0 < uid
  /\ exists o, fst (getUserById (Js.Integral uid) h) = Js.Return (Some o)
               /\ Js.get "id" o = Some (Js.Num uid).
Proof.
  intros Hreach Hvalid. rewrite verifySession_fst in Hvalid.
  destruct (Sqlite.select_valid_session (Sqlite.data h) now token)
    as [[uid' e]|] eqn:Hsel; [|discriminate].
  injection Hvalid as ->.
  destruct (accepted_session_user h now token uid e Hreach Hsel)
    as (Hpos & u & _ & Hid & Hinfo).
  split; [exact Hpos|]. rewrite getUserById_unfold, Hinfo.
  eexists. split; [reflexivity|]. simpl. now rewrite Hid.
Qed.

(** In every reachable store the empty token is rejected, and an accepted
    session carries a positive user id. *)
Theorem reachable_verifySession_user_id (h : Sqlite.Handle) (now : Z) :
  reachable h ->
  fst (verifySession now "" h) = Js.Return [("valid", Js.Bool false)]
  /\ forall token uid,
       fst (verifySession now token h)
       = Js.Return [("valid", Js.Bool true); ("userId", Js.Num uid)] ->
       0 < uid
       /\ exists o, fst (getUserById (Js.Integral uid) h) = Js.Return (Some o)
                    /\ Js.get "id" o = Some (Js.Num uid).
Proof.
  intros Hreach.
  pose proof (session_rows_invariant h Hreach) as Hinv.
  pose proof (reachable_consistent h Hreach) as Hcons.
  split.
  - apply verifySession_unknown_token. intros s Hin. now apply Hinv.
  - intros token uid Hvalid.
    apply (verifySession_valid_iff now token h uid Hcons) in Hvalid
      as (s & Hin & _ & <- & _).
    destruct (Hinv s Hin) as ((u & Hu & Hid) & _).
    pose proof (user_ids_positive _ Hcons) as Hids.
    rewrite List.Forall_forall in Hids. specialize (Hids u Hu).
    split; [lia|].
    rewrite getUserById_unfold. unfold Sqlite.select_user_info_by_id.
    destruct (find _ _) as [u'|] eqn:Hfind.
    + apply find_some_in in Hfind as [_ Hu']. apply Z.eqb_eq in Hu'.
      eexists. split; [reflexivity|]. simpl. now rewrite Hu'.
    + rewrite find_none_iff in Hfind. specialize (Hfind u Hu). simpl in Hfind.
      rewrite Hid, Z.eqb_refl in Hfind. discriminate.
Qed.

End Reachable.

(** ** The order of dates as texts *)

Lemma append_assoc (a b c : string) : (a ++ b) ++ c = a ++ (b ++ c).
Proof. induction a as [|x a IH]; simpl; [reflexivity|]. now rewrite IH. Qed.

Lemma ascii_compare_lt_trans (a b c : ascii) :
  Ascii.compare a b = Lt -> Ascii.compare b c = Lt -> Ascii.compare a c = Lt.
Proof.
  unfold Ascii.compare. rewrite !N.compare_lt_iff. apply N.lt_trans.
Qed.

Lemma ascii_compare_eq (a b : ascii) : Ascii.compare a b = Eq -> a = b.
Proof. apply Ascii.compare_eq_iff. Qed.

Lemma string_ltb_trans (a b c : string) :
  String.ltb a b = true -> String.ltb b c = true -> String.ltb a c = true.
Proof.
  unfold String.ltb. revert b c.
  induction a as [|x a IH]; intros [|y b] [|z c]; simpl; try discriminate;
    try reflexivity.
  destruct (Ascii.compare x y) eqn:Hxy; try discriminate;
    destruct (Ascii.compare y z) eqn:Hyz; try discriminate.
  - apply ascii_compare_eq in Hxy, Hyz. subst. rewrite ascii_compare_refl.
    apply IH.
  - apply ascii_compare_eq in Hxy. subst. now rewrite Hyz.
  - apply ascii_compare_eq in Hyz. subst. now rewrite Hxy.
  - now rewrite (ascii_compare_lt_trans _ _ _ Hxy Hyz).
Qed.

Lemma string_ltb_asym (a b : string) :
  String.ltb a b = true -> String.ltb b a = false.
Proof.
  unfold String.ltb. rewrite (String.compare_antisym a b).
  now destruct (String.compare b a).
Qed.

(** A smaller text of the same length stays smaller whatever follows. *)
Lemma string_ltb_app (a b x y : string) :
  String.length a = String.length b ->
  String.ltb a b = true ->
  String.ltb (a ++ x) (b ++ y) = true.
Proof.
  unfold String.ltb. revert b.
  induction a as [|c a IH]; intros [|d b]; simpl; try discriminate.
  intros [= Hlen]. destruct (Ascii.compare c d); try discriminate; [|reflexivity].
  now apply IH.
Qed.

Lemma dates_increase_sound (n : nat) (day : Z) :
  Calendar.dates_increase n day (Calendar.date_text day) = true ->
  forall i, 0 <= i < Z.of_nat n ->
    Calendar.four_digit_year (day + i) = true
    /\ String.length (Calendar.date_text (day + i)) = 10%nat
    /\ String.ltb (Calendar.date_text (day + i)) (Calendar.date_text (day + i + 1))
       = true.
Proof.
  revert day. induction n as [|n IH]; intros day Hcheck i Hi; [lia|].
  cbn [Calendar.dates_increase] in Hcheck.
  rewrite !andb_true_iff in Hcheck.
  destruct Hcheck as [[[Hyear Hlen] Hlt] Hrest].
  destruct (Z.eq_dec i 0) as [->|Hne].
  - rewrite Z.add_0_r. apply Nat.eqb_eq in Hlen. now repeat split.
  - specialize (IH (day + 1) Hrest (i - 1) ltac:(lia)).
    now replace (day + 1 + (i - 1)) with (day + i) in IH by lia.
Qed.

Lemma calendar_checked :
  Calendar.dates_increase (Z.to_nat Calendar.days) 0 (Calendar.date_text 0) = true.
Proof. vm_compute. reflexivity. Qed.

Lemma calendar_day_facts (day : Z) :
  0 <= day < Calendar.days ->
  Calendar.four_digit_year day = true
  /\ String.length (Calendar.date_text day) = 10%nat
  /\ String.ltb (Calendar.date_text day) (Calendar.date_text (day + 1)) = true.
Proof.
  intros Hday.
  apply (dates_increase_sound _ 0 calendar_checked day).
  unfold Calendar.days in *. lia.
Qed.

(** Between 1970 and 2100 an earlier day has a smaller date text. *)
Lemma date_text_increasing (a b : Z) :
  0 <= a -> a < b -> b < Calendar.days ->
  String.ltb (Calendar.date_text a) (Calendar.date_text b) = true.
Proof.
  intros Ha Hab Hb.
  assert (H : forall k : nat,
             a + 1 + Z.of_nat k < Calendar.days ->
             String.ltb (Calendar.date_text a)
               (Calendar.date_text (a + 1 + Z.of_nat k)) = true).
  { induction k as [|k IH]; intros Hk.
    - rewrite Z.add_0_r. apply calendar_day_facts. lia.
    - apply (string_ltb_trans _ (Calendar.date_text (a + 1 + Z.of_nat k))).
      + apply IH. lia.
      + replace (a + 1 + Z.of_nat (S k)) with (a + 1 + Z.of_nat k + 1) by lia.
        apply calendar_day_facts. lia. }
  specialize (H (Z.to_nat (b - a - 1))).
  replace (a + 1 + Z.of_nat (Z.to_nat (b - a - 1))) with b in H by lia.
  now apply H.
Qed.

Lemma in_range_day (t : Z) :
  Calendar.in_range t -> 0 <= t / Time.ms_per_day < Calendar.days.
Proof.
  unfold Calendar.in_range, Calendar.clock_end, Time.ms_per_day, Calendar.days.
  intros Ht. split; [apply Z.div_pos; lia|apply Z.div_lt_upper_bound; lia].
Qed.

Lemma toISOString_date_text (t : Z) :
  Calendar.in_range t ->
  exists rest,
    Time.toISOString t
    = Js.Return (Calendar.date_text (t / Time.ms_per_day) ++ String "T" rest).
Proof.
  intros Ht. pose proof (in_range_day t Ht) as Hday.
  destruct (calendar_day_facts _ Hday) as (Hyear & _ & _).
  unfold Time.toISOString.
  replace (Z.abs t >? Time.max_time) with false.
  2:{ symmetry. rewrite Z.gtb_ltb. apply Z.ltb_ge.
      unfold Calendar.in_range, Calendar.clock_end, Calendar.days,
        Time.ms_per_day, Time.max_time in *. lia. }
  unfold Time.fields, Calendar.date_text, Calendar.four_digit_year, Time.iso_year in *.
  destruct (Time.civil_from_days (t / Time.ms_per_day)) as [[y m] d].
  cbn [Time.year Time.month Time.day Time.hour Time.minute Time.second
       Time.millisecond].
  rewrite Hyear. eexists. rewrite !append_assoc. reflexivity.
Qed.

Lemma sqlite_datetime_date_text (t : Z) :
  exists rest,
    Time.sqlite_datetime t
    = Calendar.date_text (t / Time.ms_per_day) ++ String " " rest.
Proof.
  unfold Time.sqlite_datetime, Time.fields, Calendar.date_text.
  destruct (Time.civil_from_days (t / Time.ms_per_day)) as [[y m] d].
  cbn [Time.year Time.month Time.day Time.hour Time.minute Time.second].
  eexists. rewrite !append_assoc. reflexivity.
Qed.

(** What the comparison of the query decides, for clock readings of the
    years 1970 to 2099: the stored expiry is the greater text exactly when
    the day of [now] is not after the day of the expiry. *)
Lemma expiry_text_gt_iff (expiry now : Z) (iso : string) :
  Calendar.in_range expiry -> Calendar.in_range now ->
  Time.toISOString expiry = Js.Return iso ->
  Text.gt iso (Time.sqlite_datetime now) = true
  <-> now / Time.ms_per_day <= expiry / Time.ms_per_day.
Proof.
  intros He Hn Hiso.
  destruct (toISOString_date_text expiry He) as [rest_e Hiso'].
  rewrite Hiso in Hiso'. injection Hiso' as ->.
  destruct (sqlite_datetime_date_text now) as [rest_n ->].
  pose proof (in_range_day _ He) as Hde. pose proof (in_range_day _ Hn) as Hdn.
  unfold Text.gt.
  destruct (Z.lt_trichotomy (now / Time.ms_per_day) (expiry / Time.ms_per_day))
    as [Hlt|[Heq|Hgt]].
  - split; [lia|]. intros _. apply string_ltb_app.
    + destruct (calendar_day_facts _ Hde) as (_ & -> & _).
      now destruct (calendar_day_facts _ Hdn) as (_ & -> & _).
    + apply date_text_increasing; lia.
  - split; [lia|]. intros _. rewrite Heq, ltb_common_prefix. reflexivity.
  - split; [|lia]. intros Habs.
    assert (Hrev : String.ltb
                     (Calendar.date_text (expiry / Time.ms_per_day) ++ String "T" rest_e)
                     (Calendar.date_text (now / Time.ms_per_day) ++ String " " rest_n)
                   = true).
    { apply string_ltb_app.
      - destruct (calendar_day_facts _ Hde) as (_ & -> & _).
        now destruct (calendar_day_facts _ Hdn) as (_ & -> & _).
      - apply date_text_increasing; lia. }
    apply string_ltb_asym in Hrev. congruence.
Qed.

(** ** The life of a session *)

Section SessionLife.

Context {password_api : BunPassword}.

(** From login to expiry.  After a successful login, with clock readings of
    the years 1970 to 2099, [verifySession] accepts the returned token, with
    the [userId] of the login, at every instant whose UTC day is not after
    the UTC day of the expiry (seven days after the login), so in particular
    at every instant up to the expiry; and it rejects the token at every
    instant of a later day. *)
Theorem session_accepted_through_expiry_day
    (env : LoginEnv) (email password : string) (h h' : Sqlite.Handle)
    (o : Js.Object) (now : Z) :
  authenticateUser env email password h = (Js.Return o, h') ->
  Js.get "success" o = Some (Js.Bool true) ->
  Calendar.in_range (login_now_expiry env + 604800000) ->
  Calendar.in_range now ->
  let expiry := login_now_expiry env + 604800000 in
  exists (token : string) (uid : Z),
    Js.get "sessionToken" o = Some (Js.Str token)
    /\ Js.get "userId" o = Some (Js.Num uid)
    /\ (now / Time.ms_per_day <= expiry / Time.ms_per_day ->
        fst (verifySession now token h')
        = Js.Return [("valid", Js.Bool true); ("userId", Js.Num uid)])
    /\ (now <= expiry ->
        fst (verifySession now token h')
        = Js.Return [("valid", Js.Bool true); ("userId", Js.Num uid)])
    /\ (expiry / Time.ms_per_day < now / Time.ms_per_day ->
        fst (verifySession now token h') = Js.Return [("valid", Js.Bool false)]).
Proof.
  intros Hcall Hsuccess Hexpiry Hnow expiry. subst expiry.
  rewrite authenticateUser_paths in Hcall.
  destruct (Sqlite.select_user_auth_by_email (Sqlite.data h) email)
    as [[uid hash]|].
  2:{ injection Hcall as <- <-. discriminate. }
  destruct (verifyPassword password hash).
  2:{ injection Hcall as <- <-. discriminate. }
  destruct (Time.toISOString _) as [expires|msg] eqn:Hiso.
  2:{ injection Hcall as <- <-. discriminate. }
  destruct (Sqlite.insert_session _ _ _ _ _) as [db'|msg] eqn:Hins.
  2:{ injection Hcall as <- <-. discriminate. }
  injection Hcall as <- <-.
  exists (generateSessionToken (login_uuid env) (login_now_token env)), uid.
  split; [reflexivity|]. split; [reflexivity|].
  apply insert_session_return in Hins as (Hfresh & _ & _ & Hsessions).
  pose proof (expiry_text_gt_iff _ now expires Hexpiry Hnow Hiso) as Hgt.
  assert (Hfind : Sqlite.select_valid_session db' now
                    (generateSessionToken (login_uuid env) (login_now_token env))
                  = if Text.gt expires (Time.sqlite_datetime now)
                    then Some (uid, expires) else None).
  { unfold Sqlite.select_valid_session. rewrite Hsessions.
    rewrite find_app_none.
    - simpl. rewrite String.eqb_refl. simpl.
      now destruct (Text.gt expires (Time.sqlite_datetime now)).
    - apply find_none_iff. intros s Hin. apply andb_false_iff. left.
      apply String.eqb_neq. now apply Hfresh. }
  rewrite verifySession_fst. cbn [Sqlite.data]. rewrite Hfind.
  assert (Haccept : now / Time.ms_per_day
                    <= (login_now_expiry env + 604800000) / Time.ms_per_day ->
                    Js.Return (A := Js.Object)
                      (if Text.gt expires (Time.sqlite_datetime now)
                       then [("valid", Js.Bool true); ("userId", Js.Num uid)]
                       else [("valid", Js.Bool false)])
                    = Js.Return [("valid", Js.Bool true); ("userId", Js.Num uid)]).
  { intros Hday. apply Hgt in Hday. now rewrite Hday. }
  destruct (Text.gt expires (Time.sqlite_datetime now)) eqn:E.
  - split; [reflexivity|]. split; [reflexivity|].
    intros Hlater. apply proj1 in Hgt. specialize (Hgt eq_refl). lia.
  - split; [exact Haccept|]. split; [|reflexivity].
    intros Hle. apply Haccept. apply Z.div_le_mono; [reflexivity|exact Hle].
Qed.

End SessionLife.

Lemma session_accepted_through_expiry_day_witness :
  (exists token uid,
     fst (verifySession 1762041602000 token Scenario.logged_in)
     = Js.Return [("valid", Js.Bool true); ("userId", Js.Num uid)])
  /\ (exists token,
        fst (verifySession 1762732800000 token Scenario.logged_in)
        = Js.Return [("valid", Js.Bool false)]).
Proof.
  split.
  - destruct (session_accepted_through_expiry_day (password_api := Standin.envelope)
                Scenario.login_env "alice@example.com" "secret1"
                Scenario.registered Scenario.logged_in
                [("success", Js.Bool true);
                 ("message", Js.Str "Authentication successful");
                 ("sessionToken", Js.Str Scenario.token);
                 ("userId", Js.Num 1)]
                1762041602000
                ltac:(vm_compute; reflexivity) ltac:(reflexivity)
                ltac:(vm_compute; split; [discriminate|reflexivity])
                ltac:(vm_compute; split; [discriminate|reflexivity]))
      as (token & uid & _ & _ & _ & Hwindow & _).
    exists token, uid. apply Hwindow. vm_compute. discriminate.
  - destruct (session_accepted_through_expiry_day (password_api := Standin.envelope)
                Scenario.login_env "alice@example.com" "secret1"
                Scenario.registered Scenario.logged_in
                [("success", Js.Bool true);
                 ("message", Js.Str "Authentication successful");
                 ("sessionToken", Js.Str Scenario.token);
                 ("userId", Js.Num 1)]
                1762732800000
                ltac:(vm_compute; reflexivity) ltac:(reflexivity)
                ltac:(vm_compute; split; [discriminate|reflexivity])
                ltac:(vm_compute; split; [discriminate|reflexivity]))
      as (token & uid & _ & _ & _ & _ & Hlater).
    exists token. apply Hlater. vm_compute. reflexivity.
Defined.

Lemma reachable_store_keeps_constraints_witness :
  List.NoDup (map Sqlite.session_token (Sqlite.sessions (Sqlite.data Scenario.logged_in)))
  /\ List.NoDup (map Sqlite.email (Sqlite.users (Sqlite.data Scenario.logged_in))).
Proof.
  destruct (reachable_store_keeps_constraints (password_api := Standin.envelope)
              Scenario.logged_in scenario_reachable)
    as (_ & _ & _ & Hemails & _ & Htokens).
  split; assumption.
Defined.

Lemma reachable_sessions_have_owner_and_hex_token_witness :
  List.Forall
    (fun s => exists u, In u (Sqlite.users (Sqlite.data Scenario.logged_in))
                        /\ Sqlite.id u = Sqlite.user_id s)
    (Sqlite.sessions (Sqlite.data Scenario.logged_in)).
Proof.
  apply List.Forall_forall. intros s Hin.
  exact (proj1 (reachable_sessions_have_owner_and_hex_token
                  (password_api := Standin.envelope)
                  Scenario.logged_in scenario_reachable s Hin)).
Defined.

Lemma reachable_verifySession_user_id_witness :
  fst (verifySession 1762041602000 "" Scenario.logged_in)
  = Js.Return [("valid", Js.Bool false)].
Proof.
  exact (proj1 (reachable_verifySession_user_id (password_api := Standin.envelope)
                  Scenario.logged_in 1762041602000 scenario_reachable)).
Defined.

(** ** The middleware on a reachable store *)

Section ResolveCaller.

Context {password_api : BunPassword} {cookie_map : BunCookieMap}.

(** The three ways through the middleware for a request with a token. *)
Lemma withOptionalAuthentication_with_token {R : Type}
    (handler : Request -> Js.Value -> option (option Js.Object) -> R)
    (now : Z) (req : Request) (h : Sqlite.Handle) (token : string) :
  getSessionFromCookies req = Some token ->
  let verified :=
    {| Sqlite.data := Sqlite.data h;
       Sqlite.executed :=
         (Sqlite.executed h ++ [Sqlite.SelectValidSession token])%list |} in
  withOptionalAuthentication handler now req h =
  match Sqlite.select_valid_session (Sqlite.data h) now token with
  | Some (uid, _) =>
      if uid =? 0 then (Js.Return (handler req Js.Undefined None), verified)
      else
        (Js.Return
           (handler req (Js.Num uid)
              (Some (user_info_row <$>
                       Sqlite.select_user_info_by_id (Sqlite.data h)
                         (Js.Integral uid)))),
         {| Sqlite.data := Sqlite.data h;
            Sqlite.executed :=
              (Sqlite.executed verified
                 ++ [Sqlite.SelectUserInfoById (Js.Integral uid)])%list |})
  | None => (Js.Return (handler req Js.Undefined None), verified)
  end.
Proof.
  intros Htoken verified. subst verified. unfold withOptionalAuthentication.
  rewrite Htoken.
  destruct (Js.truthy_string token) eqn:Htruthy; cbn [negb].
  2:{ destruct (getSessionFromCookies_never_empty req).
      rewrite Htoken. f_equal. unfold Js.truthy_string in Htruthy.
      apply negb_false_iff, String.eqb_eq in Htruthy. exact Htruthy. }
  unfold bind. rewrite verifySession_unfold.
  destruct (Sqlite.select_valid_session (Sqlite.data h) now token)
    as [[uid expires]|]; [|reflexivity].
  simpl. now destruct (uid =? 0).
Qed.

(** On a reachable store [withOptionalAuthentication] resolves the caller
    from the cookie alone: when the request carries a token that
    [verifySession] accepts with user [uid], the handler receives [uid] and
    the record of that user (never [null]); in every other case it receives
    [undefined] twice.  The data of the store is never changed. *)
Theorem middleware_resolves_caller {R : Type}
    (handler : Request -> Js.Value -> option (option Js.Object) -> R)
    (now : Z) (req : Request) (h : Sqlite.Handle) :
  reachable h ->
  Sqlite.data (snd (withOptionalAuthentication handler now req h)) = Sqlite.data h
  /\ (forall token uid,
        getSessionFromCookies req = Some token ->
        fst (verifySession now token h)
        = Js.Return [("valid", Js.Bool true); ("userId", Js.Num uid)] ->
        exists info,
          fst (getUserById (Js.Integral uid) h) = Js.Return (Some info)
          /\ Js.get "id" info = Some (Js.Num uid)
          /\ fst (withOptionalAuthentication handler now req h)
             = Js.Return (handler req (Js.Num uid) (Some (Some info))))
  /\ ((forall token,
         getSessionFromCookies req = Some token ->
         fst (verifySession now token h) = Js.Return [("valid", Js.Bool false)]) ->
      fst (withOptionalAuthentication handler now req h)
      = Js.Return (handler req Js.Undefined None)).
Proof.
  intros Hreach.
  pose proof (fun token uid => accepted_session_record h now token uid Hreach)
    as Hpositive.
  destruct (getSessionFromCookies req) as [token|] eqn:Htoken.
  2:{ rewrite (withOptionalAuthentication_anonymous handler now req h Htoken).
      split; [reflexivity|]. split; [discriminate|reflexivity]. }
  rewrite (withOptionalAuthentication_with_token handler now req h token Htoken).
  specialize (Hpositive token). rewrite verifySession_fst in Hpositive.
  destruct (Sqlite.select_valid_session (Sqlite.data h) now token)
    as [[uid expires]|] eqn:Hsel.
  - destruct (Hpositive uid eq_refl) as (Hpos & info & Hinfo & Hid).
    replace (uid =? 0) with false by (symmetry; apply Z.eqb_neq; lia).
    rewrite getUserById_unfold in Hinfo.
    set (found := user_info_row <$>
                    Sqlite.select_user_info_by_id (Sqlite.data h) (Js.Integral uid))
      in *.
    assert (Hfound : found = Some info) by congruence.
    rewrite Hfound. split; [reflexivity|]. split.
    + intros token' uid' [= <-]. rewrite verifySession_fst, Hsel.
      intros [= <-]. exists info. split; [|split]; try reflexivity.
      * rewrite getUserById_unfold. fold found. now rewrite Hfound.
      * exact Hid.
    + intros Hrejected. specialize (Hrejected token eq_refl).
      rewrite verifySession_fst, Hsel in Hrejected. discriminate.
  - split; [reflexivity|]. split; [|reflexivity].
    intros token' uid' [= <-]. rewrite verifySession_fst, Hsel. discriminate.
Qed.

End ResolveCaller.

Lemma middleware_resolves_caller_witness :
  fst (withOptionalAuthentication (cookie_map := Standin.parser)
         (fun _ userId _ => userId) 1762041602000
         {| request_headers :=
              [("cookie", "theme=dark; sessionToken=" ++ Scenario.token)] |}
         Scenario.logged_in)
  = Js.Return (Js.Num 1).
Proof.
  destruct (middleware_resolves_caller (password_api := Standin.envelope)
              (cookie_map := Standin.parser)
              (fun _ userId _ => userId) 1762041602000
              {| request_headers :=
                   [("cookie", "theme=dark; sessionToken=" ++ Scenario.token)] |}
              Scenario.logged_in scenario_reachable)
    as (_ & Hvalid & _).
  destruct (Hvalid Scenario.token 1
              ltac:(vm_compute; reflexivity) ltac:(vm_compute; reflexivity))
    as (info & _ & _ & Hcall).
  exact Hcall.
Defined.

(** ** Cookies on a response: replacement and composition *)

Lemma set_leaves_one (name value : string) (hs : Headers.t) :
  exists n,
    Headers.same_name n name = true
    /\ List.filter (fun h => Headers.same_name (fst h) name)
         (Headers.set name value hs)
       = [(n, value)].
Proof.
  induction hs as [|[n v] hs IH]; simpl.
  - exists name. rewrite same_name_refl. now split.
  - destruct (Headers.same_name n name) eqn:E; simpl; rewrite E.
    + exists n. rewrite filter_remove_same. now split.
    + exact IH.
Qed.

Section CookieComposition.

Context {cookie_api : BunCookie}.

(** The session cookie replaces whatever [Set-Cookie] headers the response
    carried: after [setSessionCookie], and after [clearSessionCookie], the
    new response has exactly one header of that name, however many the
    original had, and it is the cookie of the call.  A cookie that another
    part of the application had set on the response is not passed on. *)
Theorem session_cookie_is_the_only_set_cookie
    (heap : Heap) (response : nat) (r : Response)
    (token : string) (expiryDays : option Z) :
  heap !! response = Some r ->
  (exists newResponse heap' r' name,
     setSessionCookie response token expiryDays heap = Some (newResponse, heap')
     /\ heap' !! newResponse = Some r'
     /\ List.filter (fun h => Headers.same_name (fst h) "Set-Cookie") (headers r')
        = [(name, Cookie_toString (session_cookie token (default 7 expiryDays)))])
  /\ (exists newResponse heap' r' name,
        clearSessionCookie response heap = Some (newResponse, heap')
        /\ heap' !! newResponse = Some r'
        /\ List.filter (fun h => Headers.same_name (fst h) "Set-Cookie") (headers r')
           = [(name, Cookie_toString expired_cookie)]).
Proof.
  intros Hr. split.
  - rewrite (setSessionCookie_unfold _ _ _ _ _ Hr).
    destruct (set_leaves_one "Set-Cookie"
                (Cookie_toString (session_cookie token (default 7 expiryDays)))
                (headers r)) as (name & _ & Hone).
    eexists _, _, _, name. split; [reflexivity|].
    split; [now apply list_lookup_middle|exact Hone].
  - rewrite (clearSessionCookie_unfold _ _ _ Hr).
    destruct (set_leaves_one "Set-Cookie" (Cookie_toString expired_cookie)
                (headers r)) as (name & _ & Hone).
    eexists _, _, _, name. split; [reflexivity|].
    split; [now apply list_lookup_middle|exact Hone].
Qed.

(** Clearing after attaching: [clearSessionCookie] applied to the result of
    [setSessionCookie] gives a third response whose only [Set-Cookie] header
    is the expired cookie, so the token is no longer sent to the client by
    that response; the response with the session cookie and the original
    response are still in the heap as they were, and the status, the body
    and the other headers of the original are carried through both steps. *)
Theorem clear_after_set_session_cookie
    (heap : Heap) (response : nat) (r : Response)
    (token : string) (expiryDays : option Z) :
  heap !! response = Some r ->
  exists attached heap1 cleared heap2 r1 r2,
    setSessionCookie response token expiryDays heap = Some (attached, heap1)
    /\ clearSessionCookie attached heap1 = Some (cleared, heap2)
    /\ response <> attached /\ attached <> cleared /\ response <> cleared
    /\ heap2 !! response = Some r
    /\ heap2 !! attached = Some r1
    /\ heap1 !! attached = Some r1
    /\ Headers.get "Set-Cookie" (headers r1)
       = Some (Cookie_toString (session_cookie token (default 7 expiryDays)))
    /\ heap2 !! cleared = Some r2
    /\ Headers.get "Set-Cookie" (headers r2) = Some (Cookie_toString expired_cookie)
    /\ Headers.remove "Set-Cookie" (headers r2) = Headers.remove "Set-Cookie" (headers r)
    /\ status r2 = status r
    /\ body r2 = body r.
Proof.
  intros Hr. pose proof (lookup_lt_Some _ _ _ Hr) as Hlt.
  rewrite (setSessionCookie_unfold _ _ _ _ _ Hr).
  set (r1 := {| status := status r; statusText := statusText r;
                headers := Headers.set "Set-Cookie"
                             (Cookie_toString
                                (session_cookie token (default 7 expiryDays)))
                             (headers r);
                body := body r |}).
  assert (Hr1 : ((heap ++ [r1])%list : Heap) !! List.length heap = Some r1)
    by now apply list_lookup_middle.
  eexists (List.length heap), (heap ++ [r1])%list, _, _, r1, _.
  split; [reflexivity|].
  rewrite (clearSessionCookie_unfold _ _ _ Hr1). split; [reflexivity|].
  rewrite length_app. simpl.
  split; [lia|]. split; [lia|]. split; [lia|].
  split; [now apply lookup_app_l_Some, lookup_app_l_Some|].
  split; [now apply lookup_app_l_Some|]. split; [exact Hr1|].
  split; [apply get_set|].
  split.
  { apply list_lookup_middle. rewrite length_app. simpl. lia. }
  simpl. split; [apply get_set|].
  split; [now rewrite !remove_set|]. now split.
Qed.

End CookieComposition.

Lemma session_cookie_is_the_only_set_cookie_witness :
  let r := {| status := 200; statusText := "OK";
              headers := [("set-cookie", "csrf=abc"); ("x-custom", "1");
                          ("Set-Cookie", "theme=dark")];
              body := None |} in
  exists newResponse heap' r',
    setSessionCookie (cookie_api := Standin.serializer) 0%nat "tok123" (Some 7) [r]
      = Some (newResponse, heap')
    /\ heap' !! newResponse = Some r'
    /\ List.length
         (List.filter (fun h => Headers.same_name (fst h) "Set-Cookie") (headers r'))
       = 1%nat.
Proof.
  intros r.
  destruct (session_cookie_is_the_only_set_cookie (cookie_api := Standin.serializer)
              [r] 0%nat r "tok123" (Some 7) eq_refl)
    as [(n & heap' & r' & name & E & Hnew & Hone) _].
  exists n, heap', r'. split; [exact E|]. split; [exact Hnew|].
  now rewrite Hone.
Defined.

Lemma clear_after_set_session_cookie_witness :
  let r := {| status := 200; statusText := "OK"; headers := []; body := Some "OK" |} in
  exists attached heap1 cleared heap2 r2,
    setSessionCookie (cookie_api := Standin.serializer) 0%nat "tok123" None [r]
      = Some (attached, heap1)
    /\ clearSessionCookie (cookie_api := Standin.serializer) attached heap1
       = Some (cleared, heap2)
    /\ heap2 !! cleared = Some r2
    /\ Headers.get "Set-Cookie" (headers r2)
       = Some "sessionToken=; Path=/; Max-Age=0; Secure; HttpOnly; SameSite=Strict".
Proof.
  intros r.
  destruct (clear_after_set_session_cookie (cookie_api := Standin.serializer)
              [r] 0%nat r "tok123" None eq_refl)
    as (attached & heap1 & cleared & heap2 & r1 & r2 & Eset & Eclear & _ & _ & _
        & _ & _ & _ & _ & Hcleared & Hcookie & _).
  exists attached, heap1, cleared, heap2, r2.
  split; [exact Eset|]. split; [exact Eclear|]. split; [exact Hcleared|exact Hcookie].
Defined.

(** ** The routes *)

Section RouteProperties.

Context {password_api : BunPassword} {cookie_api : BunCookie}
        {cookie_map : BunCookieMap} {json_api : BunJson}.

Lemma token_is_truthy (req : Request) (token : string) :
  getSessionFromCookies req = Some token -> Js.truthy_string token = true.
Proof.
  intros Htoken. destruct (Js.truthy_string token) eqn:E; [reflexivity|].
  destruct (getSessionFromCookies_never_empty req). rewrite Htoken. f_equal.
  unfold Js.truthy_string in E. now apply negb_false_iff, String.eqb_eq in E.
Qed.

Lemma unauthorized_with_token (now : Z) (req : Request) (h : Sqlite.Handle)
    (token : string) :
  getSessionFromCookies req = Some token ->
  unauthorized now req h =
  (Js.Return match Sqlite.select_valid_session (Sqlite.data h) now token with
             | Some _ => false
             | None => true
             end,
   {| Sqlite.data := Sqlite.data h;
      Sqlite.executed :=
        (Sqlite.executed h ++ [Sqlite.SelectValidSession token])%list |}).
Proof.
  intros Htoken. unfold unauthorized. rewrite Htoken, (token_is_truthy _ _ Htoken).
  cbn [negb]. unfold bind. rewrite verifySession_unfold.
  now destruct (Sqlite.select_valid_session _ _ _) as [[uid e]|].
Qed.

(** The check of the protected routes lets a request through exactly when
    its cookie carries a token that [verifySession] accepts.  A request
    without a token is turned away without any statement being run, and the
    check never changes the data. *)
Theorem protected_routes_need_accepted_session
    (now : Z) (req : Request) (h : Sqlite.Handle) :
  Sqlite.data (snd (unauthorized now req h)) = Sqlite.data h
  /\ (getSessionFromCookies req = None ->
      unauthorized now req h = (Js.Return true, h))
  /\ (fst (unauthorized now req h) = Js.Return false
      <-> exists token uid,
            getSessionFromCookies req = Some token
            /\ fst (verifySession now token h)
               = Js.Return [("valid", Js.Bool true); ("userId", Js.Num uid)]).
Proof.
  destruct (getSessionFromCookies req) as [token|] eqn:Htoken.
  - rewrite (unauthorized_with_token now req h token Htoken).
    split; [reflexivity|]. split; [discriminate|]. cbn [fst].
    destruct (Sqlite.select_valid_session (Sqlite.data h) now token)
      as [[uid e]|] eqn:Hsel.
    + split; [|reflexivity]. intros _. exists token, uid.
      split; [reflexivity|]. now rewrite verifySession_fst, Hsel.
    + split; [discriminate|]. intros (token' & uid & [= <-] & Hvalid).
      rewrite verifySession_fst, Hsel in Hvalid. discriminate.
  - unfold unauthorized. rewrite Htoken.
    split; [reflexivity|]. split; [reflexivity|].
    split; [discriminate|]. now intros (token & uid & Habs & _).
Qed.

Lemma Response_json_lookup (payload : Json) (code : Z) (heap : Heap) :
  snd (Response_json payload code heap) !! fst (Response_json payload code heap)
  = Some {| status := code; statusText := "";
            headers := [("content-type", json_content_type)];
            body := Some (JSON_stringify payload) |}.
Proof. unfold Response_json. simpl. now apply list_lookup_middle. Qed.

(** [POST /api/auth/logout] always answers 200 with the expired session
    cookie and the payload [{success: true, message: "Logged out
    successfully"}]; the responses already in the heap are untouched.  When
    the request carries a token, the sessions with that token are deleted and
    nothing else; when it carries none, no statement is run.  Afterwards the
    same request is turned away by the protected routes at every instant. *)
Theorem logout_route_clears_cookie_and_revokes
    (req : Request) (heap : Heap) (h : Sqlite.Handle) :
  exists (ref : nat) (heap' : Heap) (r' : Response) (h' : Sqlite.Handle),
    logout_route req heap h = (Js.Return (Some (ref, heap')), h')
    /\ heap' !! ref = Some r'
    /\ heap !! ref = None
    /\ (forall i x, heap !! i = Some x -> heap' !! i = Some x)
    /\ status r' = 200
    /\ Headers.get "Set-Cookie" (headers r') = Some (Cookie_toString expired_cookie)
    /\ body r'
       = Some (JSON_stringify
                 (JsonObj [("success", JsonBool true);
                           ("message", JsonStr "Logged out successfully")]))
    /\ (getSessionFromCookies req = None -> h' = h)
    /\ (forall token,
          getSessionFromCookies req = Some token ->
          Sqlite.data h' = Sqlite.delete_session (Sqlite.data h) token)
    /\ (forall now, fst (unauthorized now req h') = Js.Return true).
Proof.
  set (payload := json_object [("success", Some (JsonBool true));
                               ("message", Some (JsonStr "Logged out successfully"))]).
  pose proof (Response_json_lookup payload 200 heap) as Hjson.
  pose proof (clearSessionCookie_unfold _ _ _ Hjson) as Hclear.
  unfold Response_json in Hjson, Hclear. cbn [fst snd] in Hjson, Hclear.
  assert (Hshape :
    exists ref heap' r',
      clearSessionCookie (List.length heap)
        (heap ++ [{| status := 200; statusText := "";
                     headers := [("content-type", json_content_type)];
                     body := Some (JSON_stringify payload) |}])%list
      = Some (ref, heap')
      /\ heap' !! ref = Some r'
      /\ heap !! ref = None
      /\ (forall i x, heap !! i = Some x -> heap' !! i = Some x)
      /\ status r' = 200
      /\ Headers.get "Set-Cookie" (headers r') = Some (Cookie_toString expired_cookie)
      /\ body r'
         = Some (JSON_stringify
                   (JsonObj [("success", JsonBool true);
                             ("message", JsonStr "Logged out successfully")]))).
  { rewrite Hclear.
    eexists _, _, _. split; [reflexivity|].
    split; [now apply list_lookup_middle|].
    split; [apply lookup_ge_None_2; rewrite length_app; simpl; lia|].
    split; [intros i x Hx; now apply lookup_app_l_Some, lookup_app_l_Some|].
    cbn [status headers body]. split; [reflexivity|].
    split; [apply get_set|reflexivity]. }
  destruct Hshape as (ref & heap' & r' & Hcleared & H1 & H2 & H3 & H4 & H5 & H6).
  unfold logout_route, try_catch, bind, Response_json. fold payload.
  destruct (getSessionFromCookies req) as [token|] eqn:Htoken.
  - rewrite (token_is_truthy _ _ Htoken). rewrite logoutUser_unfold.
    unfold ret. rewrite Hcleared.
    exists ref, heap', r'. eexists. split; [reflexivity|].
    do 6 (split; [assumption|]).
    split; [discriminate|]. split; [now intros token' [= <-]|].
    intros now. rewrite (unauthorized_with_token now req _ token Htoken).
    cbn [fst Sqlite.data]. now rewrite select_valid_session_delete_same.
  - unfold ret. rewrite Hcleared.
    exists ref, heap', r', h. split; [reflexivity|].
    do 6 (split; [assumption|]).
    split; [reflexivity|]. split; [discriminate|].
    intros now. unfold unauthorized. now rewrite Htoken.
Qed.

End RouteProperties.

Lemma getUserById_run (n : Js.Number) (h : Sqlite.Handle) :
  getUserById n h =
  (Js.Return (user_info_row <$> Sqlite.select_user_info_by_id (Sqlite.data h) n),
   {| Sqlite.data := Sqlite.data h;
      Sqlite.executed := (Sqlite.executed h ++ [Sqlite.SelectUserInfoById n])%list |}).
Proof. reflexivity. Qed.

Lemma prop_first (key : string) (v : Js.Value) (rest : Js.Object) :
  prop key ((key, v) :: rest) = v.
Proof. unfold prop. simpl. now rewrite String.eqb_refl. Qed.

Lemma prop_message (a m : Js.Value) (rest : Js.Object) :
  prop "message" (("success", a) :: ("message", m) :: rest) = m.
Proof. reflexivity. Qed.

Lemma json_response_has_no_cookie `{BunJson} :
  Headers.get "Set-Cookie" [("content-type", json_content_type)] = None.
Proof. reflexivity. Qed.

(** A path of the login route on which the service reports a failure. *)
Ltac login_failure Hpaths :=
  rewrite Hpaths; cbv beta iota;
  rewrite prop_first, prop_message; cbn [negb Js.truthy json_of_value];
  unfold Response_json, ret;
  eexists _, _, _, _; split; [reflexivity|];
  split; [now apply list_lookup_middle|];
  split; [now apply lookup_ge_None_2|];
  split; [intros ? ? ?; now apply lookup_app_l_Some|];
  split; [discriminate|];
  intros ? [= <-]; rewrite Hpaths; cbn [fst snd Sqlite.data];
  split; [reflexivity|];
  eexists; split; [reflexivity|];
  split; [|discriminate];
  intros _; cbn [status headers body];
  split; [reflexivity|]; split; [reflexivity|]; split; [reflexivity|];
  eexists; split; reflexivity.

Section LoginRoute.

Context {password_api : BunPassword} {cookie_api : BunCookie}
        {cookie_map : BunCookieMap} {json_api : BunJson}.

(** [POST /api/auth/login] always answers, with a new response that leaves
    those of the heap untouched.  A body that cannot be parsed gives 500 and
    no statement is run.  Otherwise the route does to the store what
    [authenticateUser] does with the email and the password of the body
    (the empty string for a key that is absent).  When the service reports a
    failure the answer is 401 with the service's message under [error] and no
    [Set-Cookie] header, and the data are as before.  When it reports success
    the answer is 200, its [Set-Cookie] header is the session cookie for the
    token of the session row that was just written, the payload carries that
    token and the user's id, username, email and creation date, and the user
    is one of the table with the [userId] of the result. *)
Theorem login_route_outcomes
    (env : LoginEnv) (parsed : Js.Completion LoginBody) (heap : Heap)
    (h : Sqlite.Handle) :
  let token := generateSessionToken (login_uuid env) (login_now_token env) in
  exists (ref : nat) (heap' : Heap) (r' : Response) (h' : Sqlite.Handle),
    login_route env parsed heap h = (Js.Return (Some (ref, heap')), h')
    /\ heap' !! ref = Some r'
    /\ heap !! ref = None
    /\ (forall i x, heap !! i = Some x -> heap' !! i = Some x)
    /\ (forall msg,
          parsed = Js.Throw msg ->
          h' = h /\ status r' = 500
          /\ Headers.get "Set-Cookie" (headers r') = None
          /\ body r' = Some (JSON_stringify (JsonObj [("error", JsonStr "Login failed")])))
    /\ (forall requestBody,
          parsed = Js.Return requestBody ->
          let result :=
            authenticateUser env (default "" (body_email requestBody))
              (default "" (body_password requestBody)) h in
          Sqlite.data h' = Sqlite.data (snd result)
          /\ exists o,
               fst result = Js.Return o
               /\ (Js.get "success" o <> Some (Js.Bool true) ->
                   status r' = 401
                   /\ Headers.get "Set-Cookie" (headers r') = None
                   /\ Sqlite.data h' = Sqlite.data h
                   /\ exists message,
                        Js.get "message" o = Some (Js.Str message)
                        /\ body r'
                           = Some (JSON_stringify (JsonObj [("error", JsonStr message)])))
               /\ (Js.get "success" o = Some (Js.Bool true) ->
                   status r' = 200
                   /\ Headers.get "Set-Cookie" (headers r')
                      = Some (Cookie_toString (session_cookie token 7))
                   /\ (exists s, In s (Sqlite.sessions (Sqlite.data h'))
                                 /\ Sqlite.session_token s = token
                                 /\ Js.get "userId" o = Some (Js.Num (Sqlite.user_id s)))
                   /\ exists u,
                        In u (Sqlite.users (Sqlite.data h))
                        /\ Js.get "userId" o = Some (Js.Num (Sqlite.id u))
                        /\ body r'
                           = Some (JSON_stringify
                                     (JsonObj
                                        [("success", JsonBool true);
                                         ("message", JsonStr "Authentication successful");
                                         ("user",
                                          JsonObj
                                            [("id", JsonNum (Sqlite.id u));
                                             ("username", JsonStr (Sqlite.username u));
                                             ("email", JsonStr (Sqlite.email u));
                                             ("created_at", JsonStr (Sqlite.created_at u))]);
                                         ("sessionToken", JsonStr token)])))).
Proof.
  intros token.
  assert (Hnew : forall r : Response,
            (heap ++ [r])%list !! List.length heap = Some r
            /\ heap !! List.length heap = None
            /\ (forall i x, heap !! i = Some x -> (heap ++ [r])%list !! i = Some x)).
  { intros r. split; [now apply list_lookup_middle|].
    split; [now apply lookup_ge_None_2|].
    intros i x Hx. now apply lookup_app_l_Some. }
  destruct parsed as [requestBody|msg].
  2:{ eexists _, _, _, h. split; [reflexivity|].
      destruct (Hnew {| status := 500; statusText := "";
                        headers := [("content-type", json_content_type)];
                        body := Some (JSON_stringify
                                        (JsonObj [("error", JsonStr "Login failed")])) |})
        as (H1 & H2 & H3).
      split; [exact H1|]. split; [exact H2|]. split; [exact H3|].
      split; [|discriminate]. intros _ _. now repeat split. }
  pose proof (authenticateUser_paths env (default "" (body_email requestBody))
                (default "" (body_password requestBody)) h) as Hpaths.
  cbv zeta in Hpaths. fold token in Hpaths.
  unfold login_route, try_catch, bind, eval. cbv beta iota zeta.
  destruct (Sqlite.select_user_auth_by_email (Sqlite.data h) _)
    as [[uid hash]|] eqn:Hsel; [|login_failure Hpaths].
  destruct (verifyPassword _ hash) eqn:Hverify; [|login_failure Hpaths].
  destruct (Time.toISOString (login_now_expiry env + 604800000))
    as [expires|msg] eqn:Hiso; [|login_failure Hpaths].
  destruct (Sqlite.insert_session (Sqlite.data h) (login_now_insert env) uid token
              expires) as [db'|msg] eqn:Hins; [|login_failure Hpaths].
  rewrite Hpaths. cbv beta iota.
  rewrite prop_first, prop_message. cbn [negb Js.truthy].
  change (prop "userId" _) with (Js.Num uid).
  change (prop "sessionToken" _) with (Js.Str token).
  cbn [as_number to_string json_of_value]. rewrite getUserById_run.
  cbn [Sqlite.data].
  apply insert_session_return in Hins as (_ & Husers & _ & Hsessions).
  apply select_user_auth_some in Hsel as (u0 & Hu0 & _ & Hid0 & _).
  unfold Sqlite.select_user_info_by_id. rewrite Husers.
  destruct (find (fun u => Sqlite.id u =? uid) (Sqlite.users (Sqlite.data h)))
    as [u|] eqn:Hfind.
  2:{ rewrite find_none_iff in Hfind. specialize (Hfind u0 Hu0). simpl in Hfind.
      rewrite Hid0, Z.eqb_refl in Hfind. discriminate. }
  apply find_some_in in Hfind as [Hu Hid]. apply Z.eqb_eq in Hid.
  cbn [fmap option_fmap option_map]. unfold Response_json, ret.
  set (r := {| status := 200; statusText := ""; headers := _; body := _ |}).
  destruct (Hnew r) as (H1 & H2 & H3).
  rewrite (setSessionCookie_unfold _ _ _ token (Some 7) H1).
  eexists _, _, _, _. split; [reflexivity|].
  split; [now apply list_lookup_middle|].
  split; [apply lookup_ge_None_2; rewrite length_app; simpl; lia|].
  split; [intros i x Hx; now apply lookup_app_l_Some, lookup_app_l_Some|].
  split; [discriminate|]. intros requestBody0 [= <-].
  rewrite Hpaths. cbn [fst snd Sqlite.data]. split; [reflexivity|].
  eexists. split; [reflexivity|]. split; [intros Hno; now destruct Hno|].
  intros _. cbn [status headers body r default]. split; [reflexivity|].
  split; [apply get_set|]. split.
  - eexists. split; [rewrite Hsessions; apply in_app_iff; right; now left|].
    now split.
  - exists u. split; [exact Hu|]. rewrite <- Hid. split; reflexivity.
Qed.

End LoginRoute.

Section MeRoute.

Context {password_api : BunPassword} {cookie_api : BunCookie}
        {cookie_map : BunCookieMap} {json_api : BunJson}.

(** [GET /api/auth/me] on a store that the service has built: the answer is
    a new response without a [Set-Cookie] header, and the data are not
    changed.  The status is 200 or 401, so the branches "User not found" (404)
    and "Failed to get user info" (500) are never taken; it is 200 exactly
    for the requests that the protected routes let through.  Without a token
    the payload is [{error: "Unauthorized"}] and no statement is run; with a
    token that [verifySession] rejects it is [{error: "Session expired"}];
    with an accepted token it carries the id, username, email and creation
    date of the session's user. *)
Theorem me_route_outcomes (now : Z) (req : Request) (heap : Heap) (h : Sqlite.Handle) :
  reachable h ->
  exists (r' : Response) (h' : Sqlite.Handle),
    me_route now req heap h = (Js.Return (List.length heap, (heap ++ [r'])%list), h')
    /\ Sqlite.data h' = Sqlite.data h
    /\ Headers.get "Set-Cookie" (headers r') = None
    /\ (status r' = 200 \/ status r' = 401)
    /\ (status r' = 200 <-> fst (unauthorized now req h) = Js.Return false)
    /\ (getSessionFromCookies req = None ->
        h' = h
        /\ body r' = Some (JSON_stringify (JsonObj [("error", JsonStr "Unauthorized")])))
    /\ (forall token,
          getSessionFromCookies req = Some token ->
          fst (verifySession now token h) = Js.Return [("valid", Js.Bool false)] ->
          body r' = Some (JSON_stringify (JsonObj [("error", JsonStr "Session expired")])))
    /\ (forall token uid,
          getSessionFromCookies req = Some token ->
          fst (verifySession now token h)
          = Js.Return [("valid", Js.Bool true); ("userId", Js.Num uid)] ->
          exists u,
            In u (Sqlite.users (Sqlite.data h))
            /\ Sqlite.id u = uid
            /\ body r'
               = Some (JSON_stringify
                         (JsonObj
                            [("success", JsonBool true);
                             ("user",
                              JsonObj
                                [("id", JsonNum (Sqlite.id u));
                                 ("username", JsonStr (Sqlite.username u));
                                 ("email", JsonStr (Sqlite.email u));
                                 ("created_at", JsonStr (Sqlite.created_at u))])]))).
Proof.
  intros Hreach.
  destruct (getSessionFromCookies req) as [token|] eqn:Htoken.
  2:{ unfold me_route, try_catch, unauthorized. rewrite Htoken.
      eexists _, h. split; [reflexivity|]. cbn [status headers body fst ret].
      split; [reflexivity|]. split; [reflexivity|]. split; [now right|].
      split; [split; discriminate|]. split; [now split|].
      split; discriminate. }
  rewrite (unauthorized_with_token now req h token Htoken). cbn [fst].
  unfold me_route, try_catch, bind. rewrite Htoken, (token_is_truthy _ _ Htoken).
  cbn [negb]. rewrite verifySession_unfold.
  destruct (Sqlite.select_valid_session (Sqlite.data h) now token)
    as [[uid e]|] eqn:Hsel.
  - destruct (accepted_session_user h now token uid e Hreach Hsel)
      as (Hpos & u & Hu & Hid & Hinfo).
    change (prop "valid" _) with (Js.Bool true).
    change (prop "userId" _) with (Js.Num uid).
    cbn [Js.truthy negb orb as_number].
    replace (uid =? 0) with false by (symmetry; apply Z.eqb_neq; lia).
    cbn [negb]. rewrite getUserById_run. cbn [Sqlite.data]. rewrite Hinfo.
    cbn [fmap option_fmap option_map]. unfold Response_json, ret.
    eexists _, _. split; [reflexivity|]. cbn [status headers body Sqlite.data].
    split; [reflexivity|]. split; [reflexivity|]. split; [now left|].
    split; [now split|]. split; [discriminate|].
    split.
    { intros token' [= <-] Hv. rewrite verifySession_fst, Hsel in Hv. discriminate. }
    intros token' uid' [= <-] Hv. rewrite verifySession_fst, Hsel in Hv.
    injection Hv as <-. exists u.
    split; [exact Hu|]. split; [exact Hid|]. reflexivity.
  - change (prop "valid" _) with (Js.Bool false).
    cbn [Js.truthy negb orb]. unfold Response_json, ret.
    eexists _, _. split; [reflexivity|]. cbn [status headers body Sqlite.data].
    split; [reflexivity|]. split; [reflexivity|]. split; [now right|].
    split; [split; discriminate|]. split; [discriminate|].
    split; [reflexivity|].
    intros token' uid' [= <-] Hv. rewrite verifySession_fst, Hsel in Hv. discriminate.
Qed.

End MeRoute.

Lemma me_route_outcomes_witness :
  exists r',
    fst (me_route (cookie_map := Standin.parser)
           (json_api := JsonStandin.serializer) 1762041602000
           {| request_headers := [("cookie", "sessionToken=" ++ Scenario.token)] |}
           [] Scenario.logged_in)
    = Js.Return (0%nat, [r'])
    /\ status r' = 200.
Proof.
  destruct (me_route_outcomes (password_api := Standin.envelope)
              (cookie_map := Standin.parser) (json_api := JsonStandin.serializer)
              1762041602000
              {| request_headers := [("cookie", "sessionToken=" ++ Scenario.token)] |}
              [] Scenario.logged_in scenario_reachable)
    as (r' & h' & Hcall & _ & _ & _ & Hstatus & _).
  exists r'. split; [now rewrite Hcall|].
  apply Hstatus. vm_compute. reflexivity.
Defined.

Example me_route_alice :
  fst (me_route (cookie_map := Standin.parser)
         (json_api := JsonStandin.serializer) 1762041602000
         {| request_headers := [("cookie", "sessionToken=" ++ Scenario.token)] |}
         [] Scenario.logged_in)
  = Js.Return
      (0%nat,
       [{| status := 200; statusText := "";
           headers := [("content-type", "application/json;charset=utf-8")];
           body :=
             Some (JsonStandin.stringify
                     (JsonObj
                        [("success", JsonBool true);
                         ("user",
                          JsonObj [("id", JsonNum 1);
                                   ("username", JsonStr "alice");
                                   ("email", JsonStr "alice@example.com");
                                   ("created_at", JsonStr "2025-11-02 00:00:00")])])) |}]).
Proof. vm_compute. reflexivity. Qed.
